(** * test-rpc-database: the plugin's HTTP handlers and its benchmark routine

    A shallow embedding of [server/api.go].  The handlers talk to three
    collaborators they do not own: the plugin API of the host (logging,
    configuration, the store service), [database/sql], and the
    [http.ResponseWriter].  Every call to one of them is an event of the
    type [call]; a Go function becomes a Rocq function that returns a tree of
    such calls ([prog]).  What a function does "in every environment" is a
    statement about all the runs of its tree ([runs]); what it does to a
    table is a statement about the tree interpreted over a reference
    database ([interp], [refdb]). *)

From Stdlib Require Import ZArith String Ascii List Lia DecimalString.
From Stdlib Require Import PrimFloat Uint63.
From stdpp Require Import base option list gmap strings sorting.

Set Warnings "-register-all".

Open Scope string_scope.
Open Scope list_scope.
Open Scope Z_scope.

(** ** Go values *)

(** A non-nil Go [error] is represented by its [Error()] text; the Go type
    [error] is [option error], [None] being [nil]. *)
Definition error : Type := string.

(** Go's [int] on the 64-bit platforms the plugin is built for. *)
Definition min_int : Z := - 2 ^ 63.
Definition max_int : Z := 2 ^ 63 - 1.

(** Wrap-around of [int] arithmetic. *)
Definition int_wrap (z : Z) : Z := (z + 2 ^ 63) mod 2 ^ 64 - 2 ^ 63.

(** Saturation, as [time.Time.Sub] does for a [Duration]. *)
Definition int_sat (z : Z) : Z := Z.max min_int (Z.min max_int z).

(** [fmt.Sprintf("%d", z)]. *)
Definition itoa (z : Z) : string := NilZero.string_of_int (Z.to_int z).

(** [float64(z)] for an [int64] [z]. *)
Definition float64_of_int (z : Z) : float :=
  match z with
  | Zneg p => PrimFloat.opp (PrimFloat.of_uint63 (Uint63.of_Z (Zpos p)))
  | _ => PrimFloat.of_uint63 (Uint63.of_Z z)
  end.

(** [time.Duration.Seconds]: a [Duration] is a number of nanoseconds. *)
Definition Seconds (d : Z) : float :=
  let sec := Z.quot d 1000000000 in
  let nsec := Z.rem d 1000000000 in
  PrimFloat.add (float64_of_int sec)
                (PrimFloat.div (float64_of_int nsec) 1e9%float).

(** [strconv.Atoi]: an optional sign, then one or more decimal digits, and
    a value that fits [int]; [None] stands for a non-nil error. *)
Fixpoint digits (s : string) (acc : Z) : option Z :=
  match s with
  | EmptyString => Some acc
  | String c rest =>
      let n := Z.of_nat (nat_of_ascii c) in
      if (48 <=? n) && (n <=? 57)
      then digits rest (10 * acc + (n - 48))
      else None
  end.

Definition Atoi (s : string) : option Z :=
  let '(neg, body) :=
    match s with
    | String "+"%char rest => (false, rest)
    | String "-"%char rest => (true, rest)
    | _ => (false, s)
    end in
  match body with
  | EmptyString => None
  | _ =>
      match digits body 0 with
      | Some n =>
          let v := if neg then - n else n in
          if (min_int <=? v) && (v <=? max_int) then Some v else None
      | None => None
      end
  end.

(** ** The HTTP request *)

(** [textproto.CanonicalMIMEHeaderKey] on keys made of letters, digits and
    hyphens: the first letter and every letter after a hyphen in upper
    case, the others in lower case. *)
Definition upper (c : ascii) : ascii :=
  let n := nat_of_ascii c in
  if (Nat.leb 97 n && Nat.leb n 122)%bool then ascii_of_nat (n - 32) else c.

Definition lower (c : ascii) : ascii :=
  let n := nat_of_ascii c in
  if (Nat.leb 65 n && Nat.leb n 90)%bool then ascii_of_nat (n + 32) else c.

Fixpoint canonical (up : bool) (s : string) : string :=
  match s with
  | EmptyString => EmptyString
  | String c rest =>
      String (if up then upper c else lower c)
             (canonical (Ascii.eqb c "-"%char) rest)
  end.

Definition CanonicalMIMEHeaderKey (s : string) : string := canonical true s.

(** [http.Header] and [url.Values] are both [map[string][]string]; the
    header map is keyed by canonical names. *)
Record Request := {
  Method : string;
  Header : gmap string (list string);
  URL_Query : gmap string (list string)
}.

(** [http.Header.Get]. *)
Definition Header_Get (h : gmap string (list string)) (key : string) : string :=
  match h !! CanonicalMIMEHeaderKey key with
  | Some (v :: _) => v
  | _ => ""
  end.

(** [url.Values.Get]. *)
Definition Values_Get (v : gmap string (list string)) (key : string) : string :=
  match v !! key with
  | Some (x :: _) => x
  | _ => ""
  end.

(** ** The result record and its JSON encoding *)

Record TestResult := {
  InsertTimeSeconds : float;
  TotalQueryTimeSeconds : float;
  Error : string;
  ConnType : string;
  RecordsQueried : Z;
  PageSize : Z
}.

(** [TestResult{}], and the composite literal
    [TestResult{Error: e, ConnType: c}] of the error responses. *)
Definition TestResult_zero : TestResult :=
  {| InsertTimeSeconds := 0%float; TotalQueryTimeSeconds := 0%float;
     Error := ""; ConnType := ""; RecordsQueried := 0; PageSize := 0 |}.

Definition TestResult_error (e c : string) : TestResult :=
  {| InsertTimeSeconds := 0%float; TotalQueryTimeSeconds := 0%float;
     Error := e; ConnType := c; RecordsQueried := 0; PageSize := 0 |}.

Definition set_InsertTimeSeconds (r : TestResult) (v : float) : TestResult :=
  {| InsertTimeSeconds := v;
     TotalQueryTimeSeconds := TotalQueryTimeSeconds r;
     Error := Error r; ConnType := ConnType r;
     RecordsQueried := RecordsQueried r; PageSize := PageSize r |}.

Definition set_TotalQueryTimeSeconds (r : TestResult) (v : float) : TestResult :=
  {| InsertTimeSeconds := InsertTimeSeconds r;
     TotalQueryTimeSeconds := v;
     Error := Error r; ConnType := ConnType r;
     RecordsQueried := RecordsQueried r; PageSize := PageSize r |}.

Definition set_ConnType (r : TestResult) (v : string) : TestResult :=
  {| InsertTimeSeconds := InsertTimeSeconds r;
     TotalQueryTimeSeconds := TotalQueryTimeSeconds r;
     Error := Error r; ConnType := v;
     RecordsQueried := RecordsQueried r; PageSize := PageSize r |}.

Definition set_RecordsQueried (r : TestResult) (v : Z) : TestResult :=
  {| InsertTimeSeconds := InsertTimeSeconds r;
     TotalQueryTimeSeconds := TotalQueryTimeSeconds r;
     Error := Error r; ConnType := ConnType r;
     RecordsQueried := v; PageSize := PageSize r |}.

Definition set_PageSize (r : TestResult) (v : Z) : TestResult :=
  {| InsertTimeSeconds := InsertTimeSeconds r;
     TotalQueryTimeSeconds := TotalQueryTimeSeconds r;
     Error := Error r; ConnType := ConnType r;
     RecordsQueried := RecordsQueried r; PageSize := v |}.

(** A JSON document, kept as a tree. *)
Inductive json :=
| JNumber (f : float)
| JInt (z : Z)
| JString (s : string)
| JObject (fields : list (string * json)).

(** [json.Marshal] of a [TestResult], following the struct tags: the fields
    in declaration order, [error] left out when empty.  A float that is NaN
    or infinite is an [UnsupportedValueError]. *)
Definition json_float (f : float) : json + error :=
  if (PrimFloat.is_nan f || PrimFloat.is_infinity f)%bool
  then inr "json: unsupported value"
  else inl (JNumber f).

Definition json_Marshal (r : TestResult) : json + error :=
  match json_float (InsertTimeSeconds r), json_float (TotalQueryTimeSeconds r) with
  | inl i, inl q =>
      inl (JObject
             ([("insert_time_seconds", i); ("total_query_time_seconds", q)]
              ++ (if String.eqb (Error r) "" then [] else [("error", JString (Error r))])
              ++ [("conn_type", JString (ConnType r));
                  ("records_queried", JInt (RecordsQueried r));
                  ("page_size", JInt (PageSize r))]))
  | inr e, _ => inr e
  | _, inr e => inr e
  end.

(** What is written to the response: text, or an encoded JSON document
    (followed by the newline the encoder adds). *)
Inductive Body :=
| Text (s : string)
| Json (j : json).

(** ** Calls to the environment *)

(** Handles of [*sql.DB], [*sql.Tx] and [*sql.Stmt]. *)
Definition DB : Type := nat.
Definition Tx : Type := nat.
Definition Stmt : Type := nat.

(** A [*sql.Rows] is represented by what iterating it yields: for each row
    [rows.Next()] reports, the outcome of [rows.Scan(&id, &data)]. *)
Definition Rows : Type := list ((Z * string) + error).

(** [model.Config], reduced to the two [*string] settings that are read. *)
Record Config := {
  SqlSettings_DriverName : option string;
  SqlSettings_DataSource : option string
}.

Inductive call : Type -> Type :=
(* p.API and p.client.Store *)
| LogInfo (msg : string) (kv : list string) : call unit
| LogError (msg : string) (kv : list string) : call unit
| GetUnsanitizedConfig : call (option Config)
| GetMasterDB : call (DB + error)
| store_DriverName : call string
(* database/sql *)
| sql_Open (driverName dataSource : string) : call (DB + error)
| db_Close (db : DB) : call unit
| db_Exec (db : DB) (query : string) : call (option error)
| db_QueryRow_Scan (db : DB) (query : string) : call (Z + error)
| db_Begin (db : DB) : call (Tx + error)
| tx_Prepare (tx : Tx) (query : string) : call (Stmt + error)
| stmt_Exec (stmt : Stmt) (arg : string) : call (option error)
| stmt_Close (stmt : Stmt) : call unit
| tx_Rollback (tx : Tx) : call (option error)
| tx_Commit (tx : Tx) : call (option error)
| db_Query (db : DB) (query : string) (limit offset : Z) : call (Rows + error)
| rows_Close : call unit
(* time *)
| time_Now : call Z
(* http.ResponseWriter *)
| w_Header_Set (key value : string) : call unit
| w_Header_Del (key : string) : call unit
| w_WriteHeader (statusCode : Z) : call unit
| w_Write (body : Body) : call (option error).

(** ** Programs *)

Inductive abort :=
| OutOfFuel
| Panic (msg : string).

Inductive prog (R : Type) : Type :=
| Ret (r : R)
| Vis {X : Type} (e : call X) (k : X -> prog R)
| Abort (a : abort).

Arguments Ret {R} r.
Arguments Vis {R X} e k.
Arguments Abort {R} a.

Fixpoint bind {A B : Type} (p : prog A) (k : A -> prog B) : prog B :=
  match p with
  | Ret a => k a
  | Vis e h => Vis e (fun x => bind (h x) k)
  | Abort a => Abort a
  end.

#[global] Instance prog_ret : MRet prog := @Ret.
#[global] Instance prog_bind : MBind prog := fun A B k p => bind p k.

Definition do {X : Type} (e : call X) : prog X := Vis e Ret.

(** [*p] for a pointer [p]. *)
Definition deref {A : Type} (p : option A) : prog A :=
  match p with
  | Some a => Ret a
  | None => Abort (Panic "invalid memory address or nil pointer dereference")
  end.

(** [defer d] followed by the rest of the function body [p]: [d] runs once
    [p] has produced the function's results. *)
Definition defer {A : Type} (d : prog unit) (p : prog A) : prog A :=
  a ← p; d;; Ret a.

(** ** [server/api.go] *)

Module Api.

(** [model.DatabaseDriverMysql] and [model.DatabaseDriverPostgres], the
    constants of the host's [model] package. *)
Definition DatabaseDriverMysql : string := "mysql".
Definition DatabaseDriverPostgres : string := "postgres".

Definition StatusOK : Z := 200.
Definition StatusUnauthorized : Z := 401.
Definition StatusInternalServerError : Z := 500.

Definition newline : string := String "010"%char EmptyString.
Definition quote : string := String "034"%char EmptyString.

(** [http.Error] of [net/http]. *)
Definition http_Error (msg : string) (code : Z) : prog unit :=
  do (w_Header_Del "Content-Length");;
  do (w_Header_Set "Content-Type" "text/plain; charset=utf-8");;
  do (w_Header_Set "X-Content-Type-Options" "nosniff");;
  do (w_WriteHeader code);;
  _ ← do (w_Write (Text (msg +:+ newline)));
  Ret tt.

(** [json.NewEncoder(w).Encode(data)]: marshal, then write. *)
Definition Encode (data : TestResult) : prog (option error) :=
  match json_Marshal data with
  | inl j => do (w_Write (Json j))
  | inr e => Ret (Some e)
  end.

Definition encode_failed : string :=
  "{" +:+ quote +:+ "error" +:+ quote +:+ ": "
      +:+ quote +:+ "Failed to encode response" +:+ quote +:+ "}".

Definition respondWithJSON (statusCode : Z) (data : TestResult) : prog unit :=
  do (w_Header_Set "Content-Type" "application/json");;
  do (w_WriteHeader statusCode);;
  err ← Encode data;
  match err with
  | Some _ =>
      do (w_WriteHeader StatusInternalServerError);;
      _ ← do (w_Write (Text encode_failed));
      Ret tt
  | None => Ret tt
  end.

(** *** The protected route *)

Definition HelloWorld (r : Request) : prog unit :=
  err ← do (w_Write (Text "Hello, world!"));
  match err with
  | Some e =>
      do (LogError "Failed to write response" ["error"; e]);;
      http_Error e StatusInternalServerError
  | None => Ret tt
  end.

Definition MattermostAuthorizationRequired
    (next : Request -> prog unit) (r : Request) : prog unit :=
  let userID := Header_Get (Header r) "Mattermost-User-ID" in
  if String.eqb userID ""
  then http_Error "Not authorized" StatusUnauthorized
  else next r.

(** What [ServeHTTP] registers for [GET /api/v1/hello]: the handler behind
    the middleware of the secure subrouter. *)
Definition helloRoute : Request -> prog unit :=
  MattermostAuthorizationRequired HelloWorld.

(** *** The benchmark routine *)

Definition totalRecords : Z := 50000.

Definition tab3 : string := String "009"%char (String "009"%char (String "009"%char EmptyString)).
Definition tab2 : string := String "009"%char (String "009"%char EmptyString).

Definition createTableSQL (driverName : string) : string :=
  if String.eqb driverName "postgres"
  then newline
    +:+ tab3 +:+ "CREATE TABLE IF NOT EXISTS plugin_test_rpc (" +:+ newline
    +:+ tab3 +:+ String "009"%char "id SERIAL PRIMARY KEY," +:+ newline
    +:+ tab3 +:+ String "009"%char "data VARCHAR(255) NOT NULL," +:+ newline
    +:+ tab3 +:+ String "009"%char "created_at TIMESTAMP DEFAULT CURRENT_TIMESTAMP" +:+ newline
    +:+ tab3 +:+ ")" +:+ newline +:+ tab2
  else newline
    +:+ tab3 +:+ "CREATE TABLE IF NOT EXISTS plugin_test_rpc (" +:+ newline
    +:+ tab3 +:+ String "009"%char "id INT AUTO_INCREMENT PRIMARY KEY," +:+ newline
    +:+ tab3 +:+ String "009"%char "data VARCHAR(255) NOT NULL," +:+ newline
    +:+ tab3 +:+ String "009"%char "created_at TIMESTAMP DEFAULT CURRENT_TIMESTAMP" +:+ newline
    +:+ tab3 +:+ ")" +:+ newline +:+ tab2.

Definition countSQL : string := "SELECT COUNT(*) FROM plugin_test_rpc".

Definition insertSQL (driverName : string) : string :=
  if String.eqb driverName "postgres"
  then "INSERT INTO plugin_test_rpc (data) VALUES ($1)"
  else "INSERT INTO plugin_test_rpc (data) VALUES (?)".

Definition selectSQL (driverName : string) : string :=
  if String.eqb driverName "postgres"
  then "SELECT id, data FROM plugin_test_rpc ORDER BY id LIMIT $1 OFFSET $2"
  else "SELECT id, data FROM plugin_test_rpc ORDER BY id LIMIT ? OFFSET ?".

(** [time.Since(start)]. *)
Definition time_Since (start : Z) : prog Z :=
  now ← do time_Now;
  Ret (int_sat (now - start)).

(** [if rbErr := tx.Rollback(); rbErr != nil { LogError }]. *)
Definition rollback (tx : Tx) : prog unit :=
  rbErr ← do (tx_Rollback tx);
  match rbErr with
  | Some rb => do (LogError "Failed to rollback transaction" ["error"; rb])
  | None => Ret tt
  end.

(** [fmt.Sprintf("Test data %d", i)]. *)
Definition payload (i : Z) : string := "Test data " +:+ itoa i.

(** [for i := count; i < totalRecords; i++]: the loop started at [i].
    [Some e] is the error the function returns from inside the loop. *)
Fixpoint insertLoop (fuel : nat) (tx : Tx) (insertStmt : Stmt) (i : Z)
  : prog (option error) :=
  if i <? totalRecords then
    match fuel with
    | O => Abort OutOfFuel
    | S fuel' =>
        err ← do (stmt_Exec insertStmt (payload i));
        match err with
        | Some e =>
            rollback tx;;
            Ret (Some ("failed to insert row " +:+ itoa i +:+ ": " +:+ e))
        | None => insertLoop fuel' tx insertStmt (int_wrap (i + 1))
        end
    end
  else Ret None.

(** [for rows.Next() { rows.Scan(&id, &data) }]. *)
Fixpoint readRows (rows : Rows) : prog (option error) :=
  match rows with
  | [] => Ret None
  | inl _ :: rest => readRows rest
  | inr e :: _ =>
      do rows_Close;;
      Ret (Some ("failed to scan row: " +:+ e))
  end.

(** The page requested at [offset]. *)
Definition pageLimit (batchSize offset : Z) : Z :=
  if int_wrap (offset + batchSize) >? totalRecords
  then int_wrap (totalRecords - offset)
  else batchSize.

(** [for offset := 0; offset < totalRecords; offset += batchSize]: the loop
    started at [offset]. *)
Fixpoint scanLoop (fuel : nat) (db : DB) (driverName : string)
    (batchSize offset : Z) : prog (option error) :=
  if offset <? totalRecords then
    match fuel with
    | O => Abort OutOfFuel
    | S fuel' =>
        let limit := pageLimit batchSize offset in
        r ← do (db_Query db (selectSQL driverName) limit offset);
        match r with
        | inr e =>
            Ret (Some ("failed to query rows at offset " +:+ itoa offset
                       +:+ ": " +:+ e))
        | inl rows =>
            err ← readRows rows;
            match err with
            | Some e => Ret (Some e)
            | None =>
                do rows_Close;;
                scanLoop fuel' db driverName batchSize
                         (int_wrap (offset + batchSize))
            end
        end
    end
  else Ret None.

(** Lines 260-302: the scan and the final result.  The loop gets
    [totalRecords] iterations of fuel, which a [batchSize] of one or more
    never uses up ([scanLoop_total]); only a [batchSize] below one can
    reach [OutOfFuel], and no caller passes one. *)
Definition scanPhase (db : DB) (driverName : string) (batchSize : Z)
    (result : TestResult) : prog (TestResult * option error) :=
  startTotalQuery ← do time_Now;
  let result := set_PageSize result batchSize in
  err ← scanLoop (Z.to_nat totalRecords) db driverName batchSize 0;
  match err with
  | Some e => Ret (result, Some e)
  | None =>
      d ← time_Since startTotalQuery;
      let result := set_TotalQueryTimeSeconds result (Seconds d) in
      let result := set_RecordsQueried result totalRecords in
      Ret (result, None)
  end.

Definition runDatabaseTest (db : DB) (driverName : string) (batchSize : Z)
  : prog (TestResult * option error) :=
  let result := TestResult_zero in
  do (LogInfo "Database driver" ["name"; driverName]);;
  err ← do (db_Exec db (createTableSQL driverName));
  match err with
  | Some e => Ret (result, Some ("failed to create table: " +:+ e))
  | None =>
  r ← do (db_QueryRow_Scan db countSQL);
  match r with
  | inr e => Ret (result, Some ("failed to check record count: " +:+ e))
  | inl count =>
  if count <? totalRecords then
    do (LogInfo ("Inserting records: " +:+ itoa count +:+ " of "
                 +:+ itoa totalRecords) []);;
    startInsert ← do time_Now;
    r ← do (db_Begin db);
    match r with
    | inr e => Ret (result, Some ("failed to begin transaction: " +:+ e))
    | inl tx =>
    r ← do (tx_Prepare tx (insertSQL driverName));
    match r with
    | inr e =>
        rollback tx;;
        Ret (result, Some ("failed to prepare statement: " +:+ e))
    | inl insertStmt =>
    defer (do (stmt_Close insertStmt)) (
      err ← insertLoop (Z.to_nat (totalRecords - count)) tx insertStmt count;
      match err with
      | Some e => Ret (result, Some e)
      | None =>
      err ← do (tx_Commit tx);
      match err with
      | Some e => Ret (result, Some ("failed to commit transaction: " +:+ e))
      | None =>
      d ← time_Since startInsert;
      scanPhase db driverName batchSize (set_InsertTimeSeconds result (Seconds d))
      end end)
    end end
  else
    do (LogInfo ("Table already has " +:+ itoa totalRecords
                 +:+ " or more records") []);;
    scanPhase db driverName batchSize result
  end end.

(** *** The two test endpoints *)

(** Lines 66-72 and 106-112, the same in both handlers. *)
Definition parsePageSize (r : Request) : Z :=
  let pageSize := 100 in
  let pageSizeParam := Values_Get (URL_Query r) "page_size" in
  if negb (String.eqb pageSizeParam "") then
    match Atoi pageSizeParam with
    | Some size => if size >? 0 then size else pageSize
    | None => pageSize
    end
  else pageSize.

(** [TestDatabase] from line 74 on, with [pageSize] settled. *)
Definition TestDatabase_with (pageSize : Z) : prog unit :=
  r ← do GetMasterDB;
  match r with
  | inr e =>
      do (LogError "Failed to get database" ["error"; e]);;
      respondWithJSON StatusInternalServerError
        (TestResult_error ("Failed to get database: " +:+ e) "rpc")
  | inl db =>
  driverName ← do store_DriverName;
  '(result, err) ← runDatabaseTest db driverName pageSize;
  match err with
  | Some e =>
      do (LogError "Test failed" ["error"; e]);;
      respondWithJSON StatusInternalServerError (TestResult_error e "rpc")
  | None =>
      let result := set_ConnType result "rpc" in
      respondWithJSON StatusOK result
  end end.

Definition TestDatabase (r : Request) : prog unit :=
  TestDatabase_with (parsePageSize r).

(** [TestDatabaseRaw] from line 114 on, with [pageSize] settled. *)
Definition TestDatabaseRaw_with (pageSize : Z) : prog unit :=
  config ← do GetUnsanitizedConfig;
  match config with
  | None =>
      respondWithJSON StatusInternalServerError
        (TestResult_error "Failed to get server configuration" "raw")
  | Some config =>
  configured ← deref (SqlSettings_DriverName config);
  let connect (driverName : string) : prog unit :=
    dataSource ← deref (SqlSettings_DataSource config);
    r ← do (sql_Open driverName dataSource);
    match r with
    | inr e =>
        do (LogError "Failed to connect to database directly" ["error"; e]);;
        respondWithJSON StatusInternalServerError
          (TestResult_error ("Failed to connect to database: " +:+ e) "raw")
    | inl db =>
    defer (do (db_Close db)) (
      '(result, err) ← runDatabaseTest db driverName pageSize;
      match err with
      | Some e =>
          do (LogError "Test failed" ["error"; e]);;
          respondWithJSON StatusInternalServerError (TestResult_error e "raw")
      | None =>
          let result := set_ConnType result "raw" in
          respondWithJSON StatusOK result
      end)
    end in
  if String.eqb configured DatabaseDriverMysql then connect "mysql"
  else if String.eqb configured DatabaseDriverPostgres then connect "postgres"
  else
    respondWithJSON StatusInternalServerError
      (TestResult_error ("Unsupported database driver: " +:+ configured) "raw")
  end.

Definition TestDatabaseRaw (r : Request) : prog unit :=
  TestDatabaseRaw_with (parsePageSize r).

End Api.

Import Api.

(** ** Runs *)

(** One call together with what the environment answered. *)
Inductive entry :=
| Entry {X : Type} (e : call X) (x : X).

Notation "e ~> x" := (Entry e x) (at level 55, no associativity).

Definition trace : Type := list entry.

(** [runs p tr r]: answered as [tr] records, [p] makes exactly the calls of
    [tr] and returns [r]. *)
Fixpoint runs {R : Type} (p : prog R) (tr : trace) (r : R) : Prop :=
  match p with
  | Ret r' => tr = [] /\ r' = r
  | Vis e k => exists x tr', tr = (e ~> x) :: tr' /\ runs (k x) tr' r
  | Abort _ => False
  end.

(** [total p]: whatever the environment answers, [p] neither panics nor
    runs out of fuel. *)
Fixpoint total {R : Type} (p : prog R) : Prop :=
  match p with
  | Ret _ => True
  | Vis e k => forall x, total (k x)
  | Abort _ => False
  end.

(** Interpretation over an environment with state [W]. *)
Definition handler (W : Type) : Type := forall X : Type, call X -> W -> X * W.

Inductive outcome (R : Type) : Type :=
| Done (r : R)
| Aborted (a : abort).

Arguments Done {R} r.
Arguments Aborted {R} a.

Fixpoint interp {W R : Type} (h : handler W) (p : prog R) (w : W)
  : outcome R * W * trace :=
  match p with
  | Ret r => (Done r, w, [])
  | Vis e k =>
      let '(x, w1) := h _ e w in
      let '(r, w2, tr) := interp h (k x) w1 in
      (r, w2, (e ~> x) :: tr)
  | Abort a => (Aborted a, w, [])
  end.

(** The environment's state after it has answered the calls of a trace, and
    whether the recorded answers are the ones it gives. *)
Fixpoint replay {W : Type} (h : handler W) (tr : trace) (w : W) : W :=
  match tr with
  | [] => w
  | Entry e _ :: tr' => replay h tr' (h _ e w).2
  end.

Fixpoint answered {W : Type} (h : handler W) (tr : trace) (w : W) : Prop :=
  match tr with
  | [] => True
  | Entry e x :: tr' => (h _ e w).1 = x /\ answered h tr' (h _ e w).2
  end.

(** Projections of a trace. *)
Definition select {A : Type} (f : forall X : Type, call X -> X -> option A)
    (tr : trace) : list A :=
  omap (fun ent => match ent with Entry e x => f _ e x end) tr.

(** The answers of [GetUnsanitizedConfig]. *)
Definition configs : trace -> list (option Config) :=
  select (fun X e =>
    match e in call X return X -> option (option Config) with
    | GetUnsanitizedConfig => fun x => Some x
    | _ => fun _ => None
    end).

(** The calls of [sql.Open]: driver name and data source. *)
Definition opened : trace -> list (string * string) :=
  select (fun X e _ =>
    match e with
    | sql_Open d s => Some (d, s)
    | _ => None
    end).

(** The answers of the count query. *)
Definition counted : trace -> list (Z + error) :=
  select (fun X e =>
    match e in call X return X -> option (Z + error) with
    | db_QueryRow_Scan _ _ => fun x => Some x
    | _ => fun _ => None
    end).

(** The executions of the insert statement: argument and outcome. *)
Definition inserted : trace -> list (string * option error) :=
  select (fun X e =>
    match e in call X return X -> option (string * option error) with
    | stmt_Exec _ s => fun x => Some (s, x)
    | _ => fun _ => None
    end).

(** The outcomes of [tx.Commit] and [tx.Rollback]. *)
Definition commits : trace -> list (option error) :=
  select (fun X e =>
    match e in call X return X -> option (option error) with
    | tx_Commit _ => fun x => Some x
    | _ => fun _ => None
    end).

Definition rollbacks : trace -> list (option error) :=
  select (fun X e =>
    match e in call X return X -> option (option error) with
    | tx_Rollback _ => fun x => Some x
    | _ => fun _ => None
    end).

(** The pages the scan asks for: limit and offset. *)
Definition queries : trace -> list (Z * Z) :=
  select (fun X e _ =>
    match e with
    | db_Query _ _ limit offset => Some (limit, offset)
    | _ => None
    end).

(** The rows the scan queries returned. *)
Definition returned : trace -> list Rows :=
  select (fun X e =>
    match e in call X return X -> option Rows with
    | db_Query _ _ _ _ => fun x => match x with inl rows => Some rows | inr _ => None end
    | _ => fun _ => None
    end).

(** The status codes and the bodies written to the response. *)
Definition statuses : trace -> list Z :=
  select (fun X e _ =>
    match e with
    | w_WriteHeader c => Some c
    | _ => None
    end).

Definition written : trace -> list Body :=
  select (fun X e _ =>
    match e with
    | w_Write b => Some b
    | _ => None
    end).

(** The error log. *)
Definition errors_logged : trace -> list (string * list string) :=
  select (fun X e _ =>
    match e with
    | LogError m kv => Some (m, kv)
    | _ => None
    end).

(** ** Generic facts about runs *)

Ltac unmonad := unfold mbind, prog_bind, mret, prog_ret, do in *.

Lemma select_app {A} (f : forall X : Type, call X -> X -> option A) t1 t2 :
  select f (t1 ++ t2) = select f t1 ++ select f t2.
Proof. unfold select. apply omap_app. Qed.

Lemma runs_bind {A B} (p : prog A) (k : A -> prog B) tr b :
  runs (bind p k) tr b <->
  exists a t1 t2, tr = t1 ++ t2 /\ runs p t1 a /\ runs (k a) t2 b.
Proof.
  revert tr. induction p as [a | X e h IH | a]; intros tr; simpl.
  - split.
    + intros Hk. exists a, [], tr. auto.
    + intros (a' & t1 & t2 & -> & [-> ->] & Hk). exact Hk.
  - split.
    + intros (x & tr' & -> & Hr). apply IH in Hr as (a & t1 & t2 & -> & H1 & H2).
      exists a, ((e ~> x) :: t1), t2. split; [reflexivity|]. split; [|exact H2].
      exists x, t1. auto.
    + intros (a & t1 & t2 & -> & (x & t1' & -> & H1) & H2).
      exists x, (t1' ++ t2). split; [reflexivity|]. apply IH. eauto 6.
  - split; [tauto|]. intros (a' & t1 & t2 & _ & [] & _).
Qed.

Lemma runs_do {X} (e : call X) tr x :
  runs (do e) tr x <-> tr = [e ~> x].
Proof.
  unfold do; simpl. split.
  - intros (y & tr' & -> & -> & ->). reflexivity.
  - intros ->. eauto.
Qed.

Lemma total_bind {A B} (p : prog A) (k : A -> prog B) :
  total p -> (forall a, total (k a)) -> total (bind p k).
Proof.
  intros Hp Hk. induction p as [a | X e h IH | a]; simpl in *; auto.
Qed.

Lemma total_runs {W R} (h : handler W) (p : prog R) w :
  total p -> exists r, (interp h p w).1.1 = Done r.
Proof.
  revert w. induction p as [a | X e k IH | a]; intros w Hp; simpl in *.
  - eauto.
  - destruct (h X e w) as [x w1]. specialize (IH x w1 (Hp x)) as [r Hr].
    destruct (interp h (k x) w1) as [[r' w2] tr]. simpl in *. eauto.
  - contradiction.
Qed.

Lemma interp_sound {W R} (h : handler W) (p : prog R) w r w' tr :
  interp h p w = (Done r, w', tr) ->
  runs p tr r /\ answered h tr w /\ w' = replay h tr w.
Proof.
  revert w tr. induction p as [a | X e k IH | a]; intros w tr; simpl.
  - intros [= -> -> <-]. simpl. auto.
  - destruct (h X e w) as [x w1] eqn:Hh.
    destruct (interp h (k x) w1) as [[r' w2] tr'] eqn:Hi.
    intros [= -> -> <-]. apply IH in Hi as (Hr & Ha & ->).
    simpl. rewrite Hh. simpl. eauto 7.
  - discriminate.
Qed.

Lemma replay_app {W} (h : handler W) t1 t2 w :
  replay h (t1 ++ t2) w = replay h t2 (replay h t1 w).
Proof. revert w. induction t1 as [|[X e x] t1 IH]; intros w; simpl; auto. Qed.

Lemma answered_app {W} (h : handler W) t1 t2 w :
  answered h (t1 ++ t2) w <-> answered h t1 w /\ answered h t2 (replay h t1 w).
Proof.
  revert w. induction t1 as [|[X e x] t1 IH]; intros w; simpl.
  - tauto.
  - rewrite IH. tauto.
Qed.

(** ** A reference database *)

(** The environment the database-level statements are about: one
    connection to a server holding (or not yet holding) the table
    [plugin_test_rpc], with at most one open transaction.  Which calls fail,
    and how much time each takes, is up to an [Oracle]; a call that does not
    fail does what the SQL it carries says. *)
Module Ref.

Record Row := {
  id : Z;
  data : string;
  created_at : Z
}.

Record World := {
  table : option (list Row);      (* plugin_test_rpc, once created *)
  next_id : Z;                    (* the auto-increment counter *)
  pending : option (list Row);    (* rows of the open transaction *)
  clock : Z;
  calls : nat;                    (* calls answered so far *)
  config : option Config;
  driver : string
}.

Record Oracle := {
  fault : nat -> option error;    (* the failure of the n-th call, if any *)
  tick : nat -> nat               (* the nanoseconds the n-th call takes *)
}.

(** The rows of the table; none while it does not exist. *)
Definition rows (w : World) : list Row :=
  match table w with
  | Some l => l
  | None => []
  end.

Definition set_table (w : World) (t : option (list Row)) : World :=
  {| table := t; next_id := next_id w; pending := pending w;
     clock := clock w; calls := calls w; config := config w;
     driver := driver w |}.

Definition set_pending (w : World) (p : option (list Row)) : World :=
  {| table := table w; next_id := next_id w; pending := p;
     clock := clock w; calls := calls w; config := config w;
     driver := driver w |}.

Definition set_next_id (w : World) (n : Z) : World :=
  {| table := table w; next_id := n; pending := pending w;
     clock := clock w; calls := calls w; config := config w;
     driver := driver w |}.

(** Every call takes its time and is counted. *)
Definition advance (o : Oracle) (w : World) : World :=
  {| table := table w; next_id := next_id w; pending := pending w;
     clock := clock w + Z.of_nat (tick o (calls w));
     calls := S (calls w); config := config w; driver := driver w |}.

Definition by_id (a b : Row) : Prop := id a <= id b.

#[global] Instance by_id_dec a b : Decision (by_id a b).
Proof. unfold by_id. apply _. Defined.

(** [SELECT id, data ... ORDER BY id LIMIT limit OFFSET offset]. *)
Definition page (l : list Row) (limit offset : Z) : Rows :=
  map (fun r => inl (id r, data r))
      (take (Z.to_nat limit) (drop (Z.to_nat offset) (merge_sort by_id l))).

Definition no_table : error := "table plugin_test_rpc does not exist".
Definition no_tx : error := "sql: transaction has already been committed or rolled back".

Definition answer (o : Oracle) : handler World := fun X e w =>
  let f := fault o (calls w) in
  let w1 := advance o w in
  match e in call X return X * World with
  | LogInfo _ _ => (tt, w1)
  | LogError _ _ => (tt, w1)
  | GetUnsanitizedConfig => (config w, w1)
  | GetMasterDB =>
      match f with Some err => (inr err, w1) | None => (inl 0%nat, w1) end
  | store_DriverName => (driver w, w1)
  | sql_Open _ _ =>
      match f with Some err => (inr err, w1) | None => (inl 1%nat, w1) end
  | db_Close _ => (tt, w1)
  | db_Exec _ _ =>
      (* CREATE TABLE IF NOT EXISTS *)
      match f with
      | Some err => (Some err, w1)
      | None =>
          (None, match table w with
                 | Some _ => w1
                 | None => set_table w1 (Some [])
                 end)
      end
  | db_QueryRow_Scan _ _ =>
      (* SELECT COUNT( * ) *)
      match f, table w with
      | Some err, _ => (inr err, w1)
      | None, Some l => (inl (Z.of_nat (length l)), w1)
      | None, None => (inr no_table, w1)
      end
  | db_Begin _ =>
      match f with
      | Some err => (inr err, w1)
      | None => (inl 0%nat, set_pending w1 (Some []))
      end
  | tx_Prepare _ _ =>
      match f with Some err => (inr err, w1) | None => (inl 0%nat, w1) end
  | stmt_Exec _ s =>
      (* INSERT INTO plugin_test_rpc (data) VALUES (s) *)
      match f, table w, pending w with
      | Some err, _, _ => (Some err, w1)
      | None, Some _, Some p =>
          (None,
           set_next_id
             (set_pending w1
                (Some (p ++ [{| id := next_id w; data := s;
                                created_at := clock w1 |}])))
             (next_id w + 1))
      | None, None, _ => (Some no_table, w1)
      | None, _, None => (Some no_tx, w1)
      end
  | stmt_Close _ => (tt, w1)
  | tx_Rollback _ => (f, set_pending w1 None)
  | tx_Commit _ =>
      match f, table w, pending w with
      | Some err, _, _ => (Some err, set_pending w1 None)
      | None, Some l, Some p =>
          (None, set_pending (set_table w1 (Some (l ++ p))) None)
      | None, _, _ => (Some no_tx, set_pending w1 None)
      end
  | db_Query _ _ limit offset =>
      match f, table w with
      | Some err, _ => (inr err, w1)
      | None, Some l =>
          if (limit <? 0) || (offset <? 0)
          then (inr "LIMIT and OFFSET must not be negative", w1)
          else (inl (page l limit offset), w1)
      | None, None => (inr no_table, w1)
      end
  | rows_Close => (tt, w1)
  | time_Now => (clock w1, w1)
  | w_Header_Set _ _ => (tt, w1)
  | w_Header_Del _ => (tt, w1)
  | w_WriteHeader _ => (tt, w1)
  | w_Write _ => (f, w1)
  end.

(** A server holding the rows [l], or no table yet. *)
Definition world (t : option (list Row)) (cfg : option Config) (d : string) : World :=
  {| table := t;
     next_id := 1 + foldr (fun r m => Z.max (id r) m) 0 (default [] t);
     pending := None; clock := 0; calls := 0; config := cfg; driver := d |}.

(** [n] rows numbered from 1. *)
Definition filled (n : nat) : list Row :=
  map (fun k => {| id := Z.of_nat k; data := payload (Z.of_nat k - 1);
                   created_at := 0 |}) (seq 1 n).

(** The oracle under which nothing fails and every call takes [ns]. *)
Definition calm (ns : nat) : Oracle :=
  {| fault := fun _ => None; tick := fun _ => ns |}.

(** The oracle under which the call number [n] fails with [err]. *)
Definition failing (n : nat) (err : error) (ns : nat) : Oracle :=
  {| fault := fun k => if Nat.eqb k n then Some err else None;
     tick := fun _ => ns |}.

End Ref.

Import Ref.

Arguments totalRecords : simpl never.
Arguments scanPhase : simpl never.
Arguments respondWithJSON : simpl never.
Arguments http_Error : simpl never.
Arguments rollback : simpl never.
Arguments json_Marshal : simpl never.

(** ** Responses *)

(** The calls [http.Error] makes; [x] is the outcome of the write. *)
Definition error_response (msg : string) (code : Z) (x : option error) : trace :=
  [w_Header_Del "Content-Length" ~> tt;
   w_Header_Set "Content-Type" "text/plain; charset=utf-8" ~> tt;
   w_Header_Set "X-Content-Type-Options" "nosniff" ~> tt;
   w_WriteHeader code ~> tt;
   w_Write (Text (msg +:+ newline)) ~> x].

(** The calls [respondWithJSON] makes for a document [j]: the write either
    succeeds, or fails and is followed by the fallback. *)
Definition json_response (code : Z) (j : json) (tr : trace) : Prop :=
  tr = [w_Header_Set "Content-Type" "application/json" ~> tt;
        w_WriteHeader code ~> tt;
        w_Write (Json j) ~> None]
  \/ exists e y,
     tr = [w_Header_Set "Content-Type" "application/json" ~> tt;
           w_WriteHeader code ~> tt;
           w_Write (Json j) ~> Some e;
           w_WriteHeader StatusInternalServerError ~> tt;
           w_Write (Text encode_failed) ~> y].

(** The document of an error response. *)
Definition error_json (e c : string) : json :=
  JObject [("insert_time_seconds", JNumber 0%float);
           ("total_query_time_seconds", JNumber 0%float);
           ("error", JString e);
           ("conn_type", JString c);
           ("records_queried", JInt 0);
           ("page_size", JInt 0)].

Lemma runs_http_Error msg code tr u :
  runs (http_Error msg code) tr u <-> exists x, tr = error_response msg code x.
Proof.
  unfold http_Error, error_response. unmonad. simpl. split.
  - intros ([] & ? & -> & [] & ? & -> & [] & ? & -> & [] & ? & -> & x & ? & -> & -> & _).
    eauto.
  - intros (x & ->). destruct u. repeat (eexists _, _; split; [reflexivity|]). auto.
Qed.

Lemma runs_respondWithJSON code data j tr u :
  json_Marshal data = inl j ->
  runs (respondWithJSON code data) tr u -> json_response code j tr.
Proof.
  intros Hj. unfold respondWithJSON, Encode, json_response. rewrite Hj.
  unmonad. simpl.
  intros ([] & ? & -> & [] & ? & -> & [e|] & ? & -> & H); simpl in H.
  - destruct H as ([] & ? & -> & y & ? & -> & -> & _). right. eauto.
  - destruct H as [-> _]. left. reflexivity.
Qed.

Lemma respondWithJSON_runs code data j x y :
  json_Marshal data = inl j ->
  runs (respondWithJSON code data)
       ([w_Header_Set "Content-Type" "application/json" ~> tt;
         w_WriteHeader code ~> tt;
         w_Write (Json j) ~> x]
        ++ match x with
           | Some _ => [w_WriteHeader StatusInternalServerError ~> tt;
                        w_Write (Text encode_failed) ~> y]
           | None => []
           end) tt.
Proof.
  intros Hj. unfold respondWithJSON, Encode. rewrite Hj. unmonad. simpl.
  destruct x; simpl; repeat (eexists _, _; split; [reflexivity|]); simpl;
    repeat (eexists _, _; split; [reflexivity|]); auto.
Qed.

Lemma json_Marshal_error e c :
  e <> "" -> json_Marshal (TestResult_error e c) = inl (error_json e c).
Proof.
  intros He. unfold json_Marshal, TestResult_error, error_json. simpl.
  destruct (String.eqb e "") eqn:E; [apply String.eqb_eq in E; contradiction|].
  reflexivity.
Qed.

Lemma total_respondWithJSON code data : total (respondWithJSON code data).
Proof.
  unfold respondWithJSON, Encode. unmonad. simpl. intros [] [].
  destruct (json_Marshal data); simpl.
  - intros [e|]; simpl; auto.
  - simpl. auto.
Qed.

Opaque respondWithJSON http_Error.

(** ** The loops of the benchmark routine *)

Lemma totalRecords_eq : totalRecords = 50000.
Proof. reflexivity. Qed.

Opaque totalRecords.

Lemma int_wrap_id z : min_int <= z <= max_int -> int_wrap z = z.
Proof.
  unfold int_wrap, min_int, max_int. intros H.
  rewrite Z.mod_small; lia.
Qed.

Lemma int_wrap_range z : min_int <= int_wrap z <= max_int.
Proof.
  unfold int_wrap, min_int, max_int.
  pose proof (Z.mod_pos_bound (z + 2 ^ 63) (2 ^ 64) ltac:(lia)). lia.
Qed.

(** A successful execution of the insert statement for row [i]. *)
Definition ins (stmt : Stmt) (i : Z) : entry := stmt_Exec stmt (payload i) ~> None.

(** The calls of [rollback]; [rb] is the outcome of [tx.Rollback]. *)
Definition rollback_trace (tx : Tx) (rb : option error) : trace :=
  (tx_Rollback tx ~> rb)
  :: match rb with
     | Some x => [LogError "Failed to rollback transaction" ["error"; x] ~> tt]
     | None => []
     end.

Lemma runs_rollback tx tr u :
  runs (rollback tx) tr u <-> exists rb, tr = rollback_trace tx rb.
Proof.
  unfold rollback, rollback_trace. unmonad. simpl. split.
  - intros ([x|] & ? & -> & H); simpl in H.
    + destruct H as ([] & ? & -> & -> & _). exists (Some x). reflexivity.
    + destruct H as [-> _]. exists None. reflexivity.
  - intros ([x|] & ->); destruct u; repeat (eexists _, _; split; [reflexivity|]);
      simpl; repeat (eexists _, _; split; [reflexivity|]); auto.
Qed.

Lemma total_rollback tx : total (rollback tx).
Proof. unfold rollback. unmonad. simpl. intros [x|]; simpl; auto. Qed.

Opaque rollback.

(** Every run of the insert loop started at [i] either executes the
    statement for [i], [i+1], ..., [totalRecords - 1] and goes on, or stops
    at the first failure, rolls back and returns that failure. *)
Lemma runs_insertLoop fuel tx stmt i tr r :
  min_int <= i ->
  runs (insertLoop fuel tx stmt i) tr r ->
  (r = None /\ tr = map (ins stmt) (seqZ i (totalRecords - i)))
  \/ exists j x rb,
       i <= j < totalRecords
       /\ r = Some ("failed to insert row " +:+ itoa j +:+ ": " +:+ x)
       /\ tr = map (ins stmt) (seqZ i (j - i))
               ++ (stmt_Exec stmt (payload j) ~> Some x) :: rollback_trace tx rb.
Proof.
  revert i tr. induction fuel as [|fuel IH]; intros i tr Hi; simpl;
    destruct (i <? totalRecords) eqn:E;
    try (apply Z.ltb_lt in E); try (apply Z.ltb_ge in E).
  - intros [].
  - intros [-> <-]. left. rewrite seqZ_nil by lia. auto.
  - unmonad. simpl. intros ([x|] & tr' & -> & H); simpl in H.
    + apply runs_bind in H as ([] & t1 & t2 & -> & H1 & [-> <-]).
      apply runs_rollback in H1 as (rb & ->).
      right. exists i, x, rb. rewrite Z.sub_diag. simpl.
      rewrite app_nil_r. split; [lia|]. auto.
    + rewrite int_wrap_id in H
        by (rewrite totalRecords_eq in E; unfold max_int, min_int in *; lia).
      apply IH in H; [|lia].
      destruct H as [[-> ->] | (j & x & rb & Hj & -> & ->)].
      * left. split; [reflexivity|].
        rewrite (seqZ_cons i) by lia. simpl. unfold ins at 2.
        do 3 f_equal; lia.
      * right. exists j, x, rb. split; [lia|]. split; [reflexivity|].
        rewrite (seqZ_cons i (j - i)) by lia. simpl. unfold ins at 3.
        do 4 f_equal; lia.
  - intros [-> <-]. left. rewrite seqZ_nil by lia. auto.
Qed.

(** The fuel the routine gives the insert loop is enough, whatever the
    count query answered. *)
Lemma total_insertLoop fuel tx stmt i :
  (Z.to_nat (totalRecords - i) <= fuel)%nat ->
  total (insertLoop fuel tx stmt i).
Proof.
  revert i. induction fuel as [|fuel IH]; intros i Hf; simpl;
    destruct (i <? totalRecords) eqn:E;
    try (apply Z.ltb_lt in E); try (apply Z.ltb_ge in E); simpl; auto.
  - lia.
  - unmonad. simpl. intros [x|]; simpl.
    + apply total_bind; [apply total_rollback|]. simpl. auto.
    + apply IH. pose proof (int_wrap_range (i + 1)).
      assert (i + 1 <= int_wrap (i + 1)).
      { destruct (Z_le_gt_dec min_int (i + 1)).
        - rewrite int_wrap_id; [lia|].
          rewrite totalRecords_eq in E. unfold max_int. lia.
        - lia. }
      lia.
Qed.

(** [rows.Next] / [rows.Scan]: the first row that cannot be decoded, if
    any. *)
Fixpoint first_bad (rows : Rows) : option error :=
  match rows with
  | [] => None
  | inl _ :: rest => first_bad rest
  | inr e :: _ => Some e
  end.

Lemma runs_readRows rows tr r :
  runs (readRows rows) tr r ->
  match first_bad rows with
  | Some e => tr = [rows_Close ~> tt] /\ r = Some ("failed to scan row: " +:+ e)
  | None => tr = [] /\ r = None
  end.
Proof.
  induction rows as [|[row|e] rows IH]; simpl.
  - intros [-> <-]. auto.
  - exact IH.
  - unmonad. simpl. intros ([] & ? & -> & -> & <-). auto.
Qed.

Lemma total_readRows rows : total (readRows rows).
Proof.
  induction rows as [|[row|e] rows IH]; simpl; auto.
Qed.

(** The pages as the specification lists them: offsets [0], [batchSize],
    [2 * batchSize], ... below [totalRecords], each with limit [batchSize]
    but clamped to what is left. *)
Definition n_pages (batchSize : Z) : nat :=
  Z.to_nat ((totalRecords + batchSize - 1) / batchSize).

Definition page_at (batchSize : Z) (k : nat) : Z * Z :=
  (Z.min batchSize (totalRecords - Z.of_nat k * batchSize),
   Z.of_nat k * batchSize).

Definition spec_pages (batchSize : Z) : list (Z * Z) :=
  map (page_at batchSize) (seq 0 (n_pages batchSize)).

(** The calls of the scan loop: queries and the closing of their rows. *)
Definition is_scan (ent : entry) : bool :=
  match ent with
  | Entry e _ =>
      match e with
      | db_Query _ _ _ _ => true
      | rows_Close => true
      | _ => false
      end
  end.

Ltac projections :=
  unfold configs, opened, counted, inserted, commits, rollbacks, queries,
    returned, statuses, written, errors_logged, select in *.

Lemma below_pages b k :
  0 < b -> (Z.of_nat k * b < totalRecords <-> (k < n_pages b)%nat).
Proof.
  intros Hb. unfold n_pages. rewrite totalRecords_eq.
  assert (Hq : 0 <= (50000 + b - 1) / b) by (apply Z.div_pos; lia).
  split; intros H.
  - apply Nat2Z.inj_lt. rewrite Z2Nat.id by exact Hq.
    assert (Z.of_nat k + 1 <= (50000 + b - 1) / b); [|lia].
    apply Z.div_le_lower_bound; [lia|]. lia.
  - apply Nat2Z.inj_lt in H. rewrite Z2Nat.id in H by exact Hq.
    pose proof (Z.mul_div_le (50000 + b - 1) b Hb). nia.
Qed.

Lemma pageLimit_min b off :
  0 < b <= max_int -> 0 <= off < totalRecords -> off = 0 \/ b <= off ->
  pageLimit b off = Z.min b (totalRecords - off).
Proof.
  intros Hb Ho Hk. unfold pageLimit. rewrite totalRecords_eq in *.
  rewrite !int_wrap_id by (unfold min_int, max_int in *; lia).
  destruct (off + b >? 50000) eqn:E.
  - apply Z.gtb_lt in E. lia.
  - rewrite Z.gtb_ltb in E. apply Z.ltb_ge in E. lia.
Qed.

(** Every run of the scan loop started at page [k] asks for pages [k],
    [k+1], ... in order, with the limits and offsets of [page_at]; it asks
    for all of them unless a query or a row fails. *)
Lemma runs_scanLoop db d b fuel k tr r :
  0 < b <= max_int ->
  (n_pages b - k <= fuel)%nat ->
  runs (scanLoop fuel db d b (Z.of_nat k * b)) tr r ->
  forallb is_scan tr = true
  /\ exists m,
       (m <= n_pages b - k)%nat
       /\ queries tr = map (page_at b) (seq k m)
       /\ match r with
          | None => m = (n_pages b - k)%nat
          | Some e =>
              (1 <= m)%nat
              /\ ((exists x, e = "failed to query rows at offset "
                                 +:+ itoa (Z.of_nat (k + m - 1) * b)
                                 +:+ ": " +:+ x)
                  \/ exists x, e = "failed to scan row: " +:+ x)
          end.
Proof.
  intros Hb. revert k tr. induction fuel as [|fuel IH]; intros k tr Hf; simpl;
    destruct (Z.of_nat k * b <? totalRecords) eqn:E;
    try (apply Z.ltb_lt in E); try (apply Z.ltb_ge in E).
  - apply below_pages in E; lia.
  - intros [-> <-]. split; [reflexivity|]. exists 0%nat.
    split; [lia|]. split; [reflexivity|].
    assert (~ (k < n_pages b)%nat) by (rewrite <- below_pages; lia). lia.
  - pose proof E as Hk. apply below_pages in Hk; [|lia].
    rewrite pageLimit_min;
      [|lia|split; [nia|lia]|destruct k; [left; reflexivity|right; nia]].
    unmonad. simpl. intros ([rows|x] & tr' & -> & H); simpl in H.
    + apply runs_bind in H as (er & t1 & t2 & -> & H1 & H2).
      apply runs_readRows in H1. destruct (first_bad rows) as [bad|].
      * destruct H1 as [-> ->]. simpl in H2. destruct H2 as [-> <-].
        split; [reflexivity|]. exists 1%nat. split; [lia|].
        split; [reflexivity|]. split; [lia|]. right. eauto.
      * destruct H1 as [-> ->]. simpl in H2.
        destruct H2 as ([] & t3 & -> & H2).
        rewrite int_wrap_id in H2.
        2:{ rewrite totalRecords_eq in E. unfold min_int, max_int in *.
            destruct k; [simpl; lia|nia]. }
        replace (Z.of_nat k * b + b) with (Z.of_nat (S k) * b) in H2 by lia.
        apply IH in H2; [|lia].
        destruct H2 as (Hs & m & Hm & Hq & Hr).
        split; [simpl; exact Hs|]. exists (S m). split; [lia|].
        split.
        { change ((Z.min b (totalRecords - Z.of_nat k * b), Z.of_nat k * b)
                  :: queries t3
                  = page_at b k :: map (page_at b) (seq (S k) m)).
          rewrite Hq. reflexivity. }
        destruct r as [e|]; [|lia].
        destruct Hr as [Hm1 Hr]. split; [lia|].
        replace (k + S m - 1)%nat with (S k + m - 1)%nat by lia. exact Hr.
    + destruct H as [-> <-]. split; [reflexivity|]. exists 1%nat.
      split; [lia|]. split; [reflexivity|]. split; [lia|]. left.
      exists x. replace (k + 1 - 1)%nat with k by lia. reflexivity.
  - intros [-> <-]. split; [reflexivity|]. exists 0%nat.
    split; [lia|]. split; [reflexivity|].
    assert (~ (k < n_pages b)%nat) by (rewrite <- below_pages; lia). lia.
Qed.

Lemma n_pages_le b : 0 < b -> (n_pages b <= Z.to_nat totalRecords)%nat.
Proof.
  intros Hb. unfold n_pages. rewrite totalRecords_eq.
  assert ((50000 + b - 1) / b <= 50000); [|lia].
  apply Z.div_le_upper_bound; [lia|]. nia.
Qed.

(** With a batch size of one or more the fuel of the scan loop is never
    used up. *)
Lemma total_scanLoop db d b fuel k :
  0 < b <= max_int ->
  (n_pages b - k <= fuel)%nat ->
  total (scanLoop fuel db d b (Z.of_nat k * b)).
Proof.
  intros Hb. revert k. induction fuel as [|fuel IH]; intros k Hf; simpl;
    destruct (Z.of_nat k * b <? totalRecords) eqn:E;
    try (apply Z.ltb_lt in E); try (apply Z.ltb_ge in E); simpl; auto.
  - apply below_pages in E; lia.
  - pose proof E as Hk. apply below_pages in Hk; [|lia].
    unmonad. simpl. intros [rows|x]; simpl; auto.
    apply total_bind; [apply total_readRows|].
    intros [e|]; simpl; auto. intros [].
    rewrite int_wrap_id.
    2:{ rewrite totalRecords_eq in E. unfold min_int, max_int in *.
        destruct k; [simpl; lia|nia]. }
    replace (Z.of_nat k * b + b) with (Z.of_nat (S k) * b) by lia.
    apply IH. lia.
Qed.

(** ** The runs of the benchmark routine *)

(** What the scan phase does to the result so far: a run of
    [scanPhase ... result] that made the calls [tr] and returned
    [(res, err)]. *)
Definition scanned (b : Z) (result : TestResult) (tr : trace)
    (res : TestResult) (err : option error) : Prop :=
  exists s0 st m,
    forallb is_scan st = true
    /\ (m <= n_pages b)%nat
    /\ queries st = map (page_at b) (seq 0 m)
    /\ match err with
       | None =>
           exists s1,
             tr = (time_Now ~> s0) :: st ++ [time_Now ~> s1]
             /\ m = n_pages b
             /\ res = set_RecordsQueried
                        (set_TotalQueryTimeSeconds (set_PageSize result b)
                           (Seconds (int_sat (s1 - s0))))
                        totalRecords
       | Some e =>
           tr = (time_Now ~> s0) :: st
           /\ (1 <= m)%nat
           /\ res = set_PageSize result b
           /\ ((exists x, e = "failed to query rows at offset "
                              +:+ itoa (Z.of_nat (m - 1) * b) +:+ ": " +:+ x)
               \/ exists x, e = "failed to scan row: " +:+ x)
       end.

Lemma runs_scanPhase db d b result tr res err :
  0 < b <= max_int ->
  runs (scanPhase db d b result) tr (res, err) ->
  scanned b result tr res err.
Proof.
  intros Hb. unfold scanPhase, time_Since. unmonad. simpl.
  intros (s0 & tr' & -> & H).
  apply runs_bind in H as (er & st & t2 & -> & H1 & H2).
  change 0 with (Z.of_nat 0 * b) in H1.
  apply runs_scanLoop in H1; [|exact Hb|pose proof (n_pages_le b); lia].
  destruct H1 as (Hs & m & Hm & Hq & Hr).
  exists s0, st, m. split; [exact Hs|]. split; [lia|]. split; [exact Hq|].
  destruct er as [e|]; simpl in H2.
  - destruct H2 as [-> [= <- <-]]. rewrite app_nil_r.
    destruct Hr as [Hm1 Hr]. auto.
  - destruct H2 as (s1 & ? & -> & -> & [= <- <-]).
    exists s1. split; [reflexivity|]. split; [lia|reflexivity].
Qed.

Lemma total_scanPhase db d b result :
  0 < b <= max_int -> total (scanPhase db d b result).
Proof.
  intros Hb. unfold scanPhase, time_Since. unmonad. simpl. intros s0.
  apply total_bind.
  - change 0 with (Z.of_nat 0 * b). apply total_scanLoop; [exact Hb|].
    pose proof (n_pages_le b). lia.
  - intros [e|]; simpl; auto.
Qed.

Opaque scanPhase.

(** The calls of the insert phase: the statement, the rollback and its
    log line. *)
Definition is_insert (ent : entry) : bool :=
  match ent with
  | Entry e _ =>
      match e with
      | stmt_Exec _ _ => true
      | tx_Rollback _ => true
      | LogError _ _ => true
      | _ => false
      end
  end.

Lemma insertLoop_entries fuel tx stmt i tr r :
  runs (insertLoop fuel tx stmt i) tr r -> forallb is_insert tr = true.
Proof.
  revert i tr. induction fuel as [|fuel IH]; intros i tr; simpl;
    destruct (i <? totalRecords).
  - intros [].
  - intros [-> _]. reflexivity.
  - unmonad. simpl. intros ([x|] & tr' & -> & H); simpl in H.
    + apply runs_bind in H as ([] & t1 & t2 & -> & H1 & [-> _]).
      apply runs_rollback in H1 as ([rb|] & ->); reflexivity.
    + simpl. eauto.
  - intros [-> _]. reflexivity.
Qed.

(** The calls up to the prepared statement, when rows are missing. *)
Definition opening (db : DB) (d : string) (count t0 : Z) : trace :=
  [LogInfo "Database driver" ["name"; d] ~> tt;
   db_Exec db (createTableSQL d) ~> None;
   db_QueryRow_Scan db countSQL ~> inl count;
   LogInfo ("Inserting records: " +:+ itoa count +:+ " of "
            +:+ itoa totalRecords) [] ~> tt;
   time_Now ~> t0].

(** The runs of [runDatabaseTest], one case per way through it. *)
Inductive rdt_run (db : DB) (d : string) (b : Z)
  : trace -> TestResult -> option error -> Prop :=
| run_create_failed x :
    rdt_run db d b
      [LogInfo "Database driver" ["name"; d] ~> tt;
       db_Exec db (createTableSQL d) ~> Some x]
      TestResult_zero (Some ("failed to create table: " +:+ x))
| run_count_failed x :
    rdt_run db d b
      [LogInfo "Database driver" ["name"; d] ~> tt;
       db_Exec db (createTableSQL d) ~> None;
       db_QueryRow_Scan db countSQL ~> inr x]
      TestResult_zero (Some ("failed to check record count: " +:+ x))
| run_begin_failed count t0 x :
    count < totalRecords ->
    rdt_run db d b
      (opening db d count t0 ++ [db_Begin db ~> inr x])
      TestResult_zero (Some ("failed to begin transaction: " +:+ x))
| run_prepare_failed count t0 tx x rb :
    count < totalRecords ->
    rdt_run db d b
      (opening db d count t0
       ++ [db_Begin db ~> inl tx; tx_Prepare tx (insertSQL d) ~> inr x]
       ++ rollback_trace tx rb)
      TestResult_zero (Some ("failed to prepare statement: " +:+ x))
| run_insert_failed count t0 tx stmt it e :
    count < totalRecords ->
    runs (insertLoop (Z.to_nat (totalRecords - count)) tx stmt count) it (Some e) ->
    rdt_run db d b
      (opening db d count t0
       ++ [db_Begin db ~> inl tx; tx_Prepare tx (insertSQL d) ~> inl stmt]
       ++ it ++ [stmt_Close stmt ~> tt])
      TestResult_zero (Some e)
| run_commit_failed count t0 tx stmt it x :
    count < totalRecords ->
    runs (insertLoop (Z.to_nat (totalRecords - count)) tx stmt count) it None ->
    rdt_run db d b
      (opening db d count t0
       ++ [db_Begin db ~> inl tx; tx_Prepare tx (insertSQL d) ~> inl stmt]
       ++ it ++ [tx_Commit tx ~> Some x; stmt_Close stmt ~> tt])
      TestResult_zero (Some ("failed to commit transaction: " +:+ x))
| run_inserted count t0 tx stmt it t1 st res err :
    count < totalRecords ->
    runs (insertLoop (Z.to_nat (totalRecords - count)) tx stmt count) it None ->
    scanned b (set_InsertTimeSeconds TestResult_zero (Seconds (int_sat (t1 - t0))))
            st res err ->
    rdt_run db d b
      (opening db d count t0
       ++ [db_Begin db ~> inl tx; tx_Prepare tx (insertSQL d) ~> inl stmt]
       ++ it ++ [tx_Commit tx ~> None; time_Now ~> t1]
       ++ st ++ [stmt_Close stmt ~> tt])
      res err
| run_full count st res err :
    totalRecords <= count ->
    scanned b TestResult_zero st res err ->
    rdt_run db d b
      ([LogInfo "Database driver" ["name"; d] ~> tt;
        db_Exec db (createTableSQL d) ~> None;
        db_QueryRow_Scan db countSQL ~> inl count;
        LogInfo ("Table already has " +:+ itoa totalRecords
                 +:+ " or more records") [] ~> tt]
       ++ st)
      res err.

Lemma runs_runDatabaseTest db d b tr res err :
  0 < b <= max_int ->
  runs (runDatabaseTest db d b) tr (res, err) ->
  rdt_run db d b tr res err.
Proof.
  intros Hb. unfold runDatabaseTest, defer, time_Since. unmonad. simpl.
  intros ([] & ? & -> & [x0|] & ? & -> & H); simpl in H.
  { destruct H as [-> [= <- <-]]. constructor. }
  destruct H as ([count|x1] & ? & -> & H); simpl in H.
  2:{ destruct H as [-> [= <- <-]]. constructor. }
  destruct (count <? totalRecords) eqn:E;
    [apply Z.ltb_lt in E|apply Z.ltb_ge in E]; simpl in H.
  2:{ destruct H as ([] & st & -> & H). apply runs_scanPhase in H; [|exact Hb].
      apply (run_full db d b count st res err E H). }
  destruct H as ([] & ? & -> & t0 & ? & -> & [tx|x2] & ? & -> & H); simpl in H.
  2:{ destruct H as [-> [= <- <-]].
      apply (run_begin_failed db d b count t0 x2 E). }
  destruct H as ([stmt|x3] & ? & -> & H); simpl in H.
  2:{ apply runs_bind in H as ([] & t1 & t2 & -> & H1 & [-> [= <- <-]]).
      apply runs_rollback in H1 as (rb & ->). rewrite app_nil_r.
      apply (run_prepare_failed db d b count t0 tx x3 rb E). }
  apply runs_bind in H as ([res' err'] & t1 & t2 & -> & H & H2).
  simpl in H2. destruct H2 as ([] & ? & -> & -> & [= -> ->]).
  apply runs_bind in H as ([e|] & it & t2 & -> & Hi & H); simpl in H.
  { destruct H as [-> [= <- <-]]. rewrite app_nil_r.
    apply (run_insert_failed db d b count t0 tx stmt it e E Hi). }
  destruct H as ([x4|] & ? & -> & H); simpl in H.
  { destruct H as [-> [= <- <-]]. rewrite <- app_assoc.
    apply (run_commit_failed db d b count t0 tx stmt it x4 E Hi). }
  destruct H as (t1 & st & -> & H). apply runs_scanPhase in H; [|exact Hb].
  pose proof (run_inserted db d b count t0 tx stmt it t1 st res err E Hi H) as R.
  simpl in R. rewrite <- !app_assoc. simpl. exact R.
Qed.

Lemma total_runDatabaseTest db d b :
  0 < b <= max_int -> total (runDatabaseTest db d b).
Proof.
  intros Hb. unfold runDatabaseTest, defer, time_Since. unmonad. simpl.
  intros [] [x|]; simpl; auto. intros [count|x]; simpl; auto.
  destruct (count <? totalRecords) eqn:E; simpl.
  - intros [] t0 [tx|x]; simpl; auto. intros [stmt|x]; simpl.
    + apply total_bind; [|simpl; auto].
      apply total_bind; [apply total_insertLoop; lia|].
      intros [e|]; simpl; auto. intros [x|]; simpl; auto.
      intros t1. apply total_scanPhase. exact Hb.
    + apply total_bind; [apply total_rollback|]. simpl. auto.
  - intros []. apply total_scanPhase. exact Hb.
Qed.

(** ** The routine over the reference database *)

Lemma interp_bind {W A B} (h : handler W) (p : prog A) (k : A -> prog B) w :
  interp h (bind p k) w =
  let '(r, w1, t1) := interp h p w in
  match r with
  | Done a => let '(r2, w2, t2) := interp h (k a) w1 in (r2, w2, t1 ++ t2)
  | Aborted a => (Aborted a, w1, t1)
  end.
Proof.
  revert w. induction p as [a | X e g IH | a]; intros w; simpl.
  - destruct (interp h (k a) w) as [[r2 w2] t2]. reflexivity.
  - destruct (h X e w) as [x w1]. rewrite IH.
    destruct (interp h (g x) w1) as [[r w2] t1].
    destruct r as [a|a]; [|reflexivity].
    destruct (interp h (k a) w2) as [[r2 w3] t2]. reflexivity.
  - reflexivity.
Qed.

(** An oracle under which no call fails. *)
Definition nofault (o : Oracle) : Prop := forall n, fault o n = None.

Lemma readRows_page l limit offset : readRows (page l limit offset) = Ret None.
Proof.
  unfold page.
  induction (take (Z.to_nat limit) (drop (Z.to_nat offset) (merge_sort by_id l)))
    as [|r rs IH]; simpl; auto.
Qed.

Lemma calm_insertLoop o tx stmt fuel i w :
  nofault o ->
  is_Some (table w) -> is_Some (pending w) ->
  (Z.to_nat (totalRecords - i) <= fuel)%nat ->
  exists w' tr,
    interp (answer o) (insertLoop fuel tx stmt i) w = (Done None, w', tr)
    /\ is_Some (table w') /\ is_Some (pending w').
Proof.
  intros Hnf. revert i w. induction fuel as [|fuel IH]; intros i w Ht Hp Hf; simpl;
    destruct (i <? totalRecords) eqn:E;
    try (apply Z.ltb_lt in E); try (apply Z.ltb_ge in E); simpl; eauto.
  - lia.
  - unmonad. simpl. rewrite Hnf.
    destruct Ht as [l Ht], Hp as [p Hp]. rewrite Ht, Hp.
    match goal with
    | |- context [interp _ (insertLoop fuel tx stmt ?j) ?w1] =>
        destruct (IH j w1) as (w' & tr & Hi & Ht' & Hp')
    end.
    + simpl. rewrite Ht. eauto.
    + simpl. eauto.
    + pose proof (int_wrap_range (i + 1)).
      assert (i + 1 <= int_wrap (i + 1)).
      { destruct (Z_le_gt_dec min_int (i + 1)).
        - rewrite int_wrap_id; [lia|].
          rewrite totalRecords_eq in E. unfold max_int. lia.
        - lia. }
      lia.
    + rewrite Hi. eauto.
Qed.

Lemma calm_scanLoop o db d b fuel k w :
  nofault o -> 0 < b <= max_int ->
  is_Some (table w) ->
  (n_pages b - k <= fuel)%nat ->
  exists w' tr,
    interp (answer o) (scanLoop fuel db d b (Z.of_nat k * b)) w = (Done None, w', tr)
    /\ table w' = table w.
Proof.
  intros Hnf Hb. revert k w. induction fuel as [|fuel IH]; intros k w Ht Hf; simpl;
    destruct (Z.of_nat k * b <? totalRecords) eqn:E;
    try (apply Z.ltb_lt in E); try (apply Z.ltb_ge in E); simpl; eauto.
  - apply below_pages in E; lia.
  - pose proof E as Hk. apply below_pages in Hk; [|lia].
    rewrite pageLimit_min;
      [|lia|split; [nia|lia]|destruct k; [left; reflexivity|right; nia]].
    unmonad. simpl. rewrite Hnf. destruct Ht as [l Ht]. rewrite Ht.
    replace (Z.min b (totalRecords - Z.of_nat k * b) <? 0) with false
      by (symmetry; apply Z.ltb_ge; lia).
    replace (Z.of_nat k * b <? 0) with false by (symmetry; apply Z.ltb_ge; nia).
    simpl. rewrite readRows_page. simpl.
    rewrite int_wrap_id.
    2:{ rewrite totalRecords_eq in E. unfold min_int, max_int in *.
        destruct k; [simpl; lia|nia]. }
    replace (Z.of_nat k * b + b) with (Z.of_nat (S k) * b) by lia.
    match goal with
    | |- context [interp _ (scanLoop fuel db d b _) ?w1] =>
        destruct (IH (S k) w1) as (w' & tr & Hi & Ht')
    end.
    + simpl. rewrite Ht. eauto.
    + lia.
    + rewrite Hi. eexists _, _. split; [reflexivity|]. rewrite Ht'. simpl. auto.
Qed.

Transparent scanPhase.

Lemma calm_scanPhase o db d b result w :
  nofault o -> 0 < b <= max_int ->
  is_Some (table w) ->
  exists res w' tr,
    interp (answer o) (scanPhase db d b result) w = (Done (res, None), w', tr)
    /\ table w' = table w.
Proof.
  intros Hnf Hb Ht. unfold scanPhase, time_Since. unmonad. simpl.
  rewrite interp_bind.
  match goal with
  | |- context [interp _ (scanLoop _ db d b 0) ?w1] =>
      destruct (calm_scanLoop o db d b (Z.to_nat totalRecords) 0 w1 Hnf Hb)
        as (w' & tr & Hi & Ht')
  end.
  - simpl. exact Ht.
  - pose proof (n_pages_le b). lia.
  - change (Z.of_nat 0 * b) with 0 in Hi. rewrite Hi. simpl.
    eexists _, _, _. split; [reflexivity|]. simpl. rewrite Ht'. reflexivity.
Qed.

Opaque scanPhase.

(** Over a database on which no call fails, the routine succeeds for every
    batch size of one or more, whatever the table holds. *)
Lemma calm_runDatabaseTest o db d b w :
  nofault o -> 0 < b <= max_int ->
  exists res w' tr,
    interp (answer o) (runDatabaseTest db d b) w = (Done (res, None), w', tr).
Proof.
  intros Hnf Hb. unfold runDatabaseTest, defer, time_Since. unmonad. simpl.
  rewrite !Hnf.
  set (w2 := match table w with Some _ => _ | None => _ end).
  assert (Ht2 : is_Some (table w2)).
  { subst w2. destruct (table w) eqn:Ht; simpl; [rewrite Ht|]; eauto. }
  destruct Ht2 as [l Ht2]. simpl. rewrite ?Hnf, Ht2.
  destruct (Z.of_nat (length l) <? totalRecords) eqn:E; simpl.
  - do 4 (rewrite ?Hnf; simpl). rewrite !interp_bind.
    match goal with
    | |- context [interp _ (insertLoop ?f 0%nat 0%nat ?i) ?w1] =>
        destruct (calm_insertLoop o 0%nat 0%nat f i w1 Hnf)
          as (w3 & t3 & Hi & [l3 Ht3] & [p3 Hp3])
    end.
    + simpl. rewrite Ht2. eauto.
    + simpl. eauto.
    + lia.
    + rewrite Hi. simpl. rewrite Hnf, Ht3, Hp3. simpl.
      match goal with
      | |- context [interp _ (scanPhase db d b ?r) ?w4] =>
          destruct (calm_scanPhase o db d b r w4 Hnf Hb)
            as (res & w5 & t5 & Hs & _)
      end.
      * simpl. eauto.
      * rewrite Hs. simpl. eauto.
  - match goal with
    | |- context [interp _ (scanPhase db d b ?r) ?w4] =>
        destruct (calm_scanPhase o db d b r w4 Hnf Hb)
          as (res & w5 & t5 & Hs & _)
    end.
    + simpl. rewrite Ht2. eauto.
    + rewrite Hs. eauto.
Qed.

Lemma calm_nofault ns : nofault (calm ns).
Proof. intros n. reflexivity. Qed.

(** *** What the calls do to the table *)

(** A commit that succeeded. *)
Definition is_commit (ent : entry) : bool :=
  match ent with
  | Entry e x =>
      match e in call X return X -> bool with
      | tx_Commit _ => fun x => match x with None => true | Some _ => false end
      | _ => fun _ => false
      end x
  end.

(** The calls that leave both the table and the open transaction alone. *)
Definition is_quiet (ent : entry) : bool :=
  match ent with
  | Entry e _ =>
      match e with
      | db_Exec _ _ | db_Begin _ | stmt_Exec _ _ | tx_Rollback _ | tx_Commit _ => false
      | _ => true
      end
  end.

Lemma rows_step o X (e : call X) w :
  is_commit (e ~> (answer o X e w).1) = false ->
  rows (answer o X e w).2 = rows w.
Proof.
  destruct e; simpl; try reflexivity; unfold rows;
    destruct (fault o (calls w)); simpl; try reflexivity;
    destruct (table w) eqn:Ht; simpl; rewrite ?Ht; try reflexivity;
    destruct (pending w) eqn:Hp; simpl; rewrite ?Ht; try reflexivity;
    try discriminate.
  all: match goal with |- context [if ?c then _ else _] => destruct c end;
    simpl; rewrite ?Ht; reflexivity.
Qed.

Lemma replay_rows o tr w :
  answered (answer o) tr w ->
  forallb (fun ent => negb (is_commit ent)) tr = true ->
  rows (replay (answer o) tr w) = rows w.
Proof.
  revert w. induction tr as [|[X e x] tr IH]; intros w; simpl; [reflexivity|].
  intros [Hx Ha] Hc. apply andb_prop in Hc as [Hc1 Hc2].
  rewrite IH by assumption. apply rows_step. rewrite Hx.
  apply negb_true_iff in Hc1. exact Hc1.
Qed.

Lemma quiet_step o X (e : call X) x w :
  is_quiet (e ~> x) = true ->
  table (answer o X e w).2 = table w /\ pending (answer o X e w).2 = pending w.
Proof.
  destruct e; simpl; try discriminate; intros _; auto;
    destruct (fault o (calls w)); simpl; auto;
    destruct (table w) eqn:Ht; simpl; auto.
  all: match goal with |- context [if ?c then _ else _] => destruct c end;
    simpl; auto.
Qed.

Lemma replay_quiet o tr w :
  forallb is_quiet tr = true ->
  table (replay (answer o) tr w) = table w
  /\ pending (replay (answer o) tr w) = pending w.
Proof.
  revert w. induction tr as [|[X e x] tr IH]; intros w; simpl; [auto|].
  intros Hq. apply andb_prop in Hq as [Hq1 Hq2].
  destruct (IH (answer o X e w).2 Hq2) as [-> ->].
  apply (quiet_step o X e x w Hq1).
Qed.

Lemma forallb_impl {A} (P Q : A -> bool) l :
  (forall a, P a = true -> Q a = true) ->
  forallb P l = true -> forallb Q l = true.
Proof.
  intros H. induction l as [|a l IH]; simpl; [auto|].
  intros Hl. apply andb_prop in Hl as [H1 H2].
  rewrite (H a H1), (IH H2). reflexivity.
Qed.

Lemma scan_quiet tr : forallb is_scan tr = true -> forallb is_quiet tr = true.
Proof. apply forallb_impl. intros [X e x]. destruct e; simpl; auto. Qed.

Lemma scan_no_commit tr :
  forallb is_scan tr = true ->
  forallb (fun ent => negb (is_commit ent)) tr = true.
Proof.
  apply forallb_impl. intros [X e x]. destruct e; simpl; auto; discriminate.
Qed.

Lemma insert_no_commit tr :
  forallb is_insert tr = true ->
  forallb (fun ent => negb (is_commit ent)) tr = true.
Proof.
  apply forallb_impl. intros [X e x]. destruct e; simpl; auto; discriminate.
Qed.

(** Answered by the reference database, the statements of [l] executed with
    success add their rows to the open transaction, in order. *)
Lemma replay_inserts o stmt l w t p :
  answered (answer o) (map (ins stmt) l) w ->
  table w = Some t -> pending w = Some p ->
  exists p',
    table (replay (answer o) (map (ins stmt) l) w) = Some t
    /\ pending (replay (answer o) (map (ins stmt) l) w) = Some (p ++ p')
    /\ map data p' = map payload l.
Proof.
  revert w p. induction l as [|i l IH]; intros w p; simpl.
  - intros _ Ht Hp. exists []. rewrite app_nil_r. auto.
  - intros [Hx Ha] Ht Hp. revert Hx Ha. rewrite Ht, Hp.
    destruct (fault o (calls w)); simpl; [discriminate|]. intros _ Ha.
    eapply IH in Ha as (p' & Ht' & Hp' & Hd); [|simpl; eauto..].
    eexists (_ :: p'). rewrite Ht', Hp', <- app_assoc. simpl.
    rewrite Hd. auto.
Qed.

Lemma select_nil {A} (f : forall X : Type, call X -> X -> option A)
    (P : entry -> bool) tr :
  (forall X (e : call X) x, P (e ~> x) = true -> f X e x = None) ->
  forallb P tr = true -> select f tr = [].
Proof.
  intros H. induction tr as [|[X e x] tr IH]; simpl; [reflexivity|].
  intros Hp. apply andb_prop in Hp as [H1 H2].
  unfold select in *. simpl. rewrite (H X e x H1). auto.
Qed.

Lemma scan_projections st :
  forallb is_scan st = true ->
  inserted st = [] /\ commits st = [] /\ rollbacks st = []
  /\ counted st = [] /\ errors_logged st = [].
Proof.
  intros Hs. repeat split;
    (eapply select_nil; [|exact Hs]);
    intros X e x; destruct e; simpl; congruence.
Qed.

(** The scan phase asks, reads and measures; it changes nothing. *)
Lemma scanned_projections b result tr res err :
  scanned b result tr res err ->
  forallb is_quiet tr = true
  /\ forallb (fun ent => negb (is_commit ent)) tr = true
  /\ inserted tr = [] /\ commits tr = [] /\ rollbacks tr = []
  /\ counted tr = [] /\ errors_logged tr = [].
Proof.
  intros (s0 & st & m & Hs & _ & _ & H).
  destruct (scan_projections st Hs) as (Hi & Hc & Hr & Hn & He).
  pose proof (scan_quiet st Hs) as Hq.
  pose proof (scan_no_commit st Hs) as Hnc.
  destruct err as [e|].
  - destruct H as (-> & _). simpl. rewrite Hq, Hnc.
    projections. simpl. auto 10.
  - destruct H as (s1 & -> & _). simpl. rewrite !forallb_app, Hq, Hnc. simpl.
    projections. simpl. rewrite !omap_app. simpl.
    rewrite Hi, Hc, Hr, Hn, He. auto 10.
Qed.

Lemma insert_projections tr :
  forallb is_insert tr = true ->
  commits tr = [] /\ counted tr = [] /\ queries tr = [].
Proof.
  intros Hs. repeat split;
    (eapply select_nil; [|exact Hs]);
    intros X e x; destruct e; simpl; congruence.
Qed.

Lemma count_answer o db q w c :
  (answer o _ (db_QueryRow_Scan db q) w).1 = inl c ->
  c = Z.of_nat (length (rows w)).
Proof.
  simpl. unfold rows. destruct (fault o (calls w)); [discriminate|].
  destruct (table w); simpl; congruence.
Qed.

(** Once the statement is prepared, the table exists and holds what it held
    before the call, the transaction is open and empty, and the count that
    was read is the number of rows. *)
Lemma replay_opening o db d count t0 tx stmt w :
  let tr := opening db d count t0
            ++ [db_Begin db ~> inl tx; tx_Prepare tx (insertSQL d) ~> inl stmt] in
  answered (answer o) tr w ->
  table (replay (answer o) tr w) = Some (rows w)
  /\ pending (replay (answer o) tr w) = Some []
  /\ count = Z.of_nat (length (rows w)).
Proof.
  unfold opening, rows. simpl.
  destruct (table w) as [l|] eqn:Ht; simpl;
    repeat (first [ progress rewrite Ht
                  | match goal with
                    | |- context [fault o ?n] => destruct (fault o n)
                    end ]; simpl);
    intros H; decompose [and] H; clear H; try discriminate;
    repeat match goal with
           | H : inl _ = inl _ |- _ => injection H as <-
           end; auto.
Qed.

Lemma commit_answer o tx w t p :
  (answer o _ (tx_Commit tx) w).1 = None ->
  table w = Some t -> pending w = Some p ->
  table (answer o _ (tx_Commit tx) w).2 = Some (t ++ p).
Proof.
  simpl. intros H Ht Hp. revert H. rewrite Ht, Hp.
  destruct (fault o (calls w)); simpl; [discriminate|]. reflexivity.
Qed.

Lemma inserted_app t1 t2 : inserted (t1 ++ t2) = inserted t1 ++ inserted t2.
Proof. apply select_app. Qed.

Lemma commits_app t1 t2 : commits (t1 ++ t2) = commits t1 ++ commits t2.
Proof. apply select_app. Qed.

Lemma rollbacks_app t1 t2 : rollbacks (t1 ++ t2) = rollbacks t1 ++ rollbacks t2.
Proof. apply select_app. Qed.

Lemma queries_app t1 t2 : queries (t1 ++ t2) = queries t1 ++ queries t2.
Proof. apply select_app. Qed.

Lemma counted_app t1 t2 : counted (t1 ++ t2) = counted t1 ++ counted t2.
Proof. apply select_app. Qed.

Lemma errors_logged_app t1 t2 :
  errors_logged (t1 ++ t2) = errors_logged t1 ++ errors_logged t2.
Proof. apply select_app. Qed.

Lemma inserted_ins stmt l :
  inserted (map (ins stmt) l) = map (fun i => (payload i, None)) l.
Proof.
  induction l as [|i l IH]; [reflexivity|].
  change (inserted (map (ins stmt) (i :: l)))
    with ((payload i, None) :: inserted (map (ins stmt) l)).
  rewrite IH. reflexivity.
Qed.

Lemma ins_entries stmt l : forallb is_insert (map (ins stmt) l) = true.
Proof. induction l as [|i l IH]; simpl; auto. Qed.

(** A successful run over the reference database, by the number of rows
    the table held: either rows were missing, and exactly those were
    executed, committed and added; or none was, and the table is as it
    was. *)
Lemma refdb_success o db d b w res w' tr :
  0 < b <= max_int ->
  interp (answer o) (runDatabaseTest db d b) w = (Done (res, None), w', tr) ->
  let count := Z.of_nat (length (rows w)) in
  (count < totalRecords
   /\ inserted tr = map (fun i => (payload i, None))
                        (seqZ count (totalRecords - count))
   /\ commits tr = [None]
   /\ exists added,
        rows w' = rows w ++ added
        /\ map data added = map payload (seqZ count (totalRecords - count)))
  \/ (totalRecords <= count
      /\ inserted tr = [] /\ commits tr = []
      /\ rows w' = rows w
      /\ InsertTimeSeconds res = 0%float).
Proof.
  intros Hb H. apply interp_sound in H as (Hr & Ha & ->).
  apply runs_runDatabaseTest in Hr; [|exact Hb].
  inversion Hr as [ | | | | | | count t0 tx stmt it t1 st res' err' Hc Hi Hs E1 E2
                    | count st res' err' Hc Hs E1 E2 ]; subst res'; clear Hr.
  - (* rows were missing *)
    left.
    assert (E : tr = (opening db d count t0
                      ++ [db_Begin db ~> inl tx;
                          tx_Prepare tx (insertSQL d) ~> inl stmt])
                     ++ it
                     ++ ((tx_Commit tx ~> None)
                         :: ((time_Now ~> t1) :: st ++ [stmt_Close stmt ~> tt]))).
    { rewrite <- E1, <- app_assoc. reflexivity. }
    clear E1. subst tr.
    apply answered_app in Ha as [Ha1 Ha2].
    pose proof (replay_opening o db d count t0 tx stmt w Ha1) as (Ht & Hp & ->).
    apply answered_app in Ha2 as [Ha2 Ha3].
    apply runs_insertLoop in Hi; [|unfold min_int; lia].
    destruct Hi as [[_ ->] | (j & x & rb & _ & [=] & _)].
    destruct (replay_inserts o stmt _ _ _ _ Ha2 Ht Hp) as (added & Ht2 & Hp2 & Hd).
    simpl in Hp2. destruct Ha3 as (Hx & _).
    pose proof (commit_answer o tx _ _ _ Hx Ht2 Hp2) as Ht3.
    destruct (scanned_projections _ _ _ _ _ Hs) as (Hq & _ & Hsi & Hsc & _).
    split; [exact Hc|]. split; [|split].
    + rewrite !inserted_app, inserted_ins, Hsi. simpl.
      rewrite app_nil_r. reflexivity.
    + rewrite !commits_app, Hsc.
      destruct (insert_projections _ (ins_entries stmt
                  (seqZ (Z.of_nat (length (rows w)))
                     (totalRecords - Z.of_nat (length (rows w))))))
        as (-> & _).
      reflexivity.
    + exists added. split; [|exact Hd].
      rewrite !replay_app in *. unfold rows at 1.
      match goal with
      | |- context [table (replay (answer o) [stmt_Close stmt ~> ()] ?w0)] =>
          destruct (replay_quiet o [stmt_Close stmt ~> ()] w0 eq_refl) as [-> _]
      end.
      match goal with
      | |- context [table (replay (answer o) st ?w0)] =>
          destruct (replay_quiet o st w0 Hq) as [-> _]
      end.
      match goal with
      | |- context [replay (answer o) [tx_Commit tx ~> None; time_Now ~> t1] ?w0] =>
          change (replay (answer o) [tx_Commit tx ~> None; time_Now ~> t1] w0)
            with (replay (answer o) [time_Now ~> t1]
                    (answer o _ (tx_Commit tx) w0).2);
          destruct (replay_quiet o [time_Now ~> t1]
                      (answer o _ (tx_Commit tx) w0).2 eq_refl) as [-> _]
      end.
      rewrite Ht3. reflexivity.
  - (* the table was full *)
    right. subst tr.
    destruct (scanned_projections _ _ _ _ _ Hs) as (Hq & Hnc & Hsi & Hsc & _).
    split; [|split; [|split; [|split]]].
    + change (answered (answer o)
                ([LogInfo "Database driver" ["name"; d] ~> ();
                  db_Exec db (createTableSQL d) ~> None]
                 ++ (db_QueryRow_Scan db countSQL ~> inl count)
                    :: (LogInfo ("Table already has " +:+ itoa totalRecords
                                 +:+ " or more records") [] ~> ()) :: st) w) in Ha.
      apply answered_app in Ha as [Ha1 [Ha2 _]].
      apply count_answer in Ha2.
      rewrite replay_rows in Ha2; [lia|exact Ha1|reflexivity].
    + exact Hsi.
    + exact Hsc.
    + apply replay_rows; [exact Ha|]. exact Hnc.
    + destruct Hs as (s0 & st' & m & _ & _ & _ & s1 & _ & _ & ->). reflexivity.
Qed.

(** ** The page size *)

Lemma Atoi_range s v : Atoi s = Some v -> min_int <= v <= max_int.
Proof.
  unfold Atoi.
  destruct (match s with
            | String "+"%char rest => (false, rest)
            | String "-"%char rest => (true, rest)
            | _ => (false, s)
            end) as [neg body].
  destruct body; [discriminate|].
  destruct (digits _ 0) as [n|]; [|discriminate].
  destruct ((min_int <=? _) && (_ <=? max_int)) eqn:E; [|discriminate].
  intros [= <-]. apply andb_prop in E as [E1 E2].
  apply Z.leb_le in E1, E2. auto.
Qed.

(** Whatever the request, the handlers run the benchmark with a batch size
    of one or more. *)
Lemma parsePageSize_range r : 0 < parsePageSize r <= max_int.
Proof.
  unfold parsePageSize.
  destruct (negb _); [|unfold max_int; lia].
  destruct (Atoi _) as [size|] eqn:E; [|unfold max_int; lia].
  destruct (size >? 0) eqn:G; [|unfold max_int; lia].
  apply Atoi_range in E. rewrite Z.gtb_ltb in G. apply Z.ltb_lt in G. lia.
Qed.

(** The request without its [page_size] parameter. *)
Definition without_page_size (r : Request) : Request :=
  {| Method := Method r; Header := Header r;
     URL_Query := delete "page_size" (URL_Query r) |}.

Lemma parsePageSize_absent r :
  URL_Query r !! "page_size" = None -> parsePageSize r = 100.
Proof.
  intros H. unfold parsePageSize, Values_Get. rewrite H. reflexivity.
Qed.

(** The value of [parsePageSize], by what the request holds. *)
Lemma parsePageSize_cases (r : Request) :
  let param := Values_Get (URL_Query r) "page_size" in
  (URL_Query r !! "page_size" = None -> parsePageSize r = 100)
  /\ (param = "" -> parsePageSize r = 100)
  /\ (forall n, Atoi param = Some n -> n <= 0 -> parsePageSize r = 100)
  /\ (forall n, Atoi param = Some n -> 0 < n -> parsePageSize r = n).
Proof.
  intros param.
  split; [apply parsePageSize_absent|].
  unfold parsePageSize. fold param. repeat split.
  - intros ->. reflexivity.
  - intros n -> Hn. destruct (negb _); [|reflexivity].
    destruct (n >? 0) eqn:G; [|reflexivity].
    rewrite Z.gtb_ltb in G. apply Z.ltb_lt in G. lia.
  - intros n Hn Hp. rewrite Hn.
    destruct (String.eqb param "") eqn:E.
    + apply String.eqb_eq in E. rewrite E in Hn. discriminate.
    + simpl. destruct (n >? 0) eqn:G; [reflexivity|].
      rewrite Z.gtb_ltb in G. apply Z.ltb_ge in G. lia.
Qed.

(** A request with [?page_size=v] and no headers. *)
Definition with_page_size (v : string) : Request :=
  {| Method := "GET"; Header := ∅; URL_Query := {[ "page_size" := [v] ]} |}.

Lemma Values_Get_with_page_size v :
  Values_Get (URL_Query (with_page_size v)) "page_size" = v.
Proof.
  unfold Values_Get, with_page_size. simpl.
  rewrite lookup_singleton_eq. reflexivity.
Qed.

(** C10: a [page_size] that [strconv.Atoi] rejects, such as "abc" or
    "10.5", gives the default 100, and each endpoint then does exactly what
    it does for the request without the parameter. *)
Theorem page_size_malformed_is_absent (r : Request) :
  Atoi (Values_Get (URL_Query r) "page_size") = None ->
  parsePageSize r = 100
  /\ TestDatabase r = TestDatabase (without_page_size r)
  /\ TestDatabaseRaw r = TestDatabaseRaw (without_page_size r).
Proof.
  intros H.
  assert (Hr : parsePageSize r = 100).
  { unfold parsePageSize. rewrite H. destruct (negb _); reflexivity. }
  assert (Hw : parsePageSize (without_page_size r) = 100).
  { apply parsePageSize_absent. simpl. apply lookup_delete_eq. }
  unfold TestDatabase, TestDatabaseRaw. rewrite Hr, Hw. auto.
Qed.

Lemma page_size_malformed_is_absent_witness :
  Atoi "abc" = None /\ Atoi "10.5" = None
  /\ parsePageSize (with_page_size "abc") = 100
  /\ parsePageSize (with_page_size "10.5") = 100.
Proof.
  split; [reflexivity|]. split; [reflexivity|]. split.
  - apply (page_size_malformed_is_absent (with_page_size "abc")).
    rewrite Values_Get_with_page_size. reflexivity.
  - apply (page_size_malformed_is_absent (with_page_size "10.5")).
    rewrite Values_Get_with_page_size. reflexivity.
Defined.

(** ** The protected route *)

(** C8: on the route behind the authorization middleware, a request whose
    [Mattermost-User-ID] header is missing or empty gets 401 and the handler
    is not run; any other request has the text "Hello, world!" written as
    its body, and nothing else when that write succeeds. *)
Theorem hello_requires_identity (r : Request) tr u :
  runs (helloRoute r) tr u ->
  (Header_Get (Header r) "Mattermost-User-ID" = "" ->
     (exists x, tr = error_response "Not authorized" StatusUnauthorized x)
     /\ statuses tr = [StatusUnauthorized]
     /\ written tr = [Text ("Not authorized" +:+ newline)])
  /\ (Header_Get (Header r) "Mattermost-User-ID" <> "" ->
        exists x rest,
          tr = (w_Write (Text "Hello, world!") ~> x) :: rest
          /\ (x = None -> rest = [])).
Proof.
  unfold helloRoute, MattermostAuthorizationRequired. intros H. split.
  - intros E. rewrite E in H. simpl in H.
    apply runs_http_Error in H as (x & ->). split; [eauto|]. split; reflexivity.
  - intros E. apply String.eqb_neq in E. rewrite E in H.
    unfold HelloWorld in H. unmonad. simpl in H.
    destruct H as (x & rest & -> & H). exists x, rest. split; [reflexivity|].
    intros ->. simpl in H. destruct H as [-> _]. reflexivity.
Qed.

Lemma hello_requires_identity_witness :
  Header_Get (Header (with_page_size "1")) "Mattermost-User-ID" = ""
  /\ statuses (error_response "Not authorized" StatusUnauthorized None)
     = [StatusUnauthorized].
Proof.
  assert (E : Header_Get (Header (with_page_size "1")) "Mattermost-User-ID" = "").
  { unfold Header_Get, with_page_size. simpl. rewrite lookup_empty. reflexivity. }
  split; [exact E|].
  refine (proj1 (proj2 (proj1
    (hello_requires_identity (with_page_size "1")
       (error_response "Not authorized" StatusUnauthorized None) tt _) E))).
  unfold helloRoute, MattermostAuthorizationRequired. rewrite E. simpl.
  apply runs_http_Error. eauto.
Defined.

(** ** The raw endpoint and unsupported drivers *)

Lemma error_prefix_nonempty (p x : string) : p <> "" -> p +:+ x <> "".
Proof. destruct p; [congruence|]. intros _. simpl. discriminate. Qed.

(** C5: when the configured driver is neither "mysql" nor "postgres",
    [TestDatabaseRaw] answers 500 with the unsupported-driver error and
    never calls [sql.Open]. *)
Theorem raw_rejects_unsupported_driver (r : Request) cfg drv tr u :
  runs (TestDatabaseRaw r) tr u ->
  configs tr = [Some cfg] ->
  SqlSettings_DriverName cfg = Some drv ->
  drv <> DatabaseDriverMysql -> drv <> DatabaseDriverPostgres ->
  opened tr = []
  /\ exists post,
       tr = (GetUnsanitizedConfig ~> Some cfg) :: post
       /\ json_response StatusInternalServerError
            (error_json ("Unsupported database driver: " +:+ drv) "raw") post.
Proof.
  unfold TestDatabaseRaw, TestDatabaseRaw_with. unmonad. simpl.
  intros (x & post & -> & H) Hc Hd Hm Hp.
  change (configs ((GetUnsanitizedConfig ~> x) :: post)) with (x :: configs post) in Hc.
  injection Hc as -> Hc. rewrite Hd in H. simpl in H.
  apply String.eqb_neq in Hm, Hp. rewrite Hm, Hp in H.
  apply runs_respondWithJSON
    with (j := error_json ("Unsupported database driver: " +:+ drv) "raw") in H.
  2:{ apply json_Marshal_error. apply error_prefix_nonempty. discriminate. }
  split; [|eauto].
  change (opened post = []).
  destruct H as [-> | (e & y & ->)]; reflexivity.
Qed.

Definition sqlite_config : Config :=
  {| SqlSettings_DriverName := Some "sqlite3";
     SqlSettings_DataSource := Some "file:mattermost.db" |}.

Lemma raw_rejects_unsupported_driver_witness :
  exists tr,
    runs (TestDatabaseRaw (with_page_size "10")) tr tt
    /\ configs tr = [Some sqlite_config]
    /\ opened tr = [].
Proof.
  set (tr := (GetUnsanitizedConfig ~> Some sqlite_config)
             :: [w_Header_Set "Content-Type" "application/json" ~> tt;
                 w_WriteHeader StatusInternalServerError ~> tt;
                 w_Write (Json (error_json "Unsupported database driver: sqlite3" "raw"))
                   ~> None]).
  assert (Hr : runs (TestDatabaseRaw (with_page_size "10")) tr tt).
  { unfold TestDatabaseRaw, TestDatabaseRaw_with. unmonad. simpl.
    eexists _, _. split; [reflexivity|]. simpl.
    apply (respondWithJSON_runs StatusInternalServerError _ _ None None).
    reflexivity. }
  exists tr. split; [exact Hr|]. split; [reflexivity|].
  apply (raw_rejects_unsupported_driver (with_page_size "10") sqlite_config
           "sqlite3" tr tt Hr); [reflexivity|reflexivity|discriminate|discriminate].
Defined.

(** ** The scan *)

(** The pages a run asks for are the first [m] of the specification's
    list, and all of them when the run succeeds. *)
Lemma rdt_queries db d b tr res err :
  rdt_run db d b tr res err ->
  exists m, (m <= n_pages b)%nat
            /\ queries tr = map (page_at b) (seq 0 m)
            /\ (err = None -> m = n_pages b).
Proof.
  assert (Hsc : forall result st res err,
             scanned b result st res err ->
             exists m, (m <= n_pages b)%nat
                       /\ queries st = map (page_at b) (seq 0 m)
                       /\ (err = None -> m = n_pages b)).
  { intros result st res0 err0 (s0 & st' & m & _ & Hm & Hq & H).
    exists m. split; [exact Hm|]. destruct err0 as [e|].
    - destruct H as (-> & _). split; [exact Hq|discriminate].
    - destruct H as (s1 & -> & -> & _). split; [|auto].
      change (queries (st' ++ [time_Now ~> s1]) = map (page_at b) (seq 0 (n_pages b))).
      rewrite queries_app, Hq. simpl. apply app_nil_r. }
  intros H.
  inversion H as [ x | x | count t0 x Hc | count t0 tx x rb Hc
                 | count t0 tx stmt it e Hc Hi | count t0 tx stmt it x Hc Hi
                 | count t0 tx stmt it t1 st res' err' Hc Hi Hs
                 | count st res' err' Hc Hs ]; subst.
  - exists 0%nat. split; [lia|]. split; [reflexivity|discriminate].
  - exists 0%nat. split; [lia|]. split; [reflexivity|discriminate].
  - exists 0%nat. split; [lia|]. split; [reflexivity|discriminate].
  - exists 0%nat. split; [lia|]. split; [|discriminate].
    rewrite !queries_app. destruct rb; reflexivity.
  - exists 0%nat. split; [lia|]. split; [|discriminate].
    rewrite !queries_app.
    destruct (insert_projections _ (insertLoop_entries _ _ _ _ _ _ Hi))
      as (_ & _ & ->). reflexivity.
  - exists 0%nat. split; [lia|]. split; [|discriminate].
    rewrite !queries_app.
    destruct (insert_projections _ (insertLoop_entries _ _ _ _ _ _ Hi))
      as (_ & _ & ->). reflexivity.
  - destruct (Hsc _ _ _ _ Hs) as (m & Hm & Hq & Hn).
    exists m. split; [exact Hm|]. split; [|exact Hn].
    rewrite !queries_app, Hq.
    destruct (insert_projections _ (insertLoop_entries _ _ _ _ _ _ Hi))
      as (_ & _ & ->). simpl. apply app_nil_r.
  - destruct (Hsc _ _ _ _ Hs) as (m & Hm & Hq & Hn).
    exists m. split; [exact Hm|]. split; [|exact Hn].
    rewrite queries_app, Hq. reflexivity.
Qed.

Lemma page_at_bounds b k :
  0 < b -> (k < n_pages b)%nat ->
  let '(limit, offset) := page_at b k in
  0 <= offset < totalRecords
  /\ (b | offset)
  /\ limit = Z.min b (totalRecords - offset)
  /\ 0 < limit <= b
  /\ offset + limit <= totalRecords.
Proof.
  intros Hb Hk. unfold page_at. apply below_pages in Hk; [|exact Hb].
  split; [nia|]. split; [exists (Z.of_nat k); reflexivity|].
  split; [reflexivity|]. lia.
Qed.

(** C3: for a positive batch size the scan asks for offsets [0],
    [batchSize], [2 * batchSize], ... below 50000, in that order and no
    others, each with limit [batchSize] clamped to [50000 - offset]; a run
    that fails asks for a first part of that list.  No page reaches past
    50000, and when [batchSize] does not divide 50000 the last page asks for
    fewer than [batchSize] rows. *)
Theorem scan_pages_clamped db d b tr res err :
  0 < b <= max_int ->
  runs (runDatabaseTest db d b) tr (res, err) ->
  queries tr `prefix_of` spec_pages b
  /\ (err = None -> queries tr = spec_pages b)
  /\ Forall (fun q =>
       let '(limit, offset) := q in
       0 <= offset < totalRecords
       /\ (b | offset)
       /\ limit = Z.min b (totalRecords - offset)
       /\ 0 < limit <= b
       /\ offset + limit <= totalRecords) (queries tr)
  /\ (err = None -> ~ (b | totalRecords) ->
      exists limit offset,
        last (queries tr) = Some (limit, offset)
        /\ limit < b /\ offset + limit = totalRecords).
Proof.
  intros Hb H. apply runs_runDatabaseTest in H; [|exact Hb].
  apply rdt_queries in H as (m & Hm & Hq & Hn).
  assert (Hpre : queries tr `prefix_of` spec_pages b).
  { exists (map (page_at b) (seq m (n_pages b - m))).
    rewrite Hq. unfold spec_pages. rewrite <- map_app, <- seq_app.
    do 2 f_equal. lia. }
  split; [exact Hpre|]. split; [|split].
  - intros E. rewrite Hq, (Hn E). reflexivity.
  - rewrite Hq. apply Forall_forall. intros q Hin.
    apply list_elem_of_In, in_map_iff in Hin as (k & <- & Hin).
    apply in_seq in Hin. apply page_at_bounds; [lia|lia].
  - intros E Hnd. rewrite Hq, (Hn E).
    assert (Hpos : (0 < n_pages b)%nat).
    { apply below_pages; [lia|]. rewrite totalRecords_eq. simpl. lia. }
    destruct (n_pages b) as [|k] eqn:En; [lia|].
    rewrite seq_S, map_app. simpl. rewrite last_snoc.
    unfold page_at. eexists _, _. split; [reflexivity|].
    assert (Hlt : Z.of_nat k * b < totalRecords)
      by (apply below_pages; [lia|]; lia).
    assert (Hge : totalRecords <= Z.of_nat (S k) * b).
    { destruct (Z_lt_ge_dec (Z.of_nat (S k) * b) totalRecords) as [L|G]; [|lia].
      apply below_pages in L; lia. }
    assert (Hne : totalRecords <> Z.of_nat (S k) * b).
    { intros Heq. apply Hnd. exists (Z.of_nat (S k)). exact Heq. }
    lia.
Qed.

(** A database that holds three rows and on which nothing fails. *)
Definition three_rows : World := world (Some (filled 3)) None "postgres".

Lemma max_int_pos : 0 < 30000 <= max_int.
Proof. unfold max_int. lia. Qed.

Lemma scan_pages_clamped_witness :
  exists tr res,
    runs (runDatabaseTest 0%nat "postgres" 30000) tr (res, None)
    /\ queries tr = spec_pages 30000.
Proof.
  destruct (calm_runDatabaseTest (calm 1000) 0%nat "postgres" 30000 three_rows
              (calm_nofault 1000) max_int_pos) as (res & w' & tr & H).
  apply interp_sound in H as (Hr & _).
  exists tr, res. split; [exact Hr|].
  apply (scan_pages_clamped 0%nat "postgres" 30000 tr res None max_int_pos Hr).
  reflexivity.
Defined.

(** The example of the specification: page size 10000 gives five pages. *)
Example spec_pages_10000 :
  spec_pages 10000
  = [(10000, 0); (10000, 10000); (10000, 20000); (10000, 30000); (10000, 40000)].
Proof. vm_compute. reflexivity. Qed.

Example spec_pages_30000 : spec_pages 30000 = [(30000, 0); (20000, 30000)].
Proof. vm_compute. reflexivity. Qed.

(** C4: for a positive batch size the routine always returns, and a
    successful run reports [RecordsQueried = 50000] (and the batch size it
    was given), whatever rows the queries returned. *)
Theorem records_queried_is_target db d b :
  0 < b <= max_int ->
  total (runDatabaseTest db d b)
  /\ forall tr res,
       runs (runDatabaseTest db d b) tr (res, None) ->
       RecordsQueried res = totalRecords /\ PageSize res = b.
Proof.
  intros Hb. split; [apply total_runDatabaseTest; exact Hb|].
  intros tr res H. apply runs_runDatabaseTest in H; [|exact Hb].
  inversion H as [ | | | | | | count t0 tx stmt it t1 st res' err' Hc Hi Hs
                 | count st res' err' Hc Hs ]; subst;
    destruct Hs as (s0 & st' & m & _ & _ & _ & s1 & _ & _ & ->);
    split; reflexivity.
Qed.

Lemma records_queried_is_target_witness :
  0 < 30000 <= max_int
  /\ total (runDatabaseTest 0%nat "postgres" 30000).
Proof.
  split; [exact max_int_pos|].
  apply (records_queried_is_target 0%nat "postgres" 30000 max_int_pos).
Defined.

(** ** Inserting the missing rows *)

Lemma last_seqZ m n : 0 < n -> last (seqZ m n) = Some (m + n - 1).
Proof.
  intros Hn. replace n with (Z.of_nat (S (Z.to_nat (n - 1)))) by lia.
  rewrite seqZ_S, last_snoc. f_equal. lia.
Qed.

(** C1: over a table of [count] rows, a successful run with [count] below
    50000 executes the insert statement exactly [50000 - count] times, with
    the texts "Test data " followed by the decimal index, from
    "Test data count" to "Test data 49999" in that order, inside one
    committed transaction, and the table then holds those rows after the
    old ones; with [count] at 50000 or more it executes no insert, leaves
    the table as it was and reports [InsertTimeSeconds] 0. *)
Theorem missing_rows_inserted o db d b w res w' tr :
  0 < b <= max_int ->
  interp (answer o) (runDatabaseTest db d b) w = (Done (res, None), w', tr) ->
  let count := Z.of_nat (length (rows w)) in
  (count < totalRecords ->
     inserted tr = map (fun i => ("Test data " +:+ itoa i, None))
                       (seqZ count (totalRecords - count))
     /\ head (inserted tr) = Some ("Test data " +:+ itoa count, None)
     /\ last (inserted tr) = Some ("Test data 49999", None)
     /\ Z.of_nat (length (inserted tr)) = totalRecords - count
     /\ commits tr = [None]
     /\ map data (rows w')
        = map data (rows w)
          ++ map (fun i => "Test data " +:+ itoa i)
                 (seqZ count (totalRecords - count))
     /\ Z.of_nat (length (rows w')) = totalRecords)
  /\ (totalRecords <= count ->
        inserted tr = [] /\ commits tr = []
        /\ rows w' = rows w
        /\ InsertTimeSeconds res = 0%float).
Proof.
  intros Hb H count.
  pose proof (refdb_success o db d b w res w' tr Hb H) as R.
  cbv zeta in R. fold count in R. unfold payload in R.
  destruct R as [(Hc & Hi & Hm & added & Hr & Hd) | (Hc & Hi & Hm & Hr & Hz)];
    (split; [|intros Hge]); try lia.
  - intros _. split; [exact Hi|].
    split; [|split; [|split; [|split; [exact Hm|split]]]].
    + rewrite Hi.
      change (head ((fun i => ("Test data " +:+ itoa i, @None error))
                    <$> seqZ count (totalRecords - count))
              = Some ("Test data " +:+ itoa count, None)).
      rewrite seqZ_cons by lia. reflexivity.
    + rewrite Hi.
      change (last ((fun i => ("Test data " +:+ itoa i, @None error))
                    <$> seqZ count (totalRecords - count))
              = Some ("Test data 49999", None)).
      rewrite fmap_last, last_seqZ by lia. simpl.
      replace (count + (totalRecords - count) - 1) with 49999
        by (rewrite totalRecords_eq; lia).
      reflexivity.
    + rewrite Hi, length_map, length_seqZ. lia.
    + rewrite Hr, map_app, Hd. reflexivity.
    + rewrite Hr, length_app.
      rewrite <- (length_map data added), Hd, length_map, length_seqZ.
      subst count. lia.
  - auto.
Qed.

Lemma missing_rows_inserted_witness :
  exists res w' tr,
    interp (answer (calm 1000)) (runDatabaseTest 0%nat "postgres" 30000) three_rows
    = (Done (res, None), w', tr)
    /\ head (inserted tr) = Some ("Test data 3", None)
    /\ last (inserted tr) = Some ("Test data 49999", None)
    /\ Z.of_nat (length (inserted tr)) = 49997
    /\ Z.of_nat (length (rows w')) = totalRecords.
Proof.
  destruct (calm_runDatabaseTest (calm 1000) 0%nat "postgres" 30000 three_rows
              (calm_nofault 1000) max_int_pos) as (res & w' & tr & H).
  exists res, w', tr. split; [exact H|].
  destruct (missing_rows_inserted (calm 1000) 0%nat "postgres" 30000 three_rows
              res w' tr max_int_pos H) as [Hlt _].
  assert (Hc : Z.of_nat (length (rows three_rows)) < totalRecords).
  { rewrite totalRecords_eq. simpl. lia. }
  destruct (Hlt Hc) as (_ & Hh & Hla & Hn & _ & _ & Hl).
  split; [exact Hh|]. split; [exact Hla|]. split; [|exact Hl].
  rewrite Hn, totalRecords_eq. reflexivity.
Defined.

(** ** Failures in the insert phase *)

(** The outcomes of [tx.Prepare]. *)
Definition prepared : trace -> list (Stmt + error) :=
  select (fun X e =>
    match e in call X return X -> option (Stmt + error) with
    | tx_Prepare _ _ => fun x => Some x
    | _ => fun _ => None
    end).

Lemma prepared_app t1 t2 : prepared (t1 ++ t2) = prepared t1 ++ prepared t2.
Proof. apply select_app. Qed.

Lemma insert_prepared tr : forallb is_insert tr = true -> prepared tr = [].
Proof.
  intros Hs. (eapply select_nil; [|exact Hs]).
  intros X e x; destruct e; simpl; congruence.
Qed.

Lemma scanned_prepared b result tr res err :
  scanned b result tr res err -> prepared tr = [].
Proof.
  intros (s0 & st & m & Hs & _ & _ & H).
  assert (Hp : prepared st = []).
  { eapply select_nil; [|exact Hs]. intros X e x; destruct e; simpl; congruence. }
  destruct err as [e|].
  - destruct H as (-> & _). exact Hp.
  - destruct H as (s1 & -> & _).
    change (prepared (st ++ [time_Now ~> s1]) = []).
    rewrite prepared_app, Hp. reflexivity.
Qed.

Lemma rollback_projections tx rb :
  rollbacks (rollback_trace tx rb) = [rb]
  /\ commits (rollback_trace tx rb) = []
  /\ inserted (rollback_trace tx rb) = []
  /\ errors_logged (rollback_trace tx rb)
     = match rb with
       | Some x => [("Failed to rollback transaction", ["error"; x])]
       | None => []
       end
  /\ forallb (fun ent => negb (is_commit ent)) (rollback_trace tx rb) = true.
Proof. destruct rb; repeat split. Qed.

Lemma ins_projections stmt l :
  rollbacks (map (ins stmt) l) = [] /\ errors_logged (map (ins stmt) l) = [].
Proof.
  split; (eapply select_nil with (P := fun ent =>
            match ent with Entry (stmt_Exec _ _) _ => true | _ => false end);
          [|induction l; simpl; auto]);
    intros X e x; destruct e; simpl; congruence.
Qed.

Lemma opening_count o db d count t0 rest w :
  answered (answer o) (opening db d count t0 ++ rest) w ->
  count = Z.of_nat (length (rows w)).
Proof.
  change (opening db d count t0 ++ rest)
    with ([LogInfo "Database driver" ["name"; d] ~> ();
           db_Exec db (createTableSQL d) ~> None]
          ++ (db_QueryRow_Scan db countSQL ~> inl count)
             :: (LogInfo ("Inserting records: " +:+ itoa count +:+ " of "
                          +:+ itoa totalRecords) [] ~> tt)
             :: (time_Now ~> t0) :: rest).
  intros Ha. apply answered_app in Ha as [Ha1 [Ha2 _]].
  apply count_answer in Ha2.
  rewrite replay_rows in Ha2; [exact Ha2|exact Ha1|reflexivity].
Qed.

Lemma not_in_ok_inserts s x (l : list Z) :
  (s, Some x) ∉ map (fun i => (payload i, @None error)) l.
Proof.
  intros Hin. apply list_elem_of_In, in_map_iff in Hin as (i & [=] & _).
Qed.

(** C2: when the prepare step or an insert statement fails, the routine
    calls [tx.Rollback] once and never [tx.Commit], logs a failure of the
    rollback without returning it, returns the error of the failed call, and
    the table holds the rows it held before. *)
Theorem failed_insert_rolls_back o db d b w res err w' tr :
  0 < b <= max_int ->
  interp (answer o) (runDatabaseTest db d b) w = (Done (res, err), w', tr) ->
  (exists x, inr x ∈ prepared tr) \/ (exists s x, (s, Some x) ∈ inserted tr) ->
  exists rb,
    rollbacks tr = [rb]
    /\ commits tr = []
    /\ errors_logged tr
       = match rb with
         | Some x => [("Failed to rollback transaction", ["error"; x])]
         | None => []
         end
    /\ ((exists x, prepared tr = [inr x]
                   /\ err = Some ("failed to prepare statement: " +:+ x))
        \/ (exists i x, last (inserted tr) = Some (payload i, Some x)
                        /\ err = Some ("failed to insert row " +:+ itoa i
                                       +:+ ": " +:+ x)))
    /\ rows w' = rows w.
Proof.
  intros Hb H Hfail. apply interp_sound in H as (Hr & Ha & ->).
  apply runs_runDatabaseTest in Hr; [|exact Hb].
  inversion Hr as [ x | x | count t0 x Hc | count t0 tx x rb Hc
                  | count t0 tx stmt it e Hc Hi | count t0 tx stmt it x Hc Hi
                  | count t0 tx stmt it t1 st res' err' Hc Hi Hs
                  | count st res' err' Hc Hs ]; subst; clear Hr.
  - exfalso. destruct Hfail as [(y & Hy) | (s & y & Hy)];
      apply elem_of_nil in Hy; exact Hy.
  - exfalso. destruct Hfail as [(y & Hy) | (s & y & Hy)];
      apply elem_of_nil in Hy; exact Hy.
  - exfalso. destruct Hfail as [(y & Hy) | (s & y & Hy)];
      apply elem_of_nil in Hy; exact Hy.
  - (* the prepare step failed *)
    clear Hfail. exists rb.
    destruct (rollback_projections tx rb) as (R1 & R2 & R3 & R4 & R5).
    rewrite !rollbacks_app, !commits_app, !errors_logged_app, !prepared_app.
    rewrite R1, R2, R4.
    assert (Hp : prepared (rollback_trace tx rb) = []) by (destruct rb; reflexivity).
    rewrite Hp. split; [reflexivity|]. split; [reflexivity|].
    split; [reflexivity|]. split; [left; eauto|].
    apply replay_rows; [exact Ha|]. rewrite !forallb_app, R5. reflexivity.
  - (* an insert failed *)
    clear Hfail. pose proof (opening_count _ _ _ _ _ _ _ Ha) as ->.
    apply runs_insertLoop in Hi; [|unfold min_int; lia].
    destruct Hi as [[[=] _] | (j & x & rb & Hj & [= ->] & ->)].
    exists rb.
    destruct (rollback_projections tx rb) as (R1 & R2 & R3 & R4 & R5).
    destruct (ins_projections stmt
                (seqZ (Z.of_nat (length (rows w))) (j - Z.of_nat (length (rows w)))))
      as (I1 & I2).
    pose proof (ins_entries stmt
                (seqZ (Z.of_nat (length (rows w))) (j - Z.of_nat (length (rows w)))))
      as I3.
    destruct (insert_projections _ I3) as (I4 & _).
    change ((stmt_Exec stmt (payload j) ~> Some x) :: rollback_trace tx rb)
      with ([stmt_Exec stmt (payload j) ~> Some x] ++ rollback_trace tx rb) in *.
    rewrite !rollbacks_app, !commits_app, !errors_logged_app, !inserted_app.
    rewrite R1, R2, R3, R4, I1, I2, I4, inserted_ins.
    split; [reflexivity|]. split; [reflexivity|].
    split; [destruct rb; reflexivity|].
    split.
    + right. exists j, x. split; [|reflexivity].
      simpl. rewrite !app_nil_r.
      change [(payload j, Some x)] with ([] ++ [(payload j, Some x)]).
      rewrite app_nil_l. apply last_snoc.
    + apply replay_rows; [exact Ha|].
      rewrite !forallb_app, R5, (insert_no_commit _ I3). reflexivity.
  - exfalso. pose proof (opening_count _ _ _ _ _ _ _ Ha) as ->.
    apply runs_insertLoop in Hi; [|unfold min_int; lia].
    destruct Hi as [[_ ->] | (j & y & rb & _ & [=] & _)].
    rewrite !prepared_app, !inserted_app, inserted_ins in Hfail.
    rewrite (insert_prepared _ (ins_entries _ _)) in Hfail. simpl in Hfail.
    rewrite app_nil_r in Hfail.
    destruct Hfail as [(y & Hy) | (s & y & Hy)].
    + apply list_elem_of_singleton in Hy. discriminate.
    + exact (not_in_ok_inserts _ _ _ Hy).
  - exfalso. pose proof (opening_count _ _ _ _ _ _ _ Ha) as ->.
    apply runs_insertLoop in Hi; [|unfold min_int; lia].
    destruct Hi as [[_ ->] | (j & y & rb & _ & [=] & _)].
    destruct (scanned_projections _ _ _ _ _ Hs) as (_ & _ & Hsi & _).
    rewrite !prepared_app, !inserted_app, inserted_ins, Hsi in Hfail.
    rewrite (insert_prepared _ (ins_entries _ _)) in Hfail.
    rewrite (scanned_prepared _ _ _ _ _ Hs) in Hfail. simpl in Hfail.
    rewrite app_nil_r in Hfail.
    destruct Hfail as [(y & Hy) | (s & y & Hy)].
    + apply list_elem_of_singleton in Hy. discriminate.
    + exact (not_in_ok_inserts _ _ _ Hy).
  - exfalso.
    destruct (scanned_projections _ _ _ _ _ Hs) as (_ & _ & Hsi & _).
    rewrite !prepared_app, !inserted_app, Hsi in Hfail.
    rewrite (scanned_prepared _ _ _ _ _ Hs) in Hfail.
    destruct Hfail as [(y & Hy) | (s & y & Hy)];
      apply elem_of_nil in Hy; exact Hy.
Qed.

Transparent totalRecords scanPhase rollback respondWithJSON http_Error.

(** The second insert fails on a table of three rows. *)
Lemma failed_insert_rolls_back_witness :
  exists res err w' tr,
    interp (answer (failing 8 "disk full" 1000))
           (runDatabaseTest 0%nat "mysql" 20000) three_rows
    = (Done (res, err), w', tr)
    /\ err = Some "failed to insert row 4: disk full"
    /\ rollbacks tr = [None]
    /\ rows w' = rows three_rows.
Proof.
  eexists _, _, _, _. split; [lazy; reflexivity|].
  split; [reflexivity|].
  match goal with
  | |- rollbacks ?tr = _ /\ rows ?w' = _ =>
      destruct (failed_insert_rolls_back (failing 8 "disk full" 1000)
                  0%nat "mysql" 20000 three_rows
                  TestResult_zero (Some "failed to insert row 4: disk full")
                  w' tr)
        as (rb & Hrb & _ & _ & _ & Hrows)
  end.
  - unfold max_int. lia.
  - lazy. reflexivity.
  - right. exists "Test data 4", "disk full".
    apply list_elem_of_In. lazy. auto.
  - split; [reflexivity|exact Hrows].
Defined.

Opaque totalRecords scanPhase rollback respondWithJSON http_Error.

(** The number of rows after a successful run. *)
Lemma missing_rows_inserted_aux o db d b w res w' tr :
  0 < b <= max_int ->
  interp (answer o) (runDatabaseTest db d b) w = (Done (res, None), w', tr) ->
  (Z.of_nat (length (rows w)) < totalRecords
   /\ Z.of_nat (length (rows w')) = totalRecords)
  \/ (totalRecords <= Z.of_nat (length (rows w))
      /\ Z.of_nat (length (rows w')) = Z.of_nat (length (rows w))).
Proof.
  intros Hb H.
  pose proof (refdb_success o db d b w res w' tr Hb H) as R. cbv zeta in R.
  destruct R as [(Hc & _ & _ & added & Hr & Hd) | (Hc & _ & _ & Hr & _)].
  - left. split; [exact Hc|]. rewrite Hr, length_app.
    rewrite <- (length_map data added), Hd, length_map, length_seqZ. lia.
  - right. split; [exact Hc|]. rewrite Hr. reflexivity.
Qed.

(** ** Repeated calls *)

Lemma rows_world l cfg d : rows (world (Some l) cfg d) = l.
Proof. reflexivity. Qed.

Lemma length_filled n : length (filled n) = n.
Proof. unfold filled. rewrite length_map, length_seq. reflexivity. Qed.

(** C6 as stated fails: a table that holds 50001 rows still holds 50001
    after a successful call. *)
Lemma row_count_converges_counterexample :
  ~ (forall o db d b w res w' tr,
       0 < b <= max_int ->
       interp (answer o) (runDatabaseTest db d b) w = (Done (res, None), w', tr) ->
       Z.of_nat (length (rows w')) = 50000).
Proof.
  intros Hclaim.
  destruct (calm_runDatabaseTest (calm 1000) 0%nat "postgres" 30000
              (world (Some (filled (Z.to_nat 50001))) None "postgres")
              (calm_nofault 1000) max_int_pos) as (res & w' & tr & H).
  pose proof (Hclaim _ _ _ _ _ _ _ _ max_int_pos H) as Hlen.
  pose proof (refdb_success _ _ _ _ _ _ _ _ max_int_pos H) as R.
  cbv zeta in R. rewrite rows_world, length_filled, totalRecords_eq in R.
  destruct R as [(Hlt & _) | (_ & _ & _ & Hr & _)]; [lia|].
  rewrite Hr, length_filled in Hlen. lia.
Qed.

(** C6, amended: after a successful call the table holds 50000 rows if it
    held at most 50000, and what it held otherwise; a further successful
    call inserts nothing and leaves the table as it is. *)
Theorem row_count_converges o1 o2 db1 db2 d1 d2 b1 b2 w res1 res2 w1 w2 tr1 tr2 :
  0 < b1 <= max_int -> 0 < b2 <= max_int ->
  interp (answer o1) (runDatabaseTest db1 d1 b1) w = (Done (res1, None), w1, tr1) ->
  interp (answer o2) (runDatabaseTest db2 d2 b2) w1 = (Done (res2, None), w2, tr2) ->
  Z.of_nat (length (rows w1)) = Z.max (Z.of_nat (length (rows w))) totalRecords
  /\ inserted tr2 = []
  /\ rows w2 = rows w1.
Proof.
  intros Hb1 Hb2 H1 H2.
  assert (Hlen : Z.of_nat (length (rows w1))
                 = Z.max (Z.of_nat (length (rows w))) totalRecords).
  { destruct (missing_rows_inserted_aux o1 db1 d1 b1 w res1 w1 tr1 Hb1 H1)
      as [[Hlt ->] | [Hge ->]]; lia. }
  split; [exact Hlen|].
  pose proof (refdb_success _ _ _ _ _ _ _ _ Hb2 H2) as R. cbv zeta in R.
  destruct R as [(Hlt & _) | (_ & Hi & _ & Hr & _)]; [lia|]. auto.
Qed.

Lemma row_count_converges_witness :
  exists res1 res2 w1 w2 tr1 tr2,
    interp (answer (calm 1000)) (runDatabaseTest 0%nat "postgres" 30000) three_rows
    = (Done (res1, None), w1, tr1)
    /\ interp (answer (calm 1000)) (runDatabaseTest 0%nat "postgres" 100) w1
       = (Done (res2, None), w2, tr2)
    /\ Z.of_nat (length (rows w1)) = totalRecords
    /\ rows w2 = rows w1.
Proof.
  assert (Hb : 0 < 100 <= max_int) by (unfold max_int; lia).
  destruct (calm_runDatabaseTest (calm 1000) 0%nat "postgres" 30000 three_rows
              (calm_nofault 1000) max_int_pos) as (res1 & w1 & tr1 & H1).
  destruct (calm_runDatabaseTest (calm 1000) 0%nat "postgres" 100 w1
              (calm_nofault 1000) Hb) as (res2 & w2 & tr2 & H2).
  exists res1, res2, w1, w2, tr1, tr2. split; [exact H1|]. split; [exact H2|].
  destruct (row_count_converges _ _ _ _ _ _ _ _ _ _ _ _ _ _ _ max_int_pos Hb H1 H2)
    as (Hlen & _ & Hr).
  split; [|exact Hr]. rewrite Hlen, totalRecords_eq. simpl. lia.
Defined.

(** ** The responses of the test endpoints *)

Opaque runDatabaseTest.

Lemma insertLoop_error_nonempty fuel tx stmt i tr e :
  runs (insertLoop fuel tx stmt i) tr (Some e) -> e <> "".
Proof.
  revert i tr. induction fuel as [|fuel IH]; intros i tr; simpl;
    destruct (i <? totalRecords).
  - intros [].
  - intros [_ [=]].
  - unmonad. simpl. intros ([x|] & tr' & -> & H); simpl in H.
    + apply runs_bind in H as ([] & t1 & t2 & -> & _ & [_ [= <-]]).
      discriminate.
    + eauto.
  - intros [_ [=]].
Qed.

(** Every error the routine returns has a text. *)
Lemma rdt_error_nonempty db d b tr res e :
  rdt_run db d b tr res (Some e) -> e <> "".
Proof.
  assert (Hsc : forall result st res0,
             scanned b result st res0 (Some e) -> e <> "").
  { intros result st res0 (s0 & st' & m & _ & _ & _ & _ & _ & _ & [[x ->]|[x ->]]);
      discriminate. }
  intros H.
  inversion H as [ x | x | count t0 x Hc | count t0 tx x rb Hc
                 | count t0 tx stmt it e' Hc Hi | count t0 tx stmt it x Hc Hi
                 | count t0 tx stmt it t1 st res' err' Hc Hi Hs
                 | count st res' err' Hc Hs ]; subst; try discriminate; eauto.
  eapply insertLoop_error_nonempty; eauto.
Qed.



Lemma parsePageSize_with v n :
  Atoi v = Some n -> 0 < n -> parsePageSize (with_page_size v) = n.
Proof.
  intros Hv Hn. unfold parsePageSize. rewrite Values_Get_with_page_size, Hv.
  destruct (String.eqb v "") eqn:E.
  - apply String.eqb_eq in E. subst v. discriminate.
  - simpl. destruct (n >? 0) eqn:G; [reflexivity|].
    rewrite Z.gtb_ltb in G. apply Z.ltb_ge in G. lia.
Qed.

Transparent totalRecords scanPhase rollback respondWithJSON http_Error
  runDatabaseTest.


Opaque totalRecords scanPhase rollback respondWithJSON http_Error
  runDatabaseTest.

(** ** A scripted connection *)

(** The fake connection of the examples: it reports the count it is told
    to report, returns the same rows for every page, and fails the calls the
    script says. *)
Module Stub.

Record Script := {
  count : Z + error;
  page_rows : Rows;
  fault : nat -> option error;
  config : option Config
}.

Definition answer (s : Script) : handler nat := fun X e n =>
  let f := fault s n in
  (match e in call X return X with
   | LogInfo _ _ => tt
   | LogError _ _ => tt
   | GetUnsanitizedConfig => config s
   | GetMasterDB => match f with Some err => inr err | None => inl 0%nat end
   | store_DriverName => "postgres"
   | sql_Open _ _ => match f with Some err => inr err | None => inl 1%nat end
   | db_Close _ => tt
   | db_Exec _ _ => f
   | db_QueryRow_Scan _ _ => match f with Some err => inr err | None => count s end
   | db_Begin _ => match f with Some err => inr err | None => inl 0%nat end
   | tx_Prepare _ _ => match f with Some err => inr err | None => inl 0%nat end
   | stmt_Exec _ _ => f
   | stmt_Close _ => tt
   | tx_Rollback _ => f
   | tx_Commit _ => f
   | db_Query _ _ _ _ => match f with Some err => inr err | None => inl (page_rows s) end
   | rows_Close => tt
   | time_Now => Z.of_nat n * 1000000
   | w_Header_Set _ _ => tt
   | w_Header_Del _ => tt
   | w_WriteHeader _ => tt
   | w_Write _ => f
   end, S n).

(** Call number [n] fails with [err]; no other does. *)
Definition only (n : nat) (err : error) : nat -> option error :=
  fun k => if Nat.eqb k n then Some err else None.

(** A table one row short of the target. *)
Definition one_missing (f : nat -> option error) : Script :=
  {| count := inl 49999; page_rows := [inl (1, "Test data 0")];
     fault := f; config := None |}.

End Stub.

(** What a run over a scripted connection is, for the examples. *)
Lemma stub_run {R} (s : Stub.Script) (p : prog R) r n tr :
  (interp (Stub.answer s) p 0%nat).1.1 = Done r ->
  (interp (Stub.answer s) p 0%nat).1.2 = n ->
  (interp (Stub.answer s) p 0%nat).2 = tr ->
  runs p tr r.
Proof.
  destruct (interp (Stub.answer s) p 0%nat) as [[o w'] t] eqn:E. simpl.
  intros -> -> ->. apply interp_sound in E. tauto.
Qed.

(** ** What the routine calls *)

(** The calls the routine makes: logging, the clock, and the connection it
    was given. *)
Definition is_routine_call (ent : entry) : bool :=
  match ent with
  | Entry e _ =>
      match e with
      | LogInfo _ _ | LogError _ _ | time_Now
      | db_Exec _ _ | db_QueryRow_Scan _ _ | db_Begin _ | tx_Prepare _ _
      | stmt_Exec _ _ | stmt_Close _ | tx_Rollback _ | tx_Commit _
      | db_Query _ _ _ _ | rows_Close => true
      | _ => false
      end
  end.

Lemma scanned_entries b result tr res err :
  scanned b result tr res err ->
  exists s0 st,
    forallb is_scan st = true
    /\ (tr = (time_Now ~> s0) :: st
        \/ exists s1, tr = (time_Now ~> s0) :: st ++ [time_Now ~> s1]).
Proof.
  intros (s0 & st & m & Hs & _ & _ & H). exists s0, st. split; [exact Hs|].
  destruct err as [e|].
  - destruct H as (-> & _). auto.
  - destruct H as (s1 & -> & _). eauto.
Qed.

(** Any property of entries that holds of the calls of the insert loop, of
    the scan loop and of the clock holds of every call of a scan phase. *)
Lemma scanned_forallb (P : entry -> bool) b result tr res err :
  (forall ent, is_scan ent = true -> P ent = true) ->
  (forall t, P (time_Now ~> t) = true) ->
  scanned b result tr res err -> forallb P tr = true.
Proof.
  intros Hs Ht H. apply scanned_entries in H as (s0 & st & Hst & [-> | (s1 & ->)]).
  - simpl. rewrite Ht. apply (forallb_impl _ _ _ Hs Hst).
  - simpl. rewrite Ht, forallb_app, (forallb_impl _ _ _ Hs Hst). simpl.
    rewrite Ht. reflexivity.
Qed.

Lemma rdt_forallb (P : entry -> bool) db d b tr res err :
  (forall ent, is_routine_call ent = true -> P ent = true) ->
  rdt_run db d b tr res err -> forallb P tr = true.
Proof.
  intros HP H.
  assert (Hi : forall fuel tx stmt i it r,
             runs (insertLoop fuel tx stmt i) it r -> forallb P it = true).
  { intros fuel tx stmt i it r Hr. apply insertLoop_entries in Hr.
    revert Hr. apply forallb_impl. intros [X e x] He. apply HP.
    destruct e; simpl in *; congruence. }
  assert (Hs : forall result st res0 err0,
             scanned b result st res0 err0 -> forallb P st = true).
  { intros result st res0 err0. apply scanned_forallb.
    - intros [X e x] He. apply HP. destruct e; simpl in *; congruence.
    - intros t. apply HP. reflexivity. }
  inversion H as [ x | x | count t0 x Hc | count t0 tx x rb Hc
                 | count t0 tx stmt it e Hc Hit | count t0 tx stmt it x Hc Hit
                 | count t0 tx stmt it t1 st res' err' Hc Hit Hst
                 | count st res' err' Hc Hst ]; subst;
    unfold opening; rewrite ?forallb_app; simpl;
    rewrite ?forallb_app; simpl;
    rewrite ?(Hi _ _ _ _ _ _ Hit), ?(Hs _ _ _ _ Hst);
    rewrite ?HP by reflexivity; simpl; try reflexivity.
  destruct rb; simpl; rewrite ?HP by reflexivity; reflexivity.
Qed.

(** ** Transactions, statements and result sets *)

(** The transactions begun, the statements closed and the result sets
    closed. *)
Definition begun : trace -> list Tx :=
  select (fun X e =>
    match e in call X return X -> option Tx with
    | db_Begin _ => fun x => match x with inl tx => Some tx | inr _ => None end
    | _ => fun _ => None
    end).

Definition stmt_closed : trace -> list Stmt :=
  select (fun X e _ =>
    match e with
    | stmt_Close stmt => Some stmt
    | _ => None
    end).

Definition rows_closed : trace -> list unit :=
  select (fun X e _ =>
    match e with
    | rows_Close => Some tt
    | _ => None
    end).

Lemma insertLoop_rollbacks fuel tx stmt i it r :
  runs (insertLoop fuel tx stmt i) it r ->
  length (rollbacks it) = match r with Some _ => 1%nat | None => 0%nat end.
Proof.
  revert i it. induction fuel as [|fuel IH]; intros i it; simpl;
    destruct (i <? totalRecords).
  - intros [].
  - intros [-> <-]. reflexivity.
  - unmonad. simpl. intros ([x|] & tr' & -> & H); simpl in H.
    + apply runs_bind in H as ([] & t1 & t2 & -> & H1 & [-> <-]).
      apply runs_rollback in H1 as ([rb|] & ->); reflexivity.
    + apply IH in H. exact H.
  - intros [-> <-]. reflexivity.
Qed.

(** A projection that ignores the calls of the insert loop is empty on its
    runs, and one that ignores queries, the closing of rows and the clock is
    empty on the scan phase. *)
Lemma insertLoop_select {A} (f : forall X : Type, call X -> X -> option A)
    fuel tx stmt i it r :
  (forall X (e : call X) x, is_insert (e ~> x) = true -> f X e x = None) ->
  runs (insertLoop fuel tx stmt i) it r -> select f it = [].
Proof.
  intros Hf H. apply insertLoop_entries in H. eapply select_nil; eauto.
Qed.

Lemma scanned_select {A} (f : forall X : Type, call X -> X -> option A)
    b result st res err :
  (forall X (e : call X) x, is_scan (e ~> x) = true -> f X e x = None) ->
  (forall t, f _ time_Now t = None) ->
  scanned b result st res err -> select f st = [].
Proof.
  intros Hf Ht H.
  apply (select_nil f (fun ent => match ent with
                                  | Entry e x =>
                                      match f _ e x with None => true | Some _ => false end
                                  end)).
  - intros X e x. destruct (f X e x); congruence.
  - revert H. apply scanned_forallb.
    + intros [X e x] He. rewrite (Hf X e x He). reflexivity.
    + intros t. rewrite Ht. reflexivity.
Qed.

Ltac shapes H :=
  inversion H as [ x | x | count t0 x Hc | count t0 tx x rb Hc
                 | count t0 tx stmt it e Hc Hit | count t0 tx stmt it x Hc Hit
                 | count t0 tx stmt it t1 st res' err' Hc Hit Hst
                 | count st res' err' Hc Hst ]; subst.

Ltac ignored := intros ? e0 ?; destruct e0; simpl; congruence.

(** X1: the routine begins at most one transaction, and ends each one it
    began with exactly one commit or rollback attempt, never both; when
    [Begin] failed it attempts neither. *)
Theorem one_transaction db d b tr res err :
  0 < b <= max_int ->
  runs (runDatabaseTest db d b) tr (res, err) ->
  (length (begun tr) <= 1)%nat
  /\ (length (commits tr) + length (rollbacks tr))%nat = length (begun tr).
Proof.
  intros Hb H. apply runs_runDatabaseTest in H; [|exact Hb].
  assert (Hs : forall result st r e,
             scanned b result st r e ->
             begun st = [] /\ commits st = [] /\ rollbacks st = []).
  { intros result st r e Hst. split.
    - eapply scanned_select; [ignored|reflexivity|exact Hst].
    - apply scanned_projections in Hst. tauto. }
  assert (Hi : forall fuel tx stmt i it r,
             runs (insertLoop fuel tx stmt i) it r ->
             begun it = [] /\ commits it = []).
  { intros fuel tx stmt i it r Hit. split.
    - eapply insertLoop_select; [ignored|exact Hit].
    - apply insertLoop_entries, insert_projections in Hit. tauto. }
  shapes H; unfold opening, begun, commits, rollbacks;
    rewrite ?select_app;
    fold begun; fold commits; fold rollbacks;
    try (destruct (Hi _ _ _ _ _ _ Hit) as [-> ->]);
    try (destruct (Hs _ _ _ _ Hst) as (-> & -> & ->));
    try (apply insertLoop_rollbacks in Hit);
    rewrite ?length_app; simpl; try lia.
  destruct rb; simpl; lia.
Qed.

Lemma max_int_30000 : 0 < 30000 <= max_int.
Proof. unfold max_int. lia. Qed.

(** Evaluates a run over a scripted connection. *)
Ltac stub_runs s :=
  eapply (stub_run s); [lazy; reflexivity | reflexivity | lazy; reflexivity].

Transparent totalRecords scanPhase rollback runDatabaseTest.

Lemma one_transaction_witness :
  exists tr res err,
    runs (runDatabaseTest 0%nat "postgres" 30000) tr (res, err)
    /\ begun tr = [0%nat] /\ commits tr = [Some "deadlock"] /\ rollbacks tr = []
    /\ (length (begun tr) <= 1)%nat
    /\ (length (commits tr) + length (rollbacks tr))%nat = length (begun tr).
Proof.
  eexists _, _, _.
  split; [stub_runs (Stub.one_missing (Stub.only 8 "deadlock"))|].
  split; [reflexivity|]. split; [reflexivity|]. split; [reflexivity|].
  eapply (one_transaction 0%nat "postgres" 30000); [exact max_int_30000|].
  stub_runs (Stub.one_missing (Stub.only 8 "deadlock")).
Defined.

Opaque totalRecords scanPhase rollback runDatabaseTest.

(** X2: once [tx.Prepare] has returned a statement, the routine closes it
    exactly once, and that is the last call it makes, on the failing paths
    as on the successful one; with no statement it closes none. *)
Theorem statement_closed_last db d b tr res err :
  0 < b <= max_int ->
  runs (runDatabaseTest db d b) tr (res, err) ->
  match prepared tr with
  | [inl stmt] => stmt_closed tr = [stmt] /\ last tr = Some (stmt_Close stmt ~> tt)
  | _ => stmt_closed tr = []
  end.
Proof.
  intros Hb H. apply runs_runDatabaseTest in H; [|exact Hb].
  assert (Hs : forall result st r e,
             scanned b result st r e -> prepared st = [] /\ stmt_closed st = []).
  { intros result st r e Hst. split.
    - eapply scanned_prepared; eauto.
    - eapply scanned_select; [ignored|reflexivity|exact Hst]. }
  assert (Hi : forall fuel tx stmt i it r,
             runs (insertLoop fuel tx stmt i) it r ->
             prepared it = [] /\ stmt_closed it = []).
  { intros fuel tx stmt i it r Hit. split.
    - apply insertLoop_entries in Hit. apply insert_prepared; exact Hit.
    - eapply insertLoop_select; [ignored|exact Hit]. }
  shapes H;
    match goal with
    | |- match prepared ?t with _ => _ end =>
        let P := fresh "P" in
        let C := fresh "C" in
        eassert (P : prepared t = _);
        [ unfold opening, prepared; rewrite ?select_app; fold prepared;
          try (rewrite (proj1 (Hi _ _ _ _ _ _ Hit)));
          try (rewrite (proj1 (Hs _ _ _ _ Hst)));
          try (destruct rb); unfold prepared, select, rollback_trace; simpl;
          reflexivity
        | eassert (C : stmt_closed t = _);
          [ unfold opening, stmt_closed; rewrite ?select_app; fold stmt_closed;
            try (rewrite (proj2 (Hi _ _ _ _ _ _ Hit)));
            try (rewrite (proj2 (Hs _ _ _ _ Hst)));
            try (destruct rb); unfold stmt_closed, select, rollback_trace; simpl;
            reflexivity
          | rewrite P, C ] ]
    end; try reflexivity.
  - split; [reflexivity|].
    rewrite !app_assoc. apply last_snoc.
  - split; [reflexivity|].
    change [tx_Commit tx ~> Some x; stmt_Close stmt ~> tt]
      with ([tx_Commit tx ~> Some x] ++ [stmt_Close stmt ~> tt]).
    rewrite !app_assoc. apply last_snoc.
  - split; [reflexivity|].
    rewrite !app_assoc. apply last_snoc.
Qed.

Transparent totalRecords scanPhase rollback runDatabaseTest.

Lemma statement_closed_last_witness :
  exists tr res err,
    runs (runDatabaseTest 0%nat "postgres" 30000) tr (res, err)
    /\ err = Some "failed to insert row 49999: disk full"
    /\ prepared tr = [inl 0%nat]
    /\ stmt_closed tr = [0%nat] /\ last tr = Some (stmt_Close 0%nat ~> tt).
Proof.
  eexists _, _, _.
  split; [stub_runs (Stub.one_missing (Stub.only 7 "disk full"))|].
  split; [reflexivity|]. split; [reflexivity|].
  match goal with
  | |- stmt_closed ?t = _ /\ _ =>
      change (match prepared t with
              | [inl stmt] =>
                  stmt_closed t = [stmt] /\ last t = Some (stmt_Close stmt ~> tt)
              | _ => stmt_closed t = []
              end)
  end.
  eapply (statement_closed_last 0%nat "postgres" 30000); [exact max_int_30000|].
  stub_runs (Stub.one_missing (Stub.only 7 "disk full")).
Defined.

Opaque totalRecords scanPhase rollback runDatabaseTest.

(** X3: a failed commit is not followed by a rollback: the routine returns
    the commit's error at once, with an empty result and without having
    scanned anything; only the statement is still closed. *)
Theorem commit_failure_no_rollback db d b tr res err ce :
  0 < b <= max_int ->
  runs (runDatabaseTest db d b) tr (res, err) ->
  In (Some ce) (commits tr) ->
  err = Some ("failed to commit transaction: " +:+ ce)
  /\ commits tr = [Some ce]
  /\ rollbacks tr = [] /\ queries tr = []
  /\ res = TestResult_zero.
Proof.
  intros Hb H. apply runs_runDatabaseTest in H; [|exact Hb].
  assert (Hs : forall result st r e,
             scanned b result st r e -> commits st = []).
  { intros result st r e Hst. apply scanned_projections in Hst. tauto. }
  assert (Hi : forall fuel tx stmt i it r,
             runs (insertLoop fuel tx stmt i) it r ->
             commits it = [] /\ queries it = []).
  { intros fuel tx stmt i it r Hit.
    apply insertLoop_entries, insert_projections in Hit. tauto. }
  shapes H; unfold opening, commits, rollbacks, queries;
    rewrite ?select_app;
    fold commits; fold rollbacks; fold queries;
    try (pose proof (insertLoop_rollbacks _ _ _ _ _ _ Hit) as Hrb);
    try (destruct (Hi _ _ _ _ _ _ Hit) as [-> ->]);
    try (rewrite (Hs _ _ _ _ Hst));
    simpl; try tauto.
  - destruct rb; simpl; tauto.
  - intros [[= <-]|[]]. destruct (rollbacks it); [|discriminate]. auto.
  - intros [[=]|[]].
Qed.

Transparent totalRecords scanPhase rollback runDatabaseTest.

Lemma commit_failure_no_rollback_witness :
  exists tr res err,
    runs (runDatabaseTest 0%nat "postgres" 30000) tr (res, err)
    /\ In (Some "deadlock") (commits tr)
    /\ err = Some "failed to commit transaction: deadlock"
    /\ commits tr = [Some "deadlock"]
    /\ rollbacks tr = [] /\ queries tr = []
    /\ res = TestResult_zero.
Proof.
  eexists _, _, _.
  split; [stub_runs (Stub.one_missing (Stub.only 8 "deadlock"))|].
  split; [left; reflexivity|].
  eapply (commit_failure_no_rollback 0%nat "postgres" 30000);
    [exact max_int_30000| |left; reflexivity].
  stub_runs (Stub.one_missing (Stub.only 8 "deadlock")).
Defined.

Opaque totalRecords scanPhase rollback runDatabaseTest.

Lemma insertLoop_error fuel tx stmt i it e :
  runs (insertLoop fuel tx stmt i) it (Some e) ->
  exists j x, e = "failed to insert row " +:+ itoa j +:+ ": " +:+ x.
Proof.
  revert i it. induction fuel as [|fuel IH]; intros i it; simpl;
    destruct (i <? totalRecords).
  - intros [].
  - intros [_ [=]].
  - unmonad. simpl. intros ([x|] & tr' & -> & H); simpl in H.
    + apply runs_bind in H as ([] & t1 & t2 & -> & H1 & [-> [= <-]]). eauto.
    + eauto.
  - intros [_ [=]].
Qed.

(** The readings of the clock. *)
Definition clock_reads : trace -> list Z :=
  select (fun X e =>
    match e in call X return X -> option Z with
    | time_Now => fun x => Some x
    | _ => fun _ => None
    end).

(** The insert time of a run: the time between its first two readings of
    the clock when its commit succeeded, zero when it committed nothing. *)
Definition insert_time (tr : trace) : float :=
  match commits tr, clock_reads tr with
  | [None], t0 :: t1 :: _ => Seconds (int_sat (t1 - t0))
  | _, _ => 0%float
  end.

(** The errors of the routine, by the step that failed, with the result
    returned beside each; [it] is the insert time of the run. *)
Inductive routine_error (b : Z) (it : float) : error -> TestResult -> Prop :=
| create_table_error x :
    routine_error b it ("failed to create table: " +:+ x) TestResult_zero
| count_error x :
    routine_error b it ("failed to check record count: " +:+ x) TestResult_zero
| begin_error x :
    routine_error b it ("failed to begin transaction: " +:+ x) TestResult_zero
| prepare_error x :
    routine_error b it ("failed to prepare statement: " +:+ x) TestResult_zero
| insert_error j x :
    routine_error b it ("failed to insert row " +:+ itoa j +:+ ": " +:+ x)
      TestResult_zero
| commit_error x :
    routine_error b it ("failed to commit transaction: " +:+ x) TestResult_zero
| query_error off x :
    routine_error b it
      ("failed to query rows at offset " +:+ itoa off +:+ ": " +:+ x)
      (set_PageSize (set_InsertTimeSeconds TestResult_zero it) b)
| scan_error x :
    routine_error b it ("failed to scan row: " +:+ x)
      (set_PageSize (set_InsertTimeSeconds TestResult_zero it) b).

(** X4: an error of the routine is the error of one failed step behind the
    text that names the step.  Up to the commit the result returned with it
    is empty; in the scan it holds the batch size and the insert time of
    the run, which is zero when no row was missing, and nothing else: never
    a query time, a number of rows queried, an error text or a connection
    type. *)
Theorem routine_errors db d b tr res msg :
  0 < b <= max_int ->
  runs (runDatabaseTest db d b) tr (res, Some msg) ->
  routine_error b (insert_time tr) msg res
  /\ RecordsQueried res = 0
  /\ TotalQueryTimeSeconds res = 0%float
  /\ Error res = "" /\ ConnType res = "".
Proof.
  intros Hb H. apply runs_runDatabaseTest in H; [|exact Hb].
  assert (Hs : forall result st r,
             scanned b result st r (Some msg) ->
             r = set_PageSize result b
             /\ commits st = []
             /\ ((exists off x, msg = "failed to query rows at offset "
                                      +:+ itoa off +:+ ": " +:+ x)
                 \/ exists x, msg = "failed to scan row: " +:+ x)).
  { intros result st r Hst.
    pose proof (scanned_projections _ _ _ _ _ Hst) as (_ & _ & _ & Hc & _).
    destruct Hst as (s0 & st' & m & _ & _ & _ & _ & _ & -> & He).
    split; [reflexivity|]. split; [exact Hc|].
    destruct He as [(x & ->) | (x & ->)]; eauto. }
  assert (Hi : forall fuel tx stmt i it r,
             runs (insertLoop fuel tx stmt i) it r ->
             commits it = [] /\ clock_reads it = []).
  { intros fuel tx stmt i it r Hit. split.
    - apply insertLoop_entries, insert_projections in Hit. tauto.
    - eapply insertLoop_select; [ignored|exact Hit]. }
  shapes H;
    try (split; [constructor|repeat split; reflexivity]).
  - apply insertLoop_error in Hit as (j & x & ->).
    split; [constructor|repeat split; reflexivity].
  - destruct (Hs _ _ _ Hst) as (-> & Hcs & He).
    destruct (Hi _ _ _ _ _ _ Hit) as (Hci & Hki).
    assert (Ht : insert_time
                   (opening db d count t0
                    ++ [db_Begin db ~> inl tx;
                        tx_Prepare tx (insertSQL d) ~> inl stmt]
                    ++ it ++ [tx_Commit tx ~> None; time_Now ~> t1]
                    ++ st ++ [stmt_Close stmt ~> tt])
                 = Seconds (int_sat (t1 - t0))).
    { unfold insert_time, opening, commits, clock_reads.
      rewrite !select_app. fold commits. fold clock_reads.
      rewrite Hci, Hki, Hcs. reflexivity. }
    rewrite Ht. split; [|repeat split; reflexivity].
    destruct He as [(off & x & ->) | (x & ->)]; constructor.
  - destruct (Hs _ _ _ Hst) as (-> & Hcs & He).
    assert (Ht : insert_time
                   ([LogInfo "Database driver" ["name"; d] ~> tt;
                     db_Exec db (createTableSQL d) ~> None;
                     db_QueryRow_Scan db countSQL ~> inl count;
                     LogInfo ("Table already has " +:+ itoa totalRecords
                              +:+ " or more records") [] ~> tt]
                    ++ st)
                 = 0%float).
    { unfold insert_time, commits. rewrite !select_app. fold commits.
      rewrite Hcs. reflexivity. }
    rewrite Ht. split; [|repeat split; reflexivity].
    destruct He as [(off & x & ->) | (x & ->)]; constructor.
Qed.

Transparent totalRecords scanPhase rollback runDatabaseTest.

(** The second page fails after the one missing row was inserted. *)
Lemma routine_errors_witness :
  exists tr res,
    runs (runDatabaseTest 0%nat "postgres" 30000) tr
         (res, Some "failed to query rows at offset 30000: timeout")
    /\ insert_time tr = 0x1.47ae147ae147bp-8%float
    /\ res = set_PageSize (set_InsertTimeSeconds TestResult_zero 0x1.47ae147ae147bp-8%float) 30000
    /\ routine_error 30000 (insert_time tr)
         "failed to query rows at offset 30000: timeout" res
    /\ RecordsQueried res = 0
    /\ TotalQueryTimeSeconds res = 0%float
    /\ Error res = "" /\ ConnType res = "".
Proof.
  eexists _, _.
  split; [stub_runs (Stub.one_missing (Stub.only 13 "timeout"))|].
  split; [reflexivity|]. split; [reflexivity|].
  eapply (routine_errors 0%nat "postgres" 30000); [exact max_int_30000|].
  stub_runs (Stub.one_missing (Stub.only 13 "timeout")).
Defined.

Opaque totalRecords scanPhase rollback runDatabaseTest.

(** The statements [tx.Prepare] returned. *)
Definition prepared_ok : trace -> list Stmt :=
  select (fun X e =>
    match e in call X return X -> option Stmt with
    | tx_Prepare _ _ => fun x => match x with inl stmt => Some stmt | inr _ => None end
    | _ => fun _ => None
    end).

(** A call on the connection [db]: what is called on a connection is
    called on [db], and nothing is called on the response, the
    configuration, the store or [sql.Open]. *)
Definition on_connection (db : DB) (ent : entry) : bool :=
  match ent with
  | Entry e _ =>
      match e with
      | LogInfo _ _ | LogError _ _ | time_Now | rows_Close => true
      | db_Exec db' _ | db_QueryRow_Scan db' _ | db_Begin db'
      | db_Query db' _ _ _ => Nat.eqb db' db
      | tx_Prepare _ _ | tx_Rollback _ | tx_Commit _ => true
      | stmt_Exec _ _ | stmt_Close _ => true
      | _ => false
      end
  end.

(** A call on one of the transactions [txs] or statements [stmts], when it
    is a call on a transaction or a statement at all. *)
Definition on_made (txs : list Tx) (stmts : list Stmt) (ent : entry) : bool :=
  match ent with
  | Entry e _ =>
      match e with
      | tx_Prepare tx _ | tx_Rollback tx | tx_Commit tx => existsb (Nat.eqb tx) txs
      | stmt_Exec stmt _ | stmt_Close stmt => existsb (Nat.eqb stmt) stmts
      | _ => true
      end
  end.

Lemma insertLoop_on_made fuel tx stmt i it r :
  runs (insertLoop fuel tx stmt i) it r ->
  forallb (on_made [tx] [stmt]) it = true.
Proof.
  revert i it. induction fuel as [|fuel IH]; intros i it; simpl;
    destruct (i <? totalRecords).
  - intros [].
  - intros [-> _]. reflexivity.
  - unmonad. simpl. intros ([x|] & tr' & -> & H); simpl in H.
    + apply runs_bind in H as ([] & t1 & t2 & -> & H1 & [-> _]).
      apply runs_rollback in H1 as ([rb|] & ->); simpl;
        rewrite !Nat.eqb_refl; reflexivity.
    + simpl. rewrite Nat.eqb_refl. simpl. eauto.
  - intros [-> _]. reflexivity.
Qed.

Lemma scanLoop_on_connection fuel db d b off tr r :
  runs (scanLoop fuel db d b off) tr r ->
  forallb (on_connection db) tr = true.
Proof.
  revert off tr. induction fuel as [|fuel IH]; intros off tr; simpl;
    destruct (off <? totalRecords).
  - intros [].
  - intros [-> _]. reflexivity.
  - unmonad. simpl. intros ([rows|x] & tr' & -> & H); simpl in H;
      simpl; rewrite Nat.eqb_refl; simpl.
    + apply runs_bind in H as (er & t1 & t2 & -> & H1 & H2).
      apply runs_readRows in H1.
      destruct (first_bad rows) as [bad|]; destruct H1 as [-> ->]; simpl in H2.
      * destruct H2 as [-> _]. reflexivity.
      * destruct H2 as ([] & t3 & -> & H2). simpl. eauto.
    + destruct H as [-> _]. reflexivity.
  - intros [-> _]. reflexivity.
Qed.

Transparent scanPhase runDatabaseTest.

Lemma scanPhase_on_connection db d b result tr r :
  runs (scanPhase db d b result) tr r ->
  forallb (on_connection db) tr = true.
Proof.
  unfold scanPhase, time_Since. unmonad. simpl.
  intros (s0 & tr' & -> & H).
  apply runs_bind in H as (er & st & t2 & -> & H1 & H2).
  apply scanLoop_on_connection in H1. simpl.
  rewrite forallb_app, H1. simpl.
  destruct er as [e|]; simpl in H2.
  - destruct H2 as [-> _]. reflexivity.
  - destruct H2 as (s1 & ? & -> & -> & _). reflexivity.
Qed.

Lemma runDatabaseTest_on_connection db d b tr r :
  runs (runDatabaseTest db d b) tr r ->
  forallb (on_connection db) tr = true.
Proof.
  unfold runDatabaseTest, defer, time_Since. unmonad. simpl.
  intros ([] & ? & -> & [x0|] & ? & -> & H); simpl in H;
    simpl; rewrite Nat.eqb_refl; simpl.
  { destruct H as [-> _]. reflexivity. }
  destruct H as ([count|x1] & ? & -> & H); simpl in H;
    simpl; rewrite Nat.eqb_refl; simpl.
  2:{ destruct H as [-> _]. reflexivity. }
  destruct (count <? totalRecords); simpl in H.
  2:{ destruct H as ([] & st & -> & H). simpl.
      apply scanPhase_on_connection in H. exact H. }
  destruct H as ([] & ? & -> & t0 & ? & -> & [tx|x2] & ? & -> & H); simpl in H;
    simpl; rewrite Nat.eqb_refl; simpl.
  2:{ destruct H as [-> _]. reflexivity. }
  destruct H as ([stmt|x3] & ? & -> & H); simpl in H; simpl.
  2:{ apply runs_bind in H as ([] & t1 & t2 & -> & H1 & [-> _]).
      apply runs_rollback in H1 as ([rb|] & ->); reflexivity. }
  apply runs_bind in H as ([res' err'] & t1 & t2 & -> & H & H2).
  simpl in H2. destruct H2 as ([] & ? & -> & -> & _).
  apply runs_bind in H as (er & it & t2 & -> & Hi & H).
  assert (Hit : forallb (on_connection db) it = true).
  { apply insertLoop_entries in Hi. revert Hi. apply forallb_impl.
    intros [X e x] He. destruct e; simpl in *; congruence. }
  rewrite !forallb_app, Hit. simpl. rewrite andb_true_r.
  destruct er as [e|]; simpl in H.
  { destruct H as [-> _]. reflexivity. }
  destruct H as ([x4|] & ? & -> & H); simpl in H; simpl.
  { destruct H as [-> _]. reflexivity. }
  destruct H as (t1 & st & -> & H). simpl.
  apply scanPhase_on_connection in H. exact H.
Qed.

Opaque scanPhase runDatabaseTest.

(** X5: the routine only logs, reads the clock and talks to the connection
    it was given, to the transactions [db.Begin] returned on it and to the
    statements [tx.Prepare] returned on those: every call on a connection
    is on [db], every call on a transaction or statement is on one the run
    itself obtained, and it never writes to the response, never reads the
    configuration, and never opens or closes a connection. *)
Theorem routine_calls db d b tr res err :
  0 < b <= max_int ->
  runs (runDatabaseTest db d b) tr (res, err) ->
  forallb (on_connection db) tr = true
  /\ forallb (on_made (begun tr) (prepared_ok tr)) tr = true
  /\ forallb is_routine_call tr = true
  /\ statuses tr = [] /\ written tr = [] /\ configs tr = [] /\ opened tr = [].
Proof.
  intros Hb H.
  split; [eapply runDatabaseTest_on_connection; exact H|].
  apply runs_runDatabaseTest in H; [|exact Hb].
  pose proof (rdt_forallb is_routine_call db d b tr res err (fun _ h => h) H) as Hc.
  split.
  2:{ split; [exact Hc|].
      repeat split; (eapply select_nil; [|exact Hc]);
        intros X e0 x0; destruct e0; simpl; congruence. }
  clear Hc.
  assert (Hs : forall result st r e txs stmts,
             scanned b result st r e ->
             begun st = [] /\ prepared_ok st = []
             /\ forallb (on_made txs stmts) st = true).
  { intros result st r e txs stmts Hst. split; [|split].
    - eapply scanned_select; [ignored|reflexivity|exact Hst].
    - eapply scanned_select; [ignored|reflexivity|exact Hst].
    - revert Hst. apply scanned_forallb.
      + intros [X e0 x0] He. destruct e0; simpl in *; congruence.
      + reflexivity. }
  assert (Hi : forall fuel tx stmt i it r,
             runs (insertLoop fuel tx stmt i) it r ->
             begun it = [] /\ prepared_ok it = []
             /\ forallb (on_made [tx] [stmt]) it = true).
  { intros fuel tx stmt i it r Hit. split; [|split].
    - eapply insertLoop_select; [ignored|exact Hit].
    - eapply insertLoop_select; [ignored|exact Hit].
    - eapply insertLoop_on_made; exact Hit. }
  shapes H;
    match goal with
    | |- forallb (on_made (begun ?t) (prepared_ok ?t)) _ = true =>
        let B := fresh "B" in
        let P := fresh "P" in
        eassert (B : begun t = _);
        [ unfold opening, begun; rewrite ?select_app; fold begun;
          try (rewrite (proj1 (Hi _ _ _ _ _ _ Hit)));
          try (rewrite (proj1 (Hs _ _ _ _ [] [] Hst)));
          try (destruct rb); unfold begun, select, rollback_trace; simpl;
          reflexivity
        | eassert (P : prepared_ok t = _);
          [ unfold opening, prepared_ok; rewrite ?select_app; fold prepared_ok;
            try (rewrite (proj1 (proj2 (Hi _ _ _ _ _ _ Hit))));
            try (rewrite (proj1 (proj2 (Hs _ _ _ _ [] [] Hst))));
            try (destruct rb); unfold prepared_ok, select, rollback_trace; simpl;
            reflexivity
          | rewrite B, P ] ]
    end;
    unfold opening; rewrite ?forallb_app;
    try (rewrite (proj2 (proj2 (Hi _ _ _ _ _ _ Hit))));
    try (rewrite (proj2 (proj2 (Hs _ _ _ _ _ _ Hst))));
    simpl; rewrite ?Nat.eqb_refl; try reflexivity.
  destruct rb; simpl; rewrite ?Nat.eqb_refl; reflexivity.
Qed.

Transparent totalRecords scanPhase rollback runDatabaseTest.

Lemma routine_calls_witness :
  exists tr res err,
    runs (runDatabaseTest 5%nat "postgres" 30000) tr (res, err)
    /\ err = None
    /\ begun tr = [0%nat] /\ prepared_ok tr = [0%nat]
    /\ forallb (on_connection 5%nat) tr = true
    /\ forallb (on_made (begun tr) (prepared_ok tr)) tr = true
    /\ forallb is_routine_call tr = true
    /\ statuses tr = [] /\ written tr = [] /\ configs tr = [] /\ opened tr = [].
Proof.
  eexists _, _, _.
  split; [stub_runs (Stub.one_missing (fun _ => None))|].
  split; [reflexivity|]. split; [reflexivity|]. split; [reflexivity|].
  eapply (routine_calls 5%nat "postgres" 30000); [exact max_int_30000|].
  stub_runs (Stub.one_missing (fun _ => None)).
Defined.

Opaque totalRecords scanPhase rollback runDatabaseTest.

Lemma rows_closed_app t1 t2 : rows_closed (t1 ++ t2) = rows_closed t1 ++ rows_closed t2.
Proof. apply select_app. Qed.

Lemma returned_app t1 t2 : returned (t1 ++ t2) = returned t1 ++ returned t2.
Proof. apply select_app. Qed.

Lemma scanLoop_closes fuel db d b off tr r :
  runs (scanLoop fuel db d b off) tr r ->
  length (rows_closed tr) = length (returned tr).
Proof.
  revert off tr. induction fuel as [|fuel IH]; intros off tr; simpl;
    destruct (off <? totalRecords).
  - intros [].
  - intros [-> _]. reflexivity.
  - unmonad. simpl. intros ([rows|x] & tr' & -> & H); simpl in H.
    + apply runs_bind in H as (er & t1 & t2 & -> & H1 & H2).
      apply runs_readRows in H1.
      destruct (first_bad rows) as [bad|]; destruct H1 as [-> ->]; simpl in H2.
      * destruct H2 as [-> _]. reflexivity.
      * destruct H2 as ([] & t3 & -> & H2). apply IH in H2.
        change (S (length (rows_closed t3)) = S (length (returned t3))).
        congruence.
    + destruct H as [-> _]. reflexivity.
  - intros [-> _]. reflexivity.
Qed.

Transparent scanPhase runDatabaseTest.

Lemma scanPhase_closes db d b result tr r :
  runs (scanPhase db d b result) tr r ->
  length (rows_closed tr) = length (returned tr).
Proof.
  unfold scanPhase, time_Since. unmonad. simpl.
  intros (s0 & tr' & -> & H).
  apply runs_bind in H as (er & st & t2 & -> & H1 & H2).
  apply scanLoop_closes in H1.
  change (length (rows_closed (st ++ t2)) = length (returned (st ++ t2))).
  rewrite rows_closed_app, returned_app, !length_app, H1.
  destruct er as [e|]; simpl in H2.
  - destruct H2 as [-> _]. reflexivity.
  - destruct H2 as (s1 & ? & -> & -> & _). reflexivity.
Qed.

(** X6: every result set a query returned is closed, on the path where a
    row fails to scan as on the others: however a run ends, it has closed
    as many result sets as its queries returned. *)
Theorem rows_closed_per_query db d b tr r :
  runs (runDatabaseTest db d b) tr r ->
  length (rows_closed tr) = length (returned tr).
Proof.
  unfold runDatabaseTest, defer, time_Since. unmonad. simpl.
  intros ([] & ? & -> & [x0|] & ? & -> & H); simpl in H.
  { destruct H as [-> _]. reflexivity. }
  destruct H as ([count|x1] & ? & -> & H); simpl in H.
  2:{ destruct H as [-> _]. reflexivity. }
  destruct (count <? totalRecords); simpl in H.
  2:{ destruct H as ([] & st & -> & H). apply scanPhase_closes in H. exact H. }
  destruct H as ([] & ? & -> & t0 & ? & -> & [tx|x2] & ? & -> & H); simpl in H.
  2:{ destruct H as [-> _]. reflexivity. }
  destruct H as ([stmt|x3] & ? & -> & H); simpl in H.
  2:{ apply runs_bind in H as ([] & t1 & t2 & -> & H1 & [-> _]).
      apply runs_rollback in H1 as ([rb|] & ->); reflexivity. }
  apply runs_bind in H as ([res' err'] & t1 & t2 & -> & H & H2).
  simpl in H2. destruct H2 as ([] & ? & -> & -> & _).
  apply runs_bind in H as (er & it & t2 & -> & Hi & H).
  assert (Hit : rows_closed it = [] /\ returned it = []).
  { split; (eapply insertLoop_select; [ignored|exact Hi]). }
  destruct Hit as [Hc Hr].
  change (length (rows_closed ((it ++ t2) ++ [stmt_Close stmt ~> tt]))
          = length (returned ((it ++ t2) ++ [stmt_Close stmt ~> tt]))).
  rewrite !rows_closed_app, !returned_app, Hc, Hr, !length_app. simpl.
  rewrite !Nat.add_0_r.
  destruct er as [e|]; simpl in H.
  { destruct H as [-> _]. reflexivity. }
  destruct H as ([x4|] & ? & -> & H); simpl in H.
  { destruct H as [-> _]. reflexivity. }
  destruct H as (t1 & st & -> & H). apply scanPhase_closes in H. exact H.
Qed.

Opaque scanPhase runDatabaseTest.

Transparent totalRecords scanPhase rollback runDatabaseTest.

Lemma rows_closed_per_query_witness :
  exists tr res err,
    runs (runDatabaseTest 0%nat "postgres" 30000) tr (res, err)
    /\ err = Some "failed to scan row: bad value"
    /\ returned tr = [[inl (1, "Test data 0"); inr "bad value"]]
    /\ length (rows_closed tr) = length (returned tr).
Proof.
  eexists _, _, _.
  split; [stub_runs {| Stub.count := inl 50000;
                       Stub.page_rows := [inl (1, "Test data 0"); inr "bad value"];
                       Stub.fault := fun _ => None;
                       Stub.config := None |}|].
  split; [reflexivity|]. split; [reflexivity|].
  eapply (rows_closed_per_query 0%nat "postgres" 30000).
  stub_runs {| Stub.count := inl 50000;
               Stub.page_rows := [inl (1, "Test data 0"); inr "bad value"];
               Stub.fault := fun _ => None;
               Stub.config := None |}.
Defined.

Opaque totalRecords scanPhase rollback runDatabaseTest.

From Stdlib Require DecimalZ DecimalPos.

(** ** Over the reference database *)

(** X7: over a database on which no call fails the routine never fails:
    whatever the table holds and whatever the batch size, from one up, it
    returns no error, reports [totalRecords] rows queried and the batch
    size it was given, and leaves at least [totalRecords] rows. *)
Theorem fault_free_run_succeeds o db d b w :
  nofault o -> 0 < b <= max_int ->
  exists res w' tr,
    interp (answer o) (runDatabaseTest db d b) w = (Done (res, None), w', tr)
    /\ RecordsQueried res = totalRecords
    /\ PageSize res = b
    /\ totalRecords <= Z.of_nat (length (rows w')).
Proof.
  intros Ho Hb.
  destruct (calm_runDatabaseTest o db d b w Ho Hb) as (res & w' & tr & H).
  exists res, w', tr. split; [exact H|].
  pose proof (missing_rows_inserted_aux o db d b w res w' tr Hb H) as Hr.
  apply interp_sound in H as (H & _ & _).
  apply runs_runDatabaseTest in H; [|exact Hb].
  assert (Hs : forall result st,
             scanned b result st res None ->
             RecordsQueried res = totalRecords /\ PageSize res = b).
  { intros result st (s0 & st' & m & _ & _ & _ & s1 & _ & _ & ->).
    split; reflexivity. }
  split; [|split].
  - shapes H; eapply Hs; eauto.
  - shapes H; eapply Hs; eauto.
  - lia.
Qed.

Lemma fault_free_run_succeeds_witness :
  exists res w' tr,
    interp (answer (calm 1000)) (runDatabaseTest 0%nat "postgres" 30000) three_rows
    = (Done (res, None), w', tr)
    /\ RecordsQueried res = totalRecords
    /\ PageSize res = 30000
    /\ totalRecords <= Z.of_nat (length (rows w')).
Proof.
  apply (fault_free_run_succeeds (calm 1000) 0%nat "postgres" 30000 three_rows).
  - apply calm_nofault.
  - unfold max_int. lia.
Defined.

Lemma itoa_inj i j : itoa i = itoa j -> i = j.
Proof.
  unfold itoa. intros H.
  assert (Hn : forall z, Z.to_int z <> Decimal.Pos Decimal.Nil
                         /\ Z.to_int z <> Decimal.Neg Decimal.Nil).
  { intros [|p|p]; simpl; split; try discriminate;
      intros [= E]; apply (DecimalPos.Unsigned.to_uint_nonnil p); exact E. }
  apply DecimalZ.to_int_inj.
  assert (E : NilZero.int_of_string (NilZero.string_of_int (Z.to_int i))
              = NilZero.int_of_string (NilZero.string_of_int (Z.to_int j)))
    by (rewrite H; reflexivity).
  rewrite !NilZero.isi in E by apply Hn. congruence.
Qed.

Lemma payload_inj i j : payload i = payload j -> i = j.
Proof. unfold payload. simpl. intros [= H]. apply itoa_inj. exact H. Qed.

(** X8: [payload] gives different indices different texts, so the rows a
    successful run inserts into the reference database carry pairwise
    distinct data. *)
Theorem inserted_data_distinct o db d b w res w' tr :
  0 < b <= max_int ->
  interp (answer o) (runDatabaseTest db d b) w = (Done (res, None), w', tr) ->
  NoDup (map fst (inserted tr)).
Proof.
  intros Hb H.
  pose proof (refdb_success o db d b w res w' tr Hb H) as R. cbv zeta in R.
  destruct R as [(Hc & -> & _) | (Hc & -> & _)].
  - rewrite map_map. simpl.
    apply (NoDup_fmap_2 payload (Inj0 := payload_inj)), NoDup_seqZ.
  - constructor.
Qed.

Lemma inserted_data_distinct_witness :
  exists res w' tr,
    interp (answer (calm 1000)) (runDatabaseTest 0%nat "postgres" 30000) three_rows
    = (Done (res, None), w', tr)
    /\ NoDup (map fst (inserted tr)).
Proof.
  destruct (calm_runDatabaseTest (calm 1000) 0%nat "postgres" 30000 three_rows
              (calm_nofault 1000) max_int_30000) as (res & w' & tr & H).
  exists res, w', tr. split; [exact H|].
  exact (inserted_data_distinct (calm 1000) 0%nat "postgres" 30000 three_rows
           res w' tr max_int_30000 H).
Defined.

(** ** The runs of the handlers *)

Transparent respondWithJSON.

(** What [respondWithJSON] writes after the header and the status: the
    document, and the fallback when the document could not be encoded or
    written. *)
Definition json_body (data : TestResult) (rest : trace) : Prop :=
  match json_Marshal data with
  | inl j =>
      rest = [w_Write (Json j) ~> None]
      \/ exists e y,
           rest = [w_Write (Json j) ~> Some e;
                   w_WriteHeader StatusInternalServerError ~> tt;
                   w_Write (Text encode_failed) ~> y]
  | inr _ =>
      exists y,
        rest = [w_WriteHeader StatusInternalServerError ~> tt;
                w_Write (Text encode_failed) ~> y]
  end.

Lemma respondWithJSON_calls code data tr u :
  runs (respondWithJSON code data) tr u ->
  exists rest,
    tr = (w_Header_Set "Content-Type" "application/json" ~> tt)
         :: (w_WriteHeader code ~> tt) :: rest
    /\ json_body data rest.
Proof.
  unfold respondWithJSON, Encode, json_body. unmonad. simpl.
  intros ([] & ? & -> & [] & rest & -> & H). exists rest.
  split; [reflexivity|].
  destruct (json_Marshal data) as [j|e0]; simpl in H.
  - destruct H as ([e|] & ? & -> & H); simpl in H.
    + destruct H as ([] & ? & -> & y & ? & -> & -> & _). right. eauto.
    + destruct H as [-> _]. left. reflexivity.
  - destruct H as ([] & ? & -> & y & ? & -> & -> & _). eauto.
Qed.

Opaque respondWithJSON.

(** The response of a test endpoint to the outcome of the routine. *)
Definition outcome_response (conn : string) (res : TestResult)
    (err : option error) (post : trace) : Prop :=
  match err with
  | Some e =>
      exists post',
        post = (LogError "Test failed" ["error"; e] ~> tt) :: post'
        /\ runs (respondWithJSON StatusInternalServerError (TestResult_error e conn))
                post' tt
  | None => runs (respondWithJSON StatusOK (set_ConnType res conn)) post tt
  end.

Lemma runs_TestDatabase r tr u :
  runs (TestDatabase r) tr u ->
  (exists x post,
     tr = (GetMasterDB ~> inr x)
          :: (LogError "Failed to get database" ["error"; x] ~> tt) :: post
     /\ runs (respondWithJSON StatusInternalServerError
                (TestResult_error ("Failed to get database: " +:+ x) "rpc")) post tt)
  \/ exists db d t1 res err post,
       tr = (GetMasterDB ~> inl db) :: (store_DriverName ~> d) :: t1 ++ post
       /\ runs (runDatabaseTest db d (parsePageSize r)) t1 (res, err)
       /\ outcome_response "rpc" res err post.
Proof.
  unfold TestDatabase, TestDatabase_with. unmonad. simpl. destruct u.
  intros ([db|x] & ? & -> & H); simpl in H.
  - right. destruct H as (d & ? & -> & H).
    apply runs_bind in H as ([res err] & t1 & post & -> & H1 & H2).
    exists db, d, t1, res, err, post. split; [reflexivity|].
    split; [exact H1|]. unfold outcome_response.
    destruct err as [e|]; simpl in H2; [|exact H2].
    destruct H2 as ([] & post' & -> & H2). eauto.
  - left. destruct H as ([] & post & -> & H). eauto.
Qed.

(** The runs of [TestDatabaseRaw], one case per way through it. *)
Inductive raw_run (r : Request) : trace -> Prop :=
| raw_no_config post :
    runs (respondWithJSON StatusInternalServerError
            (TestResult_error "Failed to get server configuration" "raw")) post tt ->
    raw_run r ((GetUnsanitizedConfig ~> None) :: post)
| raw_unsupported cfg configured post :
    SqlSettings_DriverName cfg = Some configured ->
    configured <> "mysql" -> configured <> "postgres" ->
    runs (respondWithJSON StatusInternalServerError
            (TestResult_error ("Unsupported database driver: " +:+ configured) "raw"))
         post tt ->
    raw_run r ((GetUnsanitizedConfig ~> Some cfg) :: post)
| raw_open_failed cfg drv ds x post :
    SqlSettings_DriverName cfg = Some drv ->
    drv = "mysql" \/ drv = "postgres" ->
    SqlSettings_DataSource cfg = Some ds ->
    runs (respondWithJSON StatusInternalServerError
            (TestResult_error ("Failed to connect to database: " +:+ x) "raw"))
         post tt ->
    raw_run r ((GetUnsanitizedConfig ~> Some cfg)
               :: (sql_Open drv ds ~> inr x)
               :: (LogError "Failed to connect to database directly" ["error"; x] ~> tt)
               :: post)
| raw_opened cfg drv ds db t1 res err post :
    SqlSettings_DriverName cfg = Some drv ->
    drv = "mysql" \/ drv = "postgres" ->
    SqlSettings_DataSource cfg = Some ds ->
    runs (runDatabaseTest db drv (parsePageSize r)) t1 (res, err) ->
    outcome_response "raw" res err post ->
    raw_run r ((GetUnsanitizedConfig ~> Some cfg)
               :: (sql_Open drv ds ~> inl db)
               :: t1 ++ post ++ [db_Close db ~> tt]).

Lemma runs_TestDatabaseRaw r tr u :
  runs (TestDatabaseRaw r) tr u -> raw_run r tr.
Proof.
  unfold TestDatabaseRaw, TestDatabaseRaw_with. unmonad. simpl. destruct u.
  intros ([cfg|] & tr0 & -> & H); simpl in H.
  2:{ constructor. exact H. }
  destruct (SqlSettings_DriverName cfg) as [configured|] eqn:Ed; simpl in H;
    [|contradiction].
  assert (Hconn : forall drv,
             configured = drv -> drv = "mysql" \/ drv = "postgres" ->
             runs (bind (deref (SqlSettings_DataSource cfg))
                     (fun dataSource =>
                        bind (Vis (sql_Open drv dataSource) Ret)
                          (fun r0 =>
                             match r0 with
                             | inl db =>
                                 defer (Vis (db_Close db) Ret)
                                   (bind (runDatabaseTest db drv (parsePageSize r))
                                      (fun '(result, err) =>
                                         match err with
                                         | Some e =>
                                             bind (Vis (LogError "Test failed" ["error"; e]) Ret)
                                               (fun _ => respondWithJSON StatusInternalServerError
                                                           (TestResult_error e "raw"))
                                         | None =>
                                             respondWithJSON StatusOK (set_ConnType result "raw")
                                         end))
                             | inr e =>
                                 bind (Vis (LogError "Failed to connect to database directly"
                                              ["error"; e]) Ret)
                                   (fun _ => respondWithJSON StatusInternalServerError
                                               (TestResult_error
                                                  ("Failed to connect to database: " +:+ e) "raw"))
                             end))) tr0 tt ->
             raw_run r ((GetUnsanitizedConfig ~> Some cfg) :: tr0)).
  { intros drv <- Hdrv Hrun.
    destruct (SqlSettings_DataSource cfg) as [ds|] eqn:Es; simpl in Hrun;
      [|contradiction].
    destruct Hrun as ([db|x] & tr1 & -> & Hrun); simpl in Hrun.
    - unfold defer in Hrun. unmonad.
      apply runs_bind in Hrun as (a & t2 & t3 & -> & H1 & H3).
      simpl in H3. destruct H3 as ([] & ? & -> & -> & _). destruct a.
      apply runs_bind in H1 as ([res err] & t1 & post & -> & H1 & H2).
      rewrite <- app_assoc.
      apply (raw_opened r cfg configured ds db t1 res err post Ed Hdrv Es H1).
      unfold outcome_response. destruct err as [e|]; simpl in H2.
      + destruct H2 as ([] & post' & -> & H2). eauto.
      + exact H2.
    - destruct Hrun as ([] & post & -> & Hrun).
      apply (raw_open_failed r cfg configured ds x post Ed Hdrv Es Hrun). }
  destruct (String.eqb configured DatabaseDriverMysql) eqn:E1.
  { apply String.eqb_eq in E1. apply (Hconn "mysql"); auto. }
  destruct (String.eqb configured DatabaseDriverPostgres) eqn:E2.
  { apply String.eqb_eq in E2. apply (Hconn "postgres"); auto. }
  apply String.eqb_neq in E1, E2.
  apply (raw_unsupported r cfg configured tr0 Ed E1 E2 H).
Qed.

(** The calls on the response writer. *)
Definition is_response_call (ent : entry) : bool :=
  match ent with
  | Entry e _ =>
      match e with
      | w_Header_Set _ _ | w_Header_Del _ | w_WriteHeader _ | w_Write _ => true
      | _ => false
      end
  end.

Lemma respondWithJSON_entries code data tr u :
  runs (respondWithJSON code data) tr u -> forallb is_response_call tr = true.
Proof.
  intros H. apply respondWithJSON_calls in H as (rest & -> & H).
  unfold json_body in H. destruct (json_Marshal data).
  - destruct H as [-> | (e & y & ->)]; reflexivity.
  - destruct H as (y & ->). reflexivity.
Qed.

Lemma respondWithJSON_select {A} (f : forall X : Type, call X -> X -> option A)
    code data tr u :
  (forall X (e : call X) x, is_response_call (e ~> x) = true -> f X e x = None) ->
  runs (respondWithJSON code data) tr u -> select f tr = [].
Proof.
  intros Hf H. apply respondWithJSON_entries in H. eapply select_nil; eauto.
Qed.

Lemma rdt_select {A} (f : forall X : Type, call X -> X -> option A)
    db d b tr r :
  0 < b <= max_int ->
  (forall X (e : call X) x, is_routine_call (e ~> x) = true -> f X e x = None) ->
  runs (runDatabaseTest db d b) tr r -> select f tr = [].
Proof.
  intros Hb Hf H. destruct r as [res err].
  apply runs_runDatabaseTest in H; [|exact Hb].
  apply (rdt_forallb is_routine_call) in H; [|auto].
  eapply select_nil; eauto.
Qed.

(** The connections [sql.Open] returned, and the connections closed. *)
Definition connected : trace -> list DB :=
  select (fun X e =>
    match e in call X return X -> option DB with
    | sql_Open _ _ => fun x => match x with inl db => Some db | inr _ => None end
    | _ => fun _ => None
    end).

Definition db_closed : trace -> list DB :=
  select (fun X e _ =>
    match e with
    | db_Close db => Some db
    | _ => None
    end).

Lemma outcome_response_select {A} (f : forall X : Type, call X -> X -> option A)
    conn res err post :
  (forall X (e : call X) x, is_response_call (e ~> x) = true -> f X e x = None) ->
  (forall m kv, f _ (LogError m kv) tt = None) ->
  outcome_response conn res err post -> select f post = [].
Proof.
  intros Hf Hl H. unfold outcome_response in H. destruct err as [e|].
  - destruct H as (post' & -> & H).
    apply (respondWithJSON_select f) in H; [|exact Hf].
    unfold select in *. simpl. rewrite Hl. exact H.
  - eapply respondWithJSON_select; eauto.
Qed.

(** X9: whatever the request, the page size [TestDatabase] parses lies
    between one and the largest [int], and the handler returns whatever the
    environment answers: it never panics, and the scan loop of the routine
    always ends. *)
Theorem test_database_returns r :
  0 < parsePageSize r <= max_int /\ total (TestDatabase r).
Proof.
  split; [apply parsePageSize_range|].
  unfold TestDatabase, TestDatabase_with. unmonad. simpl.
  intros [db|x]; simpl.
  - intros d. apply total_bind.
    + apply total_runDatabaseTest, parsePageSize_range.
    + intros [res [e|]]; simpl.
      * intros []. apply total_respondWithJSON.
      * apply total_respondWithJSON.
  - intros []. apply total_respondWithJSON.
Qed.

(** X10: [TestDatabaseRaw] dereferences the driver name and the data source
    of the configuration unchecked: with a configuration whose driver name
    is nil, or whose driver is supported and whose data source is nil, it
    panics before it has opened a connection or written any response. *)
Theorem raw_nil_setting_panics {W} (h : handler W) (w w1 : W) r cfg :
  h _ GetUnsanitizedConfig w = (Some cfg, w1) ->
  SqlSettings_DriverName cfg = None
  \/ ((SqlSettings_DriverName cfg = Some "mysql"
       \/ SqlSettings_DriverName cfg = Some "postgres")
      /\ SqlSettings_DataSource cfg = None) ->
  interp h (TestDatabaseRaw r) w
  = (Aborted (Panic "invalid memory address or nil pointer dereference"),
     w1, [GetUnsanitizedConfig ~> Some cfg]).
Proof.
  intros Hc Hn. unfold TestDatabaseRaw, TestDatabaseRaw_with. unmonad. simpl.
  rewrite Hc. simpl.
  destruct Hn as [-> | [[-> | ->] ->]]; reflexivity.
Qed.

Lemma raw_nil_setting_panics_witness :
  let s := {| Stub.count := inl 0; Stub.page_rows := [];
              Stub.fault := fun _ => None;
              Stub.config := Some {| SqlSettings_DriverName := Some "postgres";
                                     SqlSettings_DataSource := None |} |} in
  interp (Stub.answer s) (TestDatabaseRaw (with_page_size "10")) 0%nat
  = (Aborted (Panic "invalid memory address or nil pointer dereference"),
     1%nat, [GetUnsanitizedConfig ~> Stub.config s]).
Proof.
  intros s.
  apply (raw_nil_setting_panics (Stub.answer s) 0%nat 1%nat (with_page_size "10")
           {| SqlSettings_DriverName := Some "postgres";
              SqlSettings_DataSource := None |}).
  - reflexivity.
  - right. split; [right; reflexivity|reflexivity].
Defined.

Ltac drop_respond Hr :=
  rewrite (fun Hf => respondWithJSON_select _ _ _ _ _ Hf Hr) by ignored.

Ltac drop_routine H1 :=
  rewrite (fun Hf => rdt_select _ _ _ _ _ _ (parsePageSize_range _) Hf H1)
    by ignored.

Ltac drop_outcome H2 :=
  rewrite (fun Hf => outcome_response_select _ _ _ _ _ Hf (fun _ _ => eq_refl) H2)
    by ignored.

Ltac raw_shapes H :=
  inversion H as [ post Hr | cfg configured post Ed N1 N2 Hr
                 | cfg drv ds x post Ed Hd Es Hr
                 | cfg drv ds db t1 res err post Ed Hd Es H1 H2 ]; subst.

(** X11: without a configuration [TestDatabaseRaw] answers 500 with the
    document whose error is "Failed to get server configuration" and whose
    connection type is "raw"; it opens no connection and writes nothing to
    the error log. *)
Theorem raw_without_configuration r tr u :
  runs (TestDatabaseRaw r) tr u ->
  In None (configs tr) ->
  exists post,
    tr = (GetUnsanitizedConfig ~> None) :: post
    /\ json_response StatusInternalServerError
         (error_json "Failed to get server configuration" "raw") post
    /\ opened tr = [] /\ errors_logged tr = [].
Proof.
  intros H Hc. apply runs_TestDatabaseRaw in H.
  raw_shapes H.
  - exists post. split; [reflexivity|].
    split; [eapply runs_respondWithJSON; [|exact Hr]; reflexivity|].
    unfold opened, errors_logged, select. simpl. fold (select
      (fun X (e : call X) (_ : X) =>
         match e with sql_Open d0 s0 => Some (d0, s0) | _ => None end) post).
    split; (eapply respondWithJSON_select; [ignored|exact Hr]).
  - exfalso. revert Hc.
    change (In None (Some cfg :: configs post) -> False).
    unfold configs. drop_respond Hr. intros [[=]|[]].
  - exfalso. revert Hc.
    change (In None (Some cfg :: configs post) -> False).
    unfold configs. drop_respond Hr. intros [[=]|[]].
  - exfalso. revert Hc.
    change (In None (Some cfg :: configs (t1 ++ post ++ [db_Close db ~> tt])) -> False).
    unfold configs. rewrite !select_app.
    drop_routine H1. drop_outcome H2. intros [[=]|[]].
Qed.

Lemma page_size_30000 : parsePageSize (with_page_size "30000") = 30000.
Proof. apply parsePageSize_with; [reflexivity|lia]. Qed.

(** Evaluates a run of a handler on [?page_size=30000] over a scripted
    connection. *)
Ltac handler_runs s :=
  unfold TestDatabase, TestDatabaseRaw; rewrite ?page_size_30000; stub_runs s.

(** A configuration for PostgreSQL. *)
Definition postgres_config : Config :=
  {| SqlSettings_DriverName := Some "postgres";
     SqlSettings_DataSource := Some "postgres://mmuser@localhost/mattermost" |}.

(** A full table behind a configured server, with the faults [f]. *)
Definition full_table (f : nat -> option error) : Stub.Script :=
  {| Stub.count := inl 50000; Stub.page_rows := [inl (1, "Test data 0")];
     Stub.fault := f; Stub.config := Some postgres_config |}.

Transparent totalRecords scanPhase rollback respondWithJSON http_Error
  runDatabaseTest.

Lemma raw_without_configuration_witness :
  exists tr,
    runs (TestDatabaseRaw (with_page_size "30000")) tr tt
    /\ In None (configs tr)
    /\ exists post,
         tr = (GetUnsanitizedConfig ~> None) :: post
         /\ json_response StatusInternalServerError
              (error_json "Failed to get server configuration" "raw") post
         /\ opened tr = [] /\ errors_logged tr = [].
Proof.
  eexists. split; [handler_runs (Stub.one_missing (fun _ => None))|].
  split; [left; reflexivity|].
  eapply (raw_without_configuration (with_page_size "30000"));
    [|left; reflexivity].
  handler_runs (Stub.one_missing (fun _ => None)).
Defined.

Opaque totalRecords scanPhase rollback respondWithJSON http_Error
  runDatabaseTest.

(** The errors [sql.Open] returned. *)
Definition connect_errors : trace -> list error :=
  select (fun X e =>
    match e in call X return X -> option error with
    | sql_Open _ _ => fun x => match x with inl _ => None | inr err => Some err end
    | _ => fun _ => None
    end).

(** X12: when [sql.Open] fails, [TestDatabaseRaw] logs the failure and
    answers 500 with the document whose error is "Failed to connect to
    database: " and the error; the routine is not run and nothing is
    closed. *)
Theorem raw_connection_failure r tr u x :
  runs (TestDatabaseRaw r) tr u ->
  In x (connect_errors tr) ->
  exists cfg drv ds post,
    tr = (GetUnsanitizedConfig ~> Some cfg)
         :: (sql_Open drv ds ~> inr x)
         :: (LogError "Failed to connect to database directly" ["error"; x] ~> tt)
         :: post
    /\ json_response StatusInternalServerError
         (error_json ("Failed to connect to database: " +:+ x) "raw") post
    /\ db_closed tr = [].
Proof.
  intros H Hx. apply runs_TestDatabaseRaw in H.
  inversion H as [ post Hr | cfg configured post Ed N1 N2 Hr
                 | cfg drv ds x' post Ed Hd Es Hr
                 | cfg drv ds db t1 res err post Ed Hd Es H1 H2 ]; subst.
  - exfalso. revert Hx. change (In x (connect_errors post) -> False).
    unfold connect_errors. drop_respond Hr. intros [].
  - exfalso. revert Hx. change (In x (connect_errors post) -> False).
    unfold connect_errors. drop_respond Hr. intros [].
  - assert (x' = x) as ->.
    { revert Hx. change (In x (x' :: connect_errors post) -> x' = x).
      unfold connect_errors. drop_respond Hr. intros [E|[]]. exact E. }
    exists cfg, drv, ds, post. split; [reflexivity|].
    split.
    + eapply runs_respondWithJSON; [|exact Hr].
      apply json_Marshal_error. discriminate.
    + change (db_closed post = []). unfold db_closed. drop_respond Hr.
      reflexivity.
  - exfalso. revert Hx.
    change (In x (connect_errors (t1 ++ post ++ [db_Close db ~> tt])) -> False).
    unfold connect_errors. rewrite !select_app.
    drop_routine H1. drop_outcome H2. intros [].
Qed.

Transparent totalRecords scanPhase rollback respondWithJSON http_Error
  runDatabaseTest.

Lemma raw_connection_failure_witness :
  exists tr,
    runs (TestDatabaseRaw (with_page_size "30000")) tr tt
    /\ In "connection refused" (connect_errors tr)
    /\ exists cfg drv ds post,
         tr = (GetUnsanitizedConfig ~> Some cfg)
              :: (sql_Open drv ds ~> inr "connection refused")
              :: (LogError "Failed to connect to database directly"
                    ["error"; "connection refused"] ~> tt)
              :: post
         /\ json_response StatusInternalServerError
              (error_json ("Failed to connect to database: " +:+ "connection refused")
                 "raw") post
         /\ db_closed tr = [].
Proof.
  eexists. split; [handler_runs (full_table (Stub.only 1 "connection refused"))|].
  split; [left; reflexivity|].
  eapply (raw_connection_failure (with_page_size "30000"));
    [|left; reflexivity].
  handler_runs (full_table (Stub.only 1 "connection refused")).
Defined.

Opaque totalRecords scanPhase rollback respondWithJSON http_Error
  runDatabaseTest.

(** X13: [TestDatabaseRaw] opens at most one connection, and closes the one
    [sql.Open] returned exactly once, as the last thing it does, after the
    response is written, whether the routine failed or not. *)
Theorem raw_closes_connection r tr u :
  runs (TestDatabaseRaw r) tr u ->
  db_closed tr = connected tr
  /\ (length (connected tr) <= 1)%nat
  /\ forall db, In db (connected tr) -> last tr = Some (db_Close db ~> tt).
Proof.
  intros H. apply runs_TestDatabaseRaw in H.
  raw_shapes H.
  - change (connected ((GetUnsanitizedConfig ~> None) :: post))
      with (connected post).
    change (db_closed ((GetUnsanitizedConfig ~> None) :: post))
      with (db_closed post).
    unfold db_closed, connected. do 2 drop_respond Hr.
    split; [reflexivity|]. split; [simpl; lia|intros db []].
  - change (connected ((GetUnsanitizedConfig ~> Some cfg) :: post))
      with (connected post).
    change (db_closed ((GetUnsanitizedConfig ~> Some cfg) :: post))
      with (db_closed post).
    unfold db_closed, connected. do 2 drop_respond Hr.
    split; [reflexivity|]. split; [simpl; lia|intros db []].
  - match goal with
    | |- context [connected ?t] =>
        change (connected t) with (connected post);
        change (db_closed t) with (db_closed post)
    end.
    unfold db_closed, connected. do 2 drop_respond Hr.
    split; [reflexivity|]. split; [simpl; lia|intros db []].
  - assert (Hc : connected ((GetUnsanitizedConfig ~> Some cfg)
                            :: (sql_Open drv ds ~> inl db)
                            :: t1 ++ post ++ [db_Close db ~> tt]) = [db]).
    { change (db :: connected (t1 ++ post ++ [db_Close db ~> tt]) = [db]).
      unfold connected. rewrite !select_app.
      drop_routine H1. drop_outcome H2. reflexivity. }
    assert (Hcl : db_closed ((GetUnsanitizedConfig ~> Some cfg)
                            :: (sql_Open drv ds ~> inl db)
                            :: t1 ++ post ++ [db_Close db ~> tt]) = [db]).
    { change (db_closed (t1 ++ post ++ [db_Close db ~> tt]) = [db]).
      unfold db_closed. rewrite !select_app.
      drop_routine H1. drop_outcome H2. reflexivity. }
    rewrite Hc, Hcl. split; [reflexivity|]. split; [simpl; lia|].
    intros db' [<-|[]].
    rewrite !app_comm_cons, !app_assoc. apply last_snoc.
Qed.

Transparent totalRecords scanPhase rollback respondWithJSON http_Error
  runDatabaseTest.

Lemma raw_closes_connection_witness :
  exists tr,
    runs (TestDatabaseRaw (with_page_size "30000")) tr tt
    /\ connected tr = [1%nat]
    /\ statuses tr = [StatusInternalServerError]
    /\ db_closed tr = connected tr
    /\ (length (connected tr) <= 1)%nat
    /\ forall db, In db (connected tr) -> last tr = Some (db_Close db ~> tt).
Proof.
  eexists. split; [handler_runs (full_table (Stub.only 3 "permission denied"))|].
  split; [reflexivity|]. split; [reflexivity|].
  eapply (raw_closes_connection (with_page_size "30000")).
  handler_runs (full_table (Stub.only 3 "permission denied")).
Defined.

Opaque totalRecords scanPhase rollback respondWithJSON http_Error
  runDatabaseTest.

(** X14: [TestDatabaseRaw] connects as the configuration says: the one
    connection it opens is to the configured data source, under the driver
    name "mysql" or "postgres" that the configuration names. *)
Theorem raw_connects_as_configured r tr u drv ds :
  runs (TestDatabaseRaw r) tr u ->
  In (drv, ds) (opened tr) ->
  opened tr = [(drv, ds)]
  /\ (drv = "mysql" \/ drv = "postgres")
  /\ exists cfg,
       configs tr = [Some cfg]
       /\ SqlSettings_DriverName cfg = Some drv
       /\ SqlSettings_DataSource cfg = Some ds.
Proof.
  intros H Ho. apply runs_TestDatabaseRaw in H.
  inversion H as [ post Hr | cfg configured post Ed N1 N2 Hr
                 | cfg drv' ds' x post Ed Hd Es Hr
                 | cfg drv' ds' db t1 res err post Ed Hd Es H1 H2 ]; subst.
  - exfalso. revert Ho. change (In (drv, ds) (opened post) -> False).
    unfold opened. drop_respond Hr. intros [].
  - exfalso. revert Ho. change (In (drv, ds) (opened post) -> False).
    unfold opened. drop_respond Hr. intros [].
  - assert (Hop : opened post = []) by (unfold opened; drop_respond Hr; reflexivity).
    assert (Hcf : configs post = []) by (unfold configs; drop_respond Hr; reflexivity).
    revert Ho.
    change (In (drv, ds) ((drv', ds') :: opened post) ->
            (drv', ds') :: opened post = [(drv, ds)]
            /\ (drv = "mysql" \/ drv = "postgres")
            /\ exists cfg0, Some cfg :: configs post = [Some cfg0]
                            /\ SqlSettings_DriverName cfg0 = Some drv
                            /\ SqlSettings_DataSource cfg0 = Some ds).
    rewrite Hop, Hcf. intros [[= <- <-]|[]]. eauto 6.
  - assert (Hop : opened (t1 ++ post ++ [db_Close db ~> tt]) = []).
    { unfold opened. rewrite !select_app. drop_routine H1. drop_outcome H2.
      reflexivity. }
    assert (Hcf : configs (t1 ++ post ++ [db_Close db ~> tt]) = []).
    { unfold configs. rewrite !select_app. drop_routine H1. drop_outcome H2.
      reflexivity. }
    revert Ho.
    change (In (drv, ds) ((drv', ds') :: opened (t1 ++ post ++ [db_Close db ~> tt])) ->
            (drv', ds') :: opened (t1 ++ post ++ [db_Close db ~> tt]) = [(drv, ds)]
            /\ (drv = "mysql" \/ drv = "postgres")
            /\ exists cfg0,
                 Some cfg :: configs (t1 ++ post ++ [db_Close db ~> tt]) = [Some cfg0]
                 /\ SqlSettings_DriverName cfg0 = Some drv
                 /\ SqlSettings_DataSource cfg0 = Some ds).
    rewrite Hop, Hcf. intros [[= <- <-]|[]]. eauto 6.
Qed.

Transparent totalRecords scanPhase rollback respondWithJSON http_Error
  runDatabaseTest.

Lemma raw_connects_as_configured_witness :
  exists tr,
    runs (TestDatabaseRaw (with_page_size "30000")) tr tt
    /\ In ("postgres", "postgres://mmuser@localhost/mattermost") (opened tr)
    /\ opened tr = [("postgres", "postgres://mmuser@localhost/mattermost")]
    /\ ("postgres" = "mysql" \/ "postgres" = "postgres")
    /\ exists cfg,
         configs tr = [Some cfg]
         /\ SqlSettings_DriverName cfg = Some "postgres"
         /\ SqlSettings_DataSource cfg = Some "postgres://mmuser@localhost/mattermost".
Proof.
  eexists. split; [handler_runs (full_table (Stub.only 3 "permission denied"))|].
  split; [left; reflexivity|].
  eapply (raw_connects_as_configured (with_page_size "30000"));
    [|left; reflexivity].
  handler_runs (full_table (Stub.only 3 "permission denied")).
Defined.

Opaque totalRecords scanPhase rollback respondWithJSON http_Error
  runDatabaseTest.

(** The document of a successful benchmark. *)
Definition ok_json (insert_time query_time : float) (conn : string) (b : Z) : json :=
  JObject [("insert_time_seconds", JNumber insert_time);
           ("total_query_time_seconds", JNumber query_time);
           ("conn_type", JString conn);
           ("records_queried", JInt totalRecords);
           ("page_size", JInt b)].

Lemma json_body_written data rest j :
  json_body data rest -> In (Json j) (written rest) -> json_Marshal data = inl j.
Proof.
  unfold json_body. destruct (json_Marshal data) as [j0|e0].
  - intros [-> | (e & y & ->)]; simpl.
    + intros [[= ->]|[]]. reflexivity.
    + intros [[= ->]|[[=]|[]]]. reflexivity.
  - intros (y & ->). simpl. intros [[=]|[]].
Qed.

Lemma rdt_ok_result db d b tr res :
  rdt_run db d b tr res None ->
  Error res = "" /\ RecordsQueried res = totalRecords /\ PageSize res = b.
Proof.
  assert (Hs : forall result st,
             Error result = "" ->
             scanned b result st res None ->
             Error res = "" /\ RecordsQueried res = totalRecords /\ PageSize res = b).
  { intros result st He (s0 & st' & m & _ & _ & _ & s1 & _ & _ & ->).
    simpl. auto. }
  intros H. shapes H; eapply Hs; eauto; reflexivity.
Qed.

Lemma marshal_ok res conn j b :
  Error res = "" -> RecordsQueried res = totalRecords -> PageSize res = b ->
  json_Marshal (set_ConnType res conn) = inl j ->
  exists it qt, j = ok_json it qt conn b.
Proof.
  unfold json_Marshal, ok_json. simpl. intros -> -> <-.
  unfold json_float.
  destruct (_ || _)%bool; [discriminate|].
  destruct (_ || _)%bool; [discriminate|].
  simpl. intros [= <-]. eauto.
Qed.

(** X15: whenever [TestDatabase] writes a JSON document after the status
    200, the document has no "error" member, its "conn_type" is "rpc", its
    "records_queried" is [totalRecords] and its "page_size" is the page
    size parsed from the request. *)
Theorem ok_response_document r tr u j :
  runs (TestDatabase r) tr u ->
  head (statuses tr) = Some StatusOK ->
  In (Json j) (written tr) ->
  exists insert_time query_time,
    j = ok_json insert_time query_time "rpc" (parsePageSize r).
Proof.
  intros H Hs Hj. pose proof (parsePageSize_range r) as Hb.
  apply runs_TestDatabase in H
    as [(x & post & -> & Hr) | (db & d & t1 & res & err & post & -> & H1 & H2)].
  - exfalso. apply respondWithJSON_calls in Hr as (rest & -> & _).
    discriminate Hs.
  - assert (Hst : statuses t1 = []) by (unfold statuses; drop_routine H1; reflexivity).
    assert (Hwr : written t1 = []) by (unfold written; drop_routine H1; reflexivity).
    match type of Hs with
    | head (statuses ?t) = _ =>
        change (statuses t) with (statuses (t1 ++ post)) in Hs;
        change (written t) with (written (t1 ++ post)) in Hj
    end.
    unfold statuses in Hs. unfold written in Hj. rewrite select_app in Hs.
    rewrite select_app in Hj.
    fold statuses in Hs. fold written in Hj. rewrite Hst in Hs. rewrite Hwr in Hj.
    simpl in Hs, Hj. revert Hs Hj.
    unfold outcome_response in H2. destruct err as [e|].
    + destruct H2 as (post' & -> & Hr).
      apply respondWithJSON_calls in Hr as (rest & -> & _). discriminate.
    + intros _ Hj. apply respondWithJSON_calls in H2 as (rest & -> & Hbody).
      apply runs_runDatabaseTest in H1; [|exact Hb].
      apply rdt_ok_result in H1 as (He & Hq & Hp).
      apply (marshal_ok res "rpc" j _ He Hq Hp).
      apply (json_body_written _ rest); [exact Hbody|exact Hj].
Qed.

Transparent totalRecords scanPhase rollback respondWithJSON http_Error
  runDatabaseTest.

Lemma ok_response_document_witness :
  exists tr j,
    runs (TestDatabase (with_page_size "30000")) tr tt
    /\ head (statuses tr) = Some StatusOK
    /\ In (Json j) (written tr)
    /\ exists insert_time query_time,
         j = ok_json insert_time query_time "rpc"
               (parsePageSize (with_page_size "30000")).
Proof.
  eexists _, _. split; [handler_runs (full_table (fun _ => None))|].
  split; [reflexivity|]. split; [left; reflexivity|].
  eapply (ok_response_document (with_page_size "30000"));
    [handler_runs (full_table (fun _ => None))|reflexivity|left; reflexivity].
Defined.

Opaque totalRecords scanPhase rollback respondWithJSON http_Error
  runDatabaseTest.

Lemma insertLoop_ok_quiet fuel tx stmt i it :
  runs (insertLoop fuel tx stmt i) it None -> errors_logged it = [].
Proof.
  revert i it. induction fuel as [|fuel IH]; intros i it; simpl;
    destruct (i <? totalRecords).
  - intros [].
  - intros [-> _]. reflexivity.
  - unmonad. simpl. intros ([x|] & tr' & -> & H); simpl in H.
    + apply runs_bind in H as ([] & t1 & t2 & -> & H1 & [_ [=]]).
    + apply IH in H. exact H.
  - intros [-> _]. reflexivity.
Qed.

Lemma rdt_ok_quiet db d b tr res :
  rdt_run db d b tr res None -> errors_logged tr = [].
Proof.
  intros H.
  assert (Hs : forall result st r e,
             scanned b result st r e -> errors_logged st = []).
  { intros result st r e Hst. apply scanned_projections in Hst. tauto. }
  shapes H; unfold opening, errors_logged; rewrite ?select_app;
    fold errors_logged;
    rewrite ?(insertLoop_ok_quiet _ _ _ _ _ Hit), ?(Hs _ _ _ _ Hst);
    reflexivity.
Qed.

(** X16: [TestDatabase] answers 200 or 500.  A successful benchmark is
    answered 200 and logs no error.  Every failure is logged before anything
    is written to the response, and the last entry of the error log is the
    failure answered: the entry "Failed to get database" with the error [x]
    is followed by the 500 document "Failed to get database: x", the entry
    "Test failed" with the error [x] of the routine by the 500 document
    with the error [x]. *)
Theorem test_database_logs_failures r tr u :
  runs (TestDatabase r) tr u ->
  (head (statuses tr) = Some StatusOK /\ errors_logged tr = [])
  \/ exists pre m x text post,
       tr = pre ++ (LogError m ["error"; x] ~> tt) :: post
       /\ ((m = "Failed to get database"
            /\ text = "Failed to get database: " +:+ x)
           \/ (m = "Test failed" /\ text = x))
       /\ statuses pre = [] /\ written pre = []
       /\ json_response StatusInternalServerError (error_json text "rpc") post
       /\ head (statuses tr) = Some StatusInternalServerError
       /\ last (errors_logged tr) = Some (m, ["error"; x]).
Proof.
  intros H. pose proof (parsePageSize_range r) as Hb.
  apply runs_TestDatabase in H
    as [(x & post & -> & Hr) | (db & d & t1 & res & err & post & -> & H1 & H2)].
  - right.
    exists [GetMasterDB ~> inr x], "Failed to get database", x,
           ("Failed to get database: " +:+ x), post.
    apply runs_respondWithJSON
      with (j := error_json ("Failed to get database: " +:+ x) "rpc") in Hr;
      [|apply json_Marshal_error; discriminate].
    split; [reflexivity|]. split; [left; auto|].
    split; [reflexivity|]. split; [reflexivity|]. split; [exact Hr|].
    destruct Hr as [-> | (e & y & ->)]; split; reflexivity.
  - assert (Hst : statuses t1 = []) by (unfold statuses; drop_routine H1; reflexivity).
    assert (Hwr : written t1 = []) by (unfold written; drop_routine H1; reflexivity).
    unfold outcome_response in H2. destruct err as [e|].
    + right. destruct H2 as (post' & -> & Hr).
      exists ((GetMasterDB ~> inl db) :: (store_DriverName ~> d) :: t1),
             "Test failed", e, e, post'.
      apply runs_respondWithJSON with (j := error_json e "rpc") in Hr.
      2:{ apply json_Marshal_error.
          apply runs_runDatabaseTest in H1; [|exact Hb].
          eapply rdt_error_nonempty; eauto. }
      split; [reflexivity|]. split; [right; auto|].
      split; [exact Hst|]. split; [exact Hwr|]. split; [exact Hr|].
      change (head (statuses (t1 ++ (LogError "Test failed" ["error"; e] ~> tt) :: post'))
              = Some StatusInternalServerError
              /\ last (errors_logged
                         (t1 ++ (LogError "Test failed" ["error"; e] ~> tt) :: post'))
                 = Some ("Test failed", ["error"; e])).
      unfold statuses, errors_logged. rewrite !select_app.
      fold statuses. fold errors_logged. rewrite Hst.
      destruct Hr as [-> | (e' & y & ->)]; (split; [reflexivity|]);
        change (last (errors_logged t1 ++ [("Test failed", ["error"; e])])
                = Some ("Test failed", ["error"; e]));
        apply last_snoc.
    + left. apply runs_runDatabaseTest in H1; [|exact Hb].
      change (head (statuses (t1 ++ post)) = Some StatusOK
              /\ errors_logged (t1 ++ post) = []).
      unfold statuses, errors_logged. rewrite !select_app.
      fold statuses. fold errors_logged. rewrite Hst.
      rewrite (rdt_ok_quiet _ _ _ _ _ H1). simpl.
      pose proof (respondWithJSON_select
                    (fun X e _ => match e with LogError m kv => Some (m, kv) | _ => None end)
                    _ _ _ _ ltac:(ignored) H2) as Hl.
      apply respondWithJSON_calls in H2 as (rest & -> & _).
      split; [reflexivity|exact Hl].
Qed.

Transparent totalRecords scanPhase rollback respondWithJSON http_Error
  runDatabaseTest.

(** The count query fails. *)
Lemma test_database_logs_failures_witness :
  exists tr,
    runs (TestDatabase (with_page_size "30000")) tr tt
    /\ errors_logged tr
       = [("Test failed", ["error"; "failed to check record count: timeout"])]
    /\ ((head (statuses tr) = Some StatusOK /\ errors_logged tr = [])
        \/ exists pre m x text post,
             tr = pre ++ (LogError m ["error"; x] ~> tt) :: post
             /\ ((m = "Failed to get database"
                  /\ text = "Failed to get database: " +:+ x)
                 \/ (m = "Test failed" /\ text = x))
             /\ statuses pre = [] /\ written pre = []
             /\ json_response StatusInternalServerError (error_json text "rpc") post
             /\ head (statuses tr) = Some StatusInternalServerError
             /\ last (errors_logged tr) = Some (m, ["error"; x])).
Proof.
  eexists. split; [handler_runs (full_table (Stub.only 4 "timeout"))|].
  split; [reflexivity|].
  eapply (test_database_logs_failures (with_page_size "30000")).
  handler_runs (full_table (Stub.only 4 "timeout")).
Defined.

Opaque totalRecords scanPhase rollback respondWithJSON http_Error
  runDatabaseTest.

(** X17: when the greeting cannot be written, [HelloWorld] logs the error
    and then answers with [http.Error]: status 500 and the error's text,
    after the failed write; when it is written, nothing else happens and
    no status is set. *)
Theorem hello_write_failure r tr u :
  runs (HelloWorld r) tr u ->
  (tr = [w_Write (Text "Hello, world!") ~> None] /\ statuses tr = [])
  \/ exists e y,
       tr = (w_Write (Text "Hello, world!") ~> Some e)
            :: (LogError "Failed to write response" ["error"; e] ~> tt)
            :: error_response e StatusInternalServerError y
       /\ statuses tr = [StatusInternalServerError]
       /\ written tr = [Text "Hello, world!"; Text (e +:+ newline)].
Proof.
  unfold HelloWorld. unmonad. simpl.
  intros ([e|] & rest & -> & H); simpl in H.
  - right. destruct H as ([] & rest' & -> & H).
    apply runs_http_Error in H as (y & ->).
    exists e, y. repeat split; reflexivity.
  - left. destruct H as [-> _]. split; reflexivity.
Qed.

Transparent http_Error.

Lemma hello_write_failure_witness :
  exists tr,
    runs (HelloWorld (with_page_size "30000")) tr tt
    /\ statuses tr = [StatusInternalServerError]
    /\ ((tr = [w_Write (Text "Hello, world!") ~> None] /\ statuses tr = [])
        \/ exists e y,
             tr = (w_Write (Text "Hello, world!") ~> Some e)
                  :: (LogError "Failed to write response" ["error"; e] ~> tt)
                  :: error_response e StatusInternalServerError y
             /\ statuses tr = [StatusInternalServerError]
             /\ written tr = [Text "Hello, world!"; Text (e +:+ newline)]).
Proof.
  eexists. split; [stub_runs (full_table (Stub.only 0 "broken pipe"))|].
  split; [reflexivity|].
  eapply (hello_write_failure (with_page_size "30000")).
  stub_runs (full_table (Stub.only 0 "broken pipe")).
Defined.

Opaque http_Error.

Lemma uncommitted tr :
  ~ In None (commits tr) ->
  forallb (fun ent => negb (is_commit ent)) tr = true.
Proof.
  induction tr as [|[X e x] tr IH]; [reflexivity|].
  intros Hn. simpl.
  assert (Ht : ~ In None (commits tr)).
  { intros Hin. apply Hn. unfold commits, select in *. simpl.
    destruct e; simpl; try exact Hin. destruct x; [right|right]; exact Hin. }
  rewrite (IH Ht), andb_true_r.
  destruct e; try reflexivity.
  destruct x; [reflexivity|].
  exfalso. apply Hn. left. reflexivity.
Qed.

(** X18: over the reference database the routine changes the table only by
    a successful commit.  A run in which no commit succeeded, however it
    failed, leaves the rows as they were; a run in which one did leaves
    [totalRecords] rows, the old ones first, also when the scan that
    follows fails. *)
Theorem table_changes_only_by_commit o db d b w res err w' tr :
  0 < b <= max_int ->
  interp (answer o) (runDatabaseTest db d b) w = (Done (res, err), w', tr) ->
  (~ In None (commits tr) -> rows w' = rows w)
  /\ (In None (commits tr) ->
        Z.of_nat (length (rows w')) = totalRecords
        /\ exists added, rows w' = rows w ++ added).
Proof.
  intros Hb H. apply interp_sound in H as (Hr & Ha & ->). split.
  { intros Hn. apply replay_rows; [exact Ha|]. apply uncommitted. exact Hn. }
  apply runs_runDatabaseTest in Hr; [|exact Hb].
  assert (Hs : forall result st r e,
             scanned b result st r e -> commits st = []).
  { intros result st r e Hst. apply scanned_projections in Hst. tauto. }
  assert (Hi : forall fuel tx stmt i it r,
             runs (insertLoop fuel tx stmt i) it r -> commits it = []).
  { intros fuel tx stmt i it r Hit.
    apply insertLoop_entries, insert_projections in Hit. tauto. }
  shapes Hr;
    try (unfold opening, commits; rewrite ?select_app; fold commits;
         rewrite ?(Hi _ _ _ _ _ _ Hit), ?(Hs _ _ _ _ Hst); simpl;
         try (destruct rb; simpl); intros Hin;
         repeat (destruct Hin as [Hin|Hin]; try discriminate Hin);
         contradiction).
  intros _.
  assert (E : opening db d count t0
              ++ [db_Begin db ~> inl tx; tx_Prepare tx (insertSQL d) ~> inl stmt]
              ++ it ++ [tx_Commit tx ~> None; time_Now ~> t1]
              ++ st ++ [stmt_Close stmt ~> tt]
              = (opening db d count t0
                 ++ [db_Begin db ~> inl tx;
                     tx_Prepare tx (insertSQL d) ~> inl stmt])
                ++ it
                ++ ((tx_Commit tx ~> None)
                    :: ((time_Now ~> t1) :: st ++ [stmt_Close stmt ~> tt]))).
  { rewrite <- app_assoc. reflexivity. }
  rewrite E in Ha. clear E.
  apply answered_app in Ha as [Ha1 Ha2].
  pose proof (replay_opening o db d count t0 tx stmt w Ha1) as (Ht & Hp & ->).
  apply answered_app in Ha2 as [Ha2 Ha3].
  apply runs_insertLoop in Hit; [|unfold min_int; lia].
  destruct Hit as [[_ ->] | (j & x & rb & _ & [=] & _)].
  destruct (replay_inserts o stmt _ _ _ _ Ha2 Ht Hp) as (added & Ht2 & Hp2 & Hd).
  simpl in Hp2. destruct Ha3 as (Hx & _).
  pose proof (commit_answer o tx _ _ _ Hx Ht2 Hp2) as Ht3.
  destruct (scanned_projections _ _ _ _ _ Hst) as (Hq & _).
  match goal with
  | |- context [rows (replay (answer o) ?t w)] =>
      assert (Hrows : rows (replay (answer o) t w) = rows w ++ added)
  end.
  { rewrite !replay_app in *. unfold rows at 1.
    match goal with
    | |- context [table (replay (answer o) [stmt_Close stmt ~> ()] ?w0)] =>
        destruct (replay_quiet o [stmt_Close stmt ~> ()] w0 eq_refl) as [-> _]
    end.
    match goal with
    | |- context [table (replay (answer o) st ?w0)] =>
        destruct (replay_quiet o st w0 Hq) as [-> _]
    end.
    match goal with
    | |- context [replay (answer o) [tx_Commit tx ~> None; time_Now ~> t1] ?w0] =>
        change (replay (answer o) [tx_Commit tx ~> None; time_Now ~> t1] w0)
          with (replay (answer o) [time_Now ~> t1]
                  (answer o _ (tx_Commit tx) w0).2);
        destruct (replay_quiet o [time_Now ~> t1]
                    (answer o _ (tx_Commit tx) w0).2 eq_refl) as [-> _]
    end.
    rewrite Ht3. reflexivity. }
  split; [|exists added; exact Hrows].
  rewrite Hrows, length_app.
  assert (Hl : length added
               = Z.to_nat (totalRecords - Z.of_nat (length (rows w)))).
  { rewrite <- (length_map data added), Hd, length_map, length_seqZ.
    reflexivity. }
  rewrite Hl. lia.
Qed.

Lemma table_changes_only_by_commit_witness :
  exists res w' tr,
    interp (answer (calm 1000)) (runDatabaseTest 0%nat "postgres" 30000) three_rows
    = (Done (res, None), w', tr)
    /\ (~ In None (commits tr) -> rows w' = rows three_rows)
    /\ (In None (commits tr) ->
          Z.of_nat (length (rows w')) = totalRecords
          /\ exists added, rows w' = rows three_rows ++ added).
Proof.
  destruct (calm_runDatabaseTest (calm 1000) 0%nat "postgres" 30000 three_rows
              (calm_nofault 1000) max_int_30000) as (res & w' & tr & H).
  exists res, w', tr. split; [exact H|].
  exact (table_changes_only_by_commit (calm 1000) 0%nat "postgres" 30000
           three_rows res None w' tr max_int_30000 H).
Defined.

Lemma total_interp {W R} (h : handler W) (p : prog R) w :
  total p -> exists r w' tr, interp h p w = (Done r, w', tr).
Proof.
  revert w. induction p as [r|X e k IH|a]; intros w Ht; simpl in *.
  - eauto.
  - destruct (h X e w) as [x w1].
    destruct (IH x w1 (Ht x)) as (r & w' & tr & ->). eauto.
  - contradiction.
Qed.

(** X19: with a configuration whose driver name and data source are both
    set, or with none, [TestDatabaseRaw] returns in every environment: the
    nil settings are its only way to panic. *)
Theorem raw_returns_with_settings {W} (h : handler W) (w : W) r :
  (forall cfg,
     (h _ GetUnsanitizedConfig w).1 = Some cfg ->
     SqlSettings_DriverName cfg <> None /\ SqlSettings_DataSource cfg <> None) ->
  exists w' tr, interp h (TestDatabaseRaw r) w = (Done tt, w', tr).
Proof.
  intros Hc. unfold TestDatabaseRaw, TestDatabaseRaw_with. unmonad. simpl.
  destruct (h _ GetUnsanitizedConfig w) as [c w1] eqn:E. simpl in Hc.
  match goal with
  | |- context [interp h ?p w1] =>
      assert (Ht : total p); [|destruct (total_interp h p w1 Ht)
                                  as ([] & w' & tr & ->); eauto]
  end.
  destruct c as [cfg|]; simpl; [|apply total_respondWithJSON].
  destruct (Hc cfg eq_refl) as [Hd Hs].
  destruct (SqlSettings_DriverName cfg) as [configured|]; [|congruence].
  destruct (SqlSettings_DataSource cfg) as [ds|]; [|congruence].
  simpl.
  assert (Hconn : forall drv,
             total (bind (Vis (sql_Open drv ds) Ret)
                      (fun r0 =>
                         match r0 with
                         | inl db =>
                             defer (Vis (db_Close db) Ret)
                               (bind (runDatabaseTest db drv (parsePageSize r))
                                  (fun '(result, err) =>
                                     match err with
                                     | Some e =>
                                         bind (Vis (LogError "Test failed" ["error"; e]) Ret)
                                           (fun _ => respondWithJSON StatusInternalServerError
                                                       (TestResult_error e "raw"))
                                     | None =>
                                         respondWithJSON StatusOK (set_ConnType result "raw")
                                     end))
                         | inr e =>
                             bind (Vis (LogError "Failed to connect to database directly"
                                          ["error"; e]) Ret)
                               (fun _ => respondWithJSON StatusInternalServerError
                                           (TestResult_error
                                              ("Failed to connect to database: " +:+ e) "raw"))
                         end))).
  { intros drv. simpl. intros [db|x]; simpl.
    - unfold defer. unmonad. apply total_bind.
      + apply total_bind.
        * apply total_runDatabaseTest, parsePageSize_range.
        * intros [res [e|]]; simpl.
          -- intros []. apply total_respondWithJSON.
          -- apply total_respondWithJSON.
      + intros []. simpl. auto.
    - intros []. apply total_respondWithJSON. }
  destruct (String.eqb configured DatabaseDriverMysql); [apply Hconn|].
  destruct (String.eqb configured DatabaseDriverPostgres); [apply Hconn|].
  apply total_respondWithJSON.
Qed.

Lemma raw_returns_with_settings_witness :
  exists w' tr,
    interp (Stub.answer (full_table (fun _ => None)))
           (TestDatabaseRaw (with_page_size "30000")) 0%nat
    = (Done tt, w', tr).
Proof.
  apply (raw_returns_with_settings (Stub.answer (full_table (fun _ => None)))
           0%nat (with_page_size "30000")).
  intros cfg [= <-]. split; discriminate.
Defined.

(** ** The page size the endpoints use *)

(** What it is for a run [tr] of an endpoint to use the page size [b]: the
    pages it asks the database for are pages of [b] rows, from the first
    one on and all of them when the routine succeeds, and then the result
    and every document written report [b] as the page size. *)
Definition used_page_size (conn : string) (b : Z) (tr : trace)
    (res : TestResult) (err : option error) : Prop :=
  exists m,
    (m <= n_pages b)%nat
    /\ queries tr = map (page_at b) (seq 0 m)
    /\ (err = None ->
          m = n_pages b
          /\ PageSize res = b
          /\ forall j, In (Json j) (written tr) ->
                       exists insert_time query_time,
                         j = ok_json insert_time query_time conn b).

Lemma used_page_size_run conn db d b t1 res err post pre suf :
  0 < b <= max_int ->
  runs (runDatabaseTest db d b) t1 (res, err) ->
  outcome_response conn res err post ->
  queries pre = [] -> written pre = [] ->
  queries suf = [] -> written suf = [] ->
  used_page_size conn b (pre ++ t1 ++ post ++ suf) res err.
Proof.
  intros Hb H1 H2 Hqp Hwp Hqs Hws.
  assert (Hw1 : written t1 = []).
  { unfold written. eapply rdt_select; [exact Hb|ignored|exact H1]. }
  assert (Hqo : queries post = []).
  { unfold queries. eapply outcome_response_select; [ignored|reflexivity|exact H2]. }
  apply runs_runDatabaseTest in H1; [|exact Hb].
  destruct (rdt_queries _ _ _ _ _ _ H1) as (m & Hm & Hq & Hall).
  exists m. split; [exact Hm|]. split.
  - rewrite !queries_app, Hqp, Hqo, Hqs, app_nil_r. exact Hq.
  - intros ->. split; [auto|].
    destruct (rdt_ok_result _ _ _ _ _ H1) as (He & Hrq & Hp).
    split; [exact Hp|]. intros j Hj.
    unfold written in Hj. rewrite !select_app in Hj. fold written in Hj.
    rewrite Hwp, Hw1, Hws, app_nil_r in Hj. simpl in Hj.
    unfold outcome_response in H2.
    apply respondWithJSON_calls in H2 as (rest & -> & Hbody).
    apply (marshal_ok res conn j b He Hrq Hp).
    apply (json_body_written _ rest); [exact Hbody|exact Hj].
Qed.

(** C7: for both test endpoints the page size is 100 when the [page_size]
    parameter is absent (or empty) or is an integer that is not positive,
    and is the supplied value when that parses as a positive integer; and
    that page size is the one the endpoint uses: every run either fails
    before the routine is called, or calls the routine with it, asks the
    database for pages of that size and reports it. *)
Theorem page_size_default_or_supplied (r : Request) :
  let param := Values_Get (URL_Query r) "page_size" in
  let b := parsePageSize r in
  ((URL_Query r !! "page_size" = None -> b = 100)
   /\ (param = "" -> b = 100)
   /\ (forall n, Atoi param = Some n -> n <= 0 -> b = 100)
   /\ (forall n, Atoi param = Some n -> 0 < n -> b = n))
  /\ (forall tr u,
        runs (TestDatabase r) tr u ->
        (exists x post, tr = (GetMasterDB ~> inr x) :: post /\ queries tr = [])
        \/ exists db d t1 res err post,
             tr = (GetMasterDB ~> inl db) :: (store_DriverName ~> d) :: t1 ++ post
             /\ runs (runDatabaseTest db d b) t1 (res, err)
             /\ used_page_size "rpc" b tr res err)
  /\ (forall tr u,
        runs (TestDatabaseRaw r) tr u ->
        (exists c post,
           tr = (GetUnsanitizedConfig ~> c) :: post
           /\ connected tr = [] /\ queries tr = [])
        \/ exists cfg drv ds db t1 res err post,
             tr = (GetUnsanitizedConfig ~> Some cfg)
                  :: (sql_Open drv ds ~> inl db)
                  :: t1 ++ post ++ [db_Close db ~> tt]
             /\ runs (runDatabaseTest db drv b) t1 (res, err)
             /\ used_page_size "raw" b tr res err).
Proof.
  intros param b. pose proof (parsePageSize_range r) as Hb. fold b in Hb.
  split; [exact (parsePageSize_cases r)|]. split.
  - intros tr u H.
    apply runs_TestDatabase in H
      as [(x & post & -> & Hr) | (db & d & t1 & res & err & post & -> & H1 & H2)].
    + left. eexists _, _. split; [reflexivity|].
      change (queries post = []). unfold queries. drop_respond Hr. reflexivity.
    + right. exists db, d, t1, res, err, post. split; [reflexivity|].
      split; [exact H1|].
      pose proof (used_page_size_run "rpc" db d b t1 res err post
                    [GetMasterDB ~> inl db; store_DriverName ~> d] []
                    Hb H1 H2 eq_refl eq_refl eq_refl eq_refl) as U.
      rewrite app_nil_r in U. exact U.
  - intros tr u H. apply runs_TestDatabaseRaw in H.
    raw_shapes H.
    + left. eexists _, _. split; [reflexivity|].
      change (connected post = [] /\ queries post = []).
      unfold connected, queries. do 2 drop_respond Hr. auto.
    + left. eexists _, _. split; [reflexivity|].
      change (connected post = [] /\ queries post = []).
      unfold connected, queries. do 2 drop_respond Hr. auto.
    + left. eexists _, _. split; [reflexivity|].
      change (connected post = [] /\ queries post = []).
      unfold connected, queries. do 2 drop_respond Hr. auto.
    + right. exists cfg, drv, ds, db, t1, res, err, post.
      split; [reflexivity|]. split; [exact H1|].
      exact (used_page_size_run "raw" db drv b t1 res err post
               [GetUnsanitizedConfig ~> Some cfg; sql_Open drv ds ~> inl db]
               [db_Close db ~> tt]
               Hb H1 H2 eq_refl eq_refl eq_refl eq_refl).
Qed.

Transparent totalRecords scanPhase rollback respondWithJSON http_Error
  runDatabaseTest.

(** [?page_size=30000] on a full table: two pages, of 30000 and of 20000
    rows, and the document reports 30000. *)
Lemma page_size_default_or_supplied_witness :
  exists tr j,
    Atoi (Values_Get (URL_Query (with_page_size "30000")) "page_size") = Some 30000
    /\ parsePageSize (with_page_size "30000") = 30000
    /\ runs (TestDatabase (with_page_size "30000")) tr tt
    /\ queries tr = [(30000, 0); (20000, 30000)]
    /\ written tr = [Json j]
    /\ (exists insert_time query_time,
          j = ok_json insert_time query_time "rpc" 30000)
    /\ ((exists x post, tr = (GetMasterDB ~> inr x) :: post /\ queries tr = [])
        \/ exists db d t1 res err post,
             tr = (GetMasterDB ~> inl db) :: (store_DriverName ~> d) :: t1 ++ post
             /\ runs (runDatabaseTest db d (parsePageSize (with_page_size "30000")))
                     t1 (res, err)
             /\ used_page_size "rpc" (parsePageSize (with_page_size "30000"))
                  tr res err).
Proof.
  assert (Ha : Atoi (Values_Get (URL_Query (with_page_size "30000")) "page_size")
               = Some 30000).
  { rewrite Values_Get_with_page_size. reflexivity. }
  pose proof (page_size_default_or_supplied (with_page_size "30000")) as T.
  cbv zeta in T. destruct T as ((_ & _ & _ & Hv) & Hrpc & _).
  eexists _, _. split; [exact Ha|].
  split; [apply (Hv 30000 Ha); lia|].
  split; [handler_runs (full_table (fun _ => None))|].
  split; [reflexivity|]. split; [reflexivity|].
  split; [eexists _, _; reflexivity|].
  apply (Hrpc _ tt). handler_runs (full_table (fun _ => None)).
Defined.

Opaque totalRecords scanPhase rollback respondWithJSON http_Error
  runDatabaseTest.
